(** * sms2mail: ModemManager SMS to e-mail forwarder

    A shallow embedding of [sms2mail.py] and the properties of its
    discovery, selection and delivery layer.

    Conventions of the embedding.
    - Python values that cross the bus boundary are the inductive [value]:
      the plain Python types [None], [str], [int], [list] and the
      dbus-python wrapper classes, grouped by the builtin they subclass.
      Floating point values ([dbus.Double]) and dictionaries as property
      values are left out.
    - Strings are [string]; only ASCII white space and digits get their
      Python meaning in [int(...)]. Integers are [Z]: the interpreter's
      limit on the length of decimal conversions is not modelled.
    - Code that raises or logs lives in the monad [M]: it reads the history
      of events of the run, emits new events and returns a value or an
      exception.
    - Library functions whose body is not part of the program
      ([datetime.fromisoformat], [strftime], [str()], [parseaddr],
      [formataddr], [make_msgid], [formatdate]) and the answers of the
      outside world (SMTP server, bus calls that mutate) are variables of
      the sections that use them; those that can raise on the values the
      program hands them ([fromisoformat], [formataddr]) return an
      exception or a value.
    - A proxy is made for an object path only: the bus library checks the
      syntax of the path before any call. The bus name of ModemManager is
      taken to have an owner. *)

From Stdlib Require Import ZArith Ascii String List Bool Lia.
From Stdlib Require Import DecimalString DecimalZ Permutation Sorted.
From stdpp Require Import base option list gmap strings.

Local Open Scope string_scope.
Local Open Scope list_scope.
Local Open Scope Z_scope.

(** ** Strings *)

Module Str.

Definition slash : ascii := "/"%char.

Fixpoint all (p : ascii -> bool) (s : string) : bool :=
  match s with
  | EmptyString => true
  | String c r => p c && all p r
  end.

(** [needle in hay] for two [str]. *)
Fixpoint contains (needle hay : string) : bool :=
  String.prefix needle hay
  || match hay with
     | EmptyString => false
     | String _ r => contains needle r
     end.

(** [s.split(c)] for a one-character separator. *)
Fixpoint split (c : ascii) (s : string) : list string :=
  match s with
  | EmptyString => [EmptyString]
  | String a r =>
      if Ascii.eqb a c then EmptyString :: split c r
      else match split c r with
           | h :: t => String a h :: t
           | [] => [String a EmptyString]
           end
  end.

(** [l[-1]] on the result of a split (which is never empty). *)
Definition last_item (l : list string) : string := List.last l EmptyString.

(** [sep.join(l)] *)
Fixpoint join (sep : string) (l : list string) : string :=
  match l with
  | [] => EmptyString
  | [x] => x
  | x :: r => x +:+ sep +:+ join sep r
  end.

(** The white space that [int] skips around an ASCII numeral: tab, line
    feed, vertical tab, form feed, carriage return and space. *)
Definition is_space (c : ascii) : bool :=
  let n := nat_of_ascii c in
  ((9 <=? n) && (n <=? 13) || (n =? 32))%nat.

Definition is_ascii (c : ascii) : bool := (nat_of_ascii c <? 128)%nat.

Definition is_alpha (c : ascii) : bool :=
  let n := nat_of_ascii c in
  ((65 <=? n) && (n <=? 90) || (97 <=? n) && (n <=? 122))%nat.

Definition is_digit (c : ascii) : bool :=
  let n := nat_of_ascii c in ((48 <=? n) && (n <=? 57))%nat.

Fixpoint lstrip (s : string) : string :=
  match s with
  | String c r => if is_space c then lstrip r else s
  | EmptyString => EmptyString
  end.

Fixpoint rstrip (s : string) : string :=
  match s with
  | EmptyString => EmptyString
  | String c r =>
      match rstrip r with
      | EmptyString => if is_space c then EmptyString else String c EmptyString
      | r' => String c r'
      end
  end.

Definition strip (s : string) : string := rstrip (lstrip s).

(** ["%d" % n] *)
Definition of_Z (n : Z) : string := NilZero.string_of_int (Z.to_int n).

End Str.

(** ** Python's [int(str)], base 10

    Optional white space, an optional sign, then decimal digits in which
    single underscores may separate digits. *)

Module PyInt.

Import Decimal.

Definition digit (c : ascii) : option (uint -> uint) :=
  match c with
  | "0" => Some D0 | "1" => Some D1 | "2" => Some D2 | "3" => Some D3
  | "4" => Some D4 | "5" => Some D5 | "6" => Some D6 | "7" => Some D7
  | "8" => Some D8 | "9" => Some D9
  | _ => None
  end%char.

(** [after_digit] tells whether the previous character was a digit: an
    underscore is accepted only between two digits. *)
Fixpoint digits (after_digit : bool) (s : string) : option uint :=
  match s with
  | EmptyString => if after_digit then Some Nil else None
  | String c r =>
      match digit c with
      | Some d => d <$> digits true r
      | None =>
          if Ascii.eqb c "_" && after_digit then digits false r else None
      end
  end.

Definition of_string (s : string) : option Z :=
  match Str.strip s with
  | String c r =>
      if Ascii.eqb c "-" then (fun d => Z.of_int (Neg d)) <$> digits false r
      else if Ascii.eqb c "+" then (fun d => Z.of_int (Pos d)) <$> digits false r
      else (fun d => Z.of_int (Pos d)) <$> digits false (String c r)
  | EmptyString => None
  end.

End PyInt.


(** ** Values *)

(** dbus-python wrapper classes that subclass [str]. *)
Inductive dbus_str_class := String_ | ObjectPath | Signature.

(** dbus-python wrapper classes that subclass [int]; a [Boolean] holds 0
    or 1. *)
Inductive dbus_int_class :=
  Byte | Boolean | Int16 | UInt16 | Int32 | UInt32 | Int64 | UInt64.

#[warnings="-register-all"]
Inductive value : Type :=
| PyNone
| PyStr (s : string)
| PyInt (n : Z)
| PyList (l : list value)
| DBusStr (c : dbus_str_class) (s : string)
| DBusInt (c : dbus_int_class) (n : Z)
| DBusArray (l : list value)           (* subclass of [list] *)
| DBusStruct (l : list value).         (* subclass of [tuple] *)

(** [isinstance(v, str)], [isinstance(v, int)], [isinstance(v, list)],
    [isinstance(v, tuple)], each with the underlying builtin value. *)
Definition as_str (v : value) : option string :=
  match v with PyStr s | DBusStr _ s => Some s | _ => None end.

Definition as_int (v : value) : option Z :=
  match v with PyInt n | DBusInt _ n => Some n | _ => None end.

Definition as_list (v : value) : option (list value) :=
  match v with PyList l | DBusArray l => Some l | _ => None end.

Definition as_tuple (v : value) : option (list value) :=
  match v with DBusStruct l => Some l | _ => None end.

(** [a == b] *)
Fixpoint py_eq (a b : value) {struct a} : bool :=
  let fix all2 (l l' : list value) {struct l} : bool :=
    match l, l' with
    | [], [] => true
    | x :: r, y :: r' => py_eq x y && all2 r r'
    | _, _ => false
    end in
  match a with
  | PyNone => match b with PyNone => true | _ => false end
  | PyStr s | DBusStr _ s =>
      match as_str b with Some s' => String.eqb s s' | None => false end
  | PyInt n | DBusInt _ n =>
      match as_int b with Some n' => Z.eqb n n' | None => false end
  | PyList l | DBusArray l =>
      match as_list b with Some l' => all2 l l' | None => false end
  | DBusStruct l =>
      match as_tuple b with Some l' => all2 l l' | None => false end
  end.

(** [DBus.type_cast] *)
Fixpoint type_cast (val : value) : value :=
  match val with
  | PyNone => PyNone
  | DBusStr String_ s | DBusStr ObjectPath s => PyStr s
  | DBusInt Int32 n | DBusInt UInt32 n => PyInt n
  | DBusArray l => PyList (List.map type_cast l)
  | _ => val
  end.

(** ** Exceptions, events and the monad of effects *)

(** [UnicodeEncodeError] is a subclass of [ValueError]: a handler for
    [ValueError] catches both. *)
Inductive exn :=
| TypeError
| ValueError
| UnicodeEncodeError
| IndexError
| DBusException (name : string)
| SMTPException (reason : string)
| OSError (reason : string).

Inductive level := INFO | WARNING | ERROR.

(** An argument of a logging call, kept unformatted. *)
Inductive log_arg :=
| LogVal (v : value)
| LogStr (s : string)
| LogIface (path iface : string)   (* a [dbus.Interface] of the proxy at [path] *)
| LogExn (e : exn).

(** A message handed to the SMTP session. *)
Record email := {
  mail_server : string;
  mail_port : Z;
  mail_user : string;
  mail_password : string;
  mail_envelope_from : string;
  mail_envelope_to : list string;
  mail_header_to : string;
  mail_header_from : string;
  mail_subject : string;
  mail_message_id : string;
  mail_date : string;
  mail_body : string
}.

(** What the program does to the outside world, in order. *)
Inductive event :=
| GetManagedObjects (path : string)
| GetAll (path iface : string)
| Smtp (m : email) (failure : option exn)
| Delete (modem sms_path : string) (failure : option exn)
| Log (lvl : level) (fmt : string) (args : list log_arg).

Definition result (A : Type) : Type := exn + A.

(** A computation reads the events that happened before it and returns the
    events it adds, with its value or the exception it raises. *)
Definition M (A : Type) : Type := list event -> list event * result A.

Definition ret {A} (a : A) : M A := fun _ => ([], inr a).

Definition raise {A} (e : exn) : M A := fun _ => ([], inl e).

Definition bind {A B} (m : M A) (f : A -> M B) : M B :=
  fun h =>
    match m h with
    | (ev, inl e) => (ev, inl e)
    | (ev, inr a) =>
        let '(ev', r) := f a (h ++ ev) in (ev ++ ev', r)
    end.

Definition emit (e : event) : M unit := fun _ => ([e], inr tt).

Definition lift {A} (r : result A) : M A := fun _ => ([], r).

(** [try: m except Exception as e: handler e] *)
Definition try_except {A} (m : M A) (handler : exn -> M A) : M A :=
  fun h =>
    match m h with
    | (ev, inl e) => let '(ev', r) := handler e (h ++ ev) in (ev ++ ev', r)
    | (ev, inr a) => (ev, inr a)
    end.

#[global] Instance M_ret : MRet M := @ret.
#[global] Instance M_bind : MBind M := fun A B f m => bind m f.

Definition logging (lvl : level) (fmt : string) (args : list log_arg) : M unit :=
  emit (Log lvl fmt args).

(** [[f x for x in l]] with an [f] that may raise: the first exception
    ends the comprehension. *)
Fixpoint map_r {A B} (f : A -> result B) (l : list A) : result (list B) :=
  match l with
  | [] => inr []
  | x :: r =>
      match f x with
      | inl e => inl e
      | inr y =>
          match map_r f r with
          | inl e => inl e
          | inr ys => inr (y :: ys)
          end
      end
  end.

(** [for x in l: body x] *)
Fixpoint for_each {A} (l : list A) (body : A -> M unit) : M unit :=
  match l with
  | [] => ret tt
  | x :: r => body x;; for_each r body
  end.

(** [[f x for x in l]] with an effectful [f] *)
Fixpoint map_m {A B} (f : A -> M B) (l : list A) : M (list B) :=
  match l with
  | [] => ret []
  | x :: r => y ← f x; ys ← map_m f r; ret (y :: ys)
  end.

(** ** Object paths *)

(** [int(v)] *)
Definition py_int (v : value) : result Z :=
  match v with
  | PyInt n | DBusInt _ n => inr n
  | PyStr s | DBusStr _ s =>
      match PyInt.of_string s with
      | Some n => inr n
      | None => inl ValueError
      end
  | _ => inl TypeError
  end.

Definition mm_root : string := "/org/freedesktop/ModemManager1".

Definition objbasepath (obj : string) : string :=
  mm_root +:+ "/" +:+ obj +:+ "/".

(** The [objid] that [object_path] hands to [int]. *)
Definition object_id (obj : string) (path : value) : value :=
  match as_str path with
  | Some p =>
      if Str.contains (objbasepath obj) p
      then PyStr (Str.last_item (Str.split Str.slash p))
      else path
  | None => path
  end.

(** [ModemManagerObject.object_path] *)
Definition object_path (obj : string) (path : value) : M (option string) :=
  let objbasepath := objbasepath obj in
  let objid := object_id obj path in
  match py_int objid with
  | inr n => ret (Some (objbasepath +:+ Str.of_Z n))
  | inl ValueError | inl UnicodeEncodeError | inl TypeError =>
      logging ERROR "Bad object ID provided: %s" [LogVal objid];;
      ret None
  | inl e => raise e
  end.

(** ** The bus *)

(** The syntax of an object path, as the bus library checks it: a slash
    alone, or one or more elements of letters, digits and underscores,
    each after a slash. *)
Definition is_path_char (c : ascii) : bool :=
  Str.is_alpha c || Str.is_digit c || Ascii.eqb c "_".

Fixpoint valid_elements (after_slash : bool) (s : string) : bool :=
  match s with
  | EmptyString => negb after_slash
  | String c r =>
      if Ascii.eqb c Str.slash then negb after_slash && valid_elements true r
      else is_path_char c && valid_elements false r
  end.

Definition valid_object_path (p : string) : bool :=
  match p with
  | String c EmptyString => Ascii.eqb c Str.slash
  | String c r => Ascii.eqb c Str.slash && valid_elements true r
  | EmptyString => false
  end.

(** The remote side as one poll cycle sees it: the keys of the manager's
    [GetManagedObjects()] reply and, per object path and interface, the
    reply to [Properties.GetAll]. Either call may raise. *)
Record bus := {
  managed_objects : result (list value);
  all_properties : string -> string -> result (gmap string value)
}.

(** An instance of a [DBusInterface] subclass: the path of the proxy it is
    bound to, the interface name and the snapshot of the properties. *)
Record DBusInterface := {
  proxy_path : string;
  name : string;
  properties : option (gmap string value)
}.

Definition get_object_path (self : DBusInterface) : string := proxy_path self.

(** [bool(v)] *)
Definition py_truthy (v : value) : bool :=
  match v with
  | PyNone => false
  | PyStr s | DBusStr _ s => negb (String.eqb s "")
  | PyInt n | DBusInt _ n => negb (n =? 0)
  | PyList l | DBusArray l | DBusStruct l =>
      match l with [] => false | _ => true end
  end.

(** [iter(v)] run to the end *)
Definition py_iter (v : value) : result (list value) :=
  match v with
  | PyList l | DBusArray l | DBusStruct l => inr l
  | PyStr s | DBusStr _ s =>
      inr (List.map (fun c => PyStr (String c EmptyString)) (list_ascii_of_string s))
  | _ => inl TypeError
  end.

(** [item in container] *)
Definition py_in (item container : value) : result bool :=
  match container with
  | PyStr s | DBusStr _ s =>
      match as_str item with
      | Some i => inr (Str.contains i s)
      | None => inl TypeError
      end
  | PyList l | DBusArray l | DBusStruct l => inr (existsb (py_eq item) l)
  | _ => inl TypeError
  end.

(** [list(filter(p, map(f, it)))]: both are lazy, so [f] and [p] alternate. *)
Fixpoint filter_map_m {A B} (p : B -> M bool) (f : A -> M B) (it : list A)
  : M (list B) :=
  match it with
  | [] => ret []
  | x :: r =>
      y ← f x;
      keep ← p y;
      ys ← filter_map_m p f r;
      ret (if keep : bool then y :: ys else ys)
  end.

Section Bus.

Variable remote : bus.

(** [DBusInterface.get_properties] *)
Definition get_properties (path iface : string) : M (option (gmap string value)) :=
  emit (GetAll path iface);;
  match all_properties remote path iface with
  | inr props => ret (Some props)
  | inl (DBusException e) =>
      logging ERROR "Cannot get %s interface properties: %s"
        [LogIface path iface; LogExn (DBusException e)];;
      ret None
  | inl e => raise e
  end.

(** [DBusInterface.__init__] on a proxy that is already set up. *)
Definition DBusInterface_init (path iface : string) : M DBusInterface :=
  props ← get_properties path iface;
  ret {| proxy_path := path; name := iface; properties := props |}.

(** [DBus.setup_proxy_object], as [DBusObject.__init__] calls it:
    [get_object] checks the object path before it talks to the bus. A path
    that is [None] is a [TypeError], a string that is not an object path a
    [ValueError]. The bus name is taken to have an owner (ModemManager is
    running), so that the proxy is made. *)
Definition setup_proxy_object (path : option string) : M string :=
  match path with
  | Some p => if valid_object_path p then ret p else raise ValueError
  | None => raise TypeError
  end.

(** [DBusInterface.get_property] *)
Definition get_property (self : DBusInterface) (prop : string) : value :=
  match properties self with
  | Some props =>
      match props !! prop with
      | Some v => type_cast v
      | None => PyNone
      end
  | None => PyNone
  end.

(** [MMModem.__init__] *)
Definition MMModem (modem : value) : M DBusInterface :=
  path ← object_path "Modem" modem;
  p ← setup_proxy_object path;
  DBusInterface_init p "org.freedesktop.ModemManager1.Modem".

(** [MMModemSms.__init__] *)
Definition MMModemSms (sms : value) : M DBusInterface :=
  path ← object_path "SMS" sms;
  p ← setup_proxy_object path;
  DBusInterface_init p "org.freedesktop.ModemManager1.Sms".

(** [MMModemMessaging.__init__] on an [MMModem] instance: the proxy of
    the modem is borrowed. *)
Definition MMModemMessaging (modem : DBusInterface) : M DBusInterface :=
  DBusInterface_init (proxy_path modem)
    "org.freedesktop.ModemManager1.Modem.Messaging".

Definition Manufacturer (self : DBusInterface) := get_property self "Manufacturer".
Definition Model (self : DBusInterface) := get_property self "Model".
Definition EquipmentIdentifier (self : DBusInterface) :=
  get_property self "EquipmentIdentifier".
Definition OwnNumbers (self : DBusInterface) := get_property self "OwnNumbers".
Definition Number (self : DBusInterface) := get_property self "Number".
Definition Text (self : DBusInterface) := get_property self "Text".
Definition State (self : DBusInterface) := get_property self "State".
Definition Timestamp (self : DBusInterface) := get_property self "Timestamp".
Definition Messages (self : DBusInterface) := get_property self "Messages".

End Bus.

(** ** Message states *)

Inductive MMSmsState :=
| MM_SMS_STATE_UNKNOWN
| MM_SMS_STATE_STORED
| MM_SMS_STATE_RECEIVING
| MM_SMS_STATE_RECEIVED
| MM_SMS_STATE_SENDING
| MM_SMS_STATE_SENT.

Definition state_code (s : MMSmsState) : Z :=
  match s with
  | MM_SMS_STATE_UNKNOWN => 0
  | MM_SMS_STATE_STORED => 1
  | MM_SMS_STATE_RECEIVING => 2
  | MM_SMS_STATE_RECEIVED => 3
  | MM_SMS_STATE_SENDING => 4
  | MM_SMS_STATE_SENT => 5
  end.

(** ** Dates *)

(** A [datetime.datetime]; [utcoffset] is [None] for a naive value and the
    offset in seconds for an aware one. *)
Record datetime := {
  year : Z; month : Z; day : Z;
  hour : Z; minute : Z; second : Z; microsecond : Z;
  utcoffset : option Z
}.

Definition datetime_min : datetime :=
  {| year := 1; month := 1; day := 1;
     hour := 0; minute := 0; second := 0; microsecond := 0;
     utcoffset := None |}.

Definition fields (d : datetime) : list Z :=
  [year d; month d; day d; hour d; minute d; second d; microsecond d].

(** Tuple comparison, [a < b]. *)
Fixpoint lex_lt (a b : list Z) : bool :=
  match a, b with
  | x :: r, y :: r' => (x <? y) || (x =? y) && lex_lt r r'
  | [], _ :: _ => true
  | _, [] => false
  end.

Definition is_leap (y : Z) : bool :=
  (y mod 4 =? 0) && (negb (y mod 100 =? 0) || (y mod 400 =? 0)).

Definition days_before_year (y : Z) : Z :=
  let p := y - 1 in p * 365 + p / 4 - p / 100 + p / 400.

Definition days_in_month (y m : Z) : Z :=
  match m with
  | 2 => if is_leap y then 29 else 28
  | 4 | 6 | 9 | 11 => 30
  | _ => 31
  end.

Definition days_before_month (y m : Z) : Z :=
  fold_left Z.add (List.map (days_in_month y) (List.map Z.of_nat (seq 1 (Z.to_nat (m - 1))))) 0.

(** Microseconds of the wall-clock reading since [datetime.min]'s day 0. *)
Definition wall_us (d : datetime) : Z :=
  let ordinal := days_before_year (year d) + days_before_month (year d) (month d) + day d in
  (((ordinal * 24 + hour d) * 60 + minute d) * 60 + second d) * 1000000
  + microsecond d.

(** [a < b] on datetimes: with equal offsets (or two naive values) the
    fields are compared as tuples; a naive and an aware value do not
    compare; two different offsets compare the instants. *)
Definition datetime_lt (a b : datetime) : result bool :=
  match utcoffset a, utcoffset b with
  | None, None => inr (lex_lt (fields a) (fields b))
  | Some oa, Some ob =>
      if oa =? ob then inr (lex_lt (fields a) (fields b))
      else inr (wall_us a - oa * 1000000 <? wall_us b - ob * 1000000)
  | _, _ => inl TypeError
  end.

(** ** [list.sort]

    The sort is stable and uses only [<] on the keys; an exception raised
    by a comparison ends it. Insertion from the right stands for the
    library's merge sort: on success every stable sort returns the same
    list. With [reverse] the list is reversed, sorted and reversed again,
    which keeps equal keys in their original order. *)

Section Sort.

Context {K A : Type}.
Variable lt : K -> K -> result bool.

Fixpoint insert (x : K * A) (l : list (K * A)) : result (list (K * A)) :=
  match l with
  | [] => inr [x]
  | y :: r =>
      match lt (fst y) (fst x) with
      | inl e => inl e
      | inr true =>
          match insert x r with
          | inl e => inl e
          | inr r' => inr (y :: r')
          end
      | inr false => inr (x :: y :: r)
      end
  end.

Fixpoint stable_sort (l : list (K * A)) : result (list (K * A)) :=
  match l with
  | [] => inr []
  | x :: r =>
      match stable_sort r with
      | inl e => inl e
      | inr s => insert x s
      end
  end.

Definition list_sort (reverse : bool) (l : list (K * A)) : result (list (K * A)) :=
  if reverse then
    match stable_sort (rev l) with
    | inl e => inl e
    | inr s => inr (rev s)
    end
  else stable_sort l.

End Sort.

(** ** Messages of a modem *)

Inductive get_sms_result :=
| SmsList (l : list DBusInterface)
| SmsOne (m : DBusInterface)
| SmsNone.

Section Messaging.

Variable remote : bus.

(** [datetime.fromisoformat] on a [str]; [None] stands for [ValueError]. *)
Variable fromisoformat : string -> option datetime.

(** [dt.strftime(fmt)] *)
Variable strftime : datetime -> string -> string.

(** [MMModemSms.get_datetime] *)
Definition get_datetime (self : DBusInterface) : M (option datetime) :=
  let stamp := Timestamp self in
  if py_truthy stamp then
    match as_str stamp with
    | None => raise TypeError
    | Some s =>
        match fromisoformat s with
        | Some d => ret (Some d)
        | None =>
            logging WARNING "Invalid timestamp format: %s" [LogVal stamp];;
            ret None
        end
    end
  else ret None.

(** [MMModemSms.get_date] *)
Definition get_date (self : DBusInterface) : M string :=
  dt ← get_datetime self;
  match dt with
  | Some d => ret (strftime d "%d.%m.%Y, %H:%M:%S Uhr")
  | None => ret "Datum nicht verfügbar"
  end.

Definition is_received (x : DBusInterface) : bool :=
  py_eq (State x) (PyInt (state_code MM_SMS_STATE_RECEIVED)).

Definition sort_key (x : DBusInterface) : M (datetime * DBusInterface) :=
  dt ← get_datetime x;
  ret (default datetime_min dt, x).

(** [MMModemMessaging.get_sms] *)
Definition get_sms (self : DBusInterface) (sms : value) (reverse : bool)
  : M get_sms_result :=
  match sms with
  | PyNone =>
      paths ← lift (py_iter (Messages self));
      messages ← filter_map_m (fun x => ret (is_received x)) (MMModemSms remote) paths;
      keyed ← map_m sort_key messages;
      sorted ← lift (list_sort datetime_lt reverse keyed);
      ret (SmsList (List.map snd sorted))
  | _ =>
      smspath ← object_path "SMS" sms;
      found ← lift (py_in (from_option PyStr PyNone smspath) (Messages self));
      if found : bool then
        m ← MMModemSms remote (from_option PyStr PyNone smspath);
        ret (SmsOne m)
      else ret SmsNone
  end.

End Messaging.

(** ** The manager *)

Record ModemManager := { modems : list string }.

Inductive get_modem_result :=
| ModemOne (m : DBusInterface)
| ModemList (l : list DBusInterface)
| ModemNone.

Definition allowed_names : list string :=
  ["Manufacturer"; "Model"; "EquipmentIdentifier"; "OwnNumbers"; "PrimaryPort"; "State"].

Section Manager.

Variable remote : bus.

(** [ModemManager.get_modems_list] *)
Definition get_modems_list : M (list string) :=
  emit (GetManagedObjects mm_root);;
  objects ← lift (managed_objects remote);
  ret (omap (fun p => match p with
                      | DBusStr ObjectPath s => Some s
                      | _ => None
                      end) objects).

(** [ModemManager.__init__] *)
Definition ModemManager_init : M ModemManager :=
  l ← get_modems_list;
  ret {| modems := l |}.

(** [ModemManager.get_modem] *)
Definition get_modem (self : ModemManager) (modem : value) : M (option DBusInterface) :=
  mpath ← object_path "Modem" modem;
  match mpath with
  | Some p =>
      if bool_decide (p ∈ modems self) then
        m ← MMModem remote (PyStr p);
        ret (Some m)
      else ret None
  | None => ret None
  end.

(** [ModemManager.get_first] *)
Definition get_first (self : ModemManager) : M (option DBusInterface) :=
  match modems self with
  | first :: _ => get_modem self (PyStr first)
  | [] => ret None
  end.

(** [ModemManager.get_modem_by] *)
Definition get_modem_by (self : ModemManager) (prop : string) (val : value)
  : M get_modem_result :=
  match val with
  | PyNone =>
      m ← get_first self;
      ret (from_option ModemOne ModemNone m)
  | _ =>
      if bool_decide (prop ∈ allowed_names) then
        found ← filter_map_m (fun x => lift (py_in val (get_property x prop)))
                  (MMModem remote) (List.map PyStr (modems self));
        match found with
        | [m] => ret (ModemOne m)
        | _ => ret (ModemList found)
        end
      else ret ModemNone
  end.

End Manager.

(** ** Delivery *)

Record config := {
  mail_to : list (string * string);
  known_senders : gmap string string;
  interval : Z;
  delete_after_sending : bool;
  continuous_mode : bool
}.

(** [hash(v)] is defined: lists are not hashable, a tuple is when its items
    are. *)
Fixpoint py_hashable (v : value) : bool :=
  match v with
  | PyList _ | DBusArray _ => false
  | DBusStruct l => forallb py_hashable l
  | _ => true
  end.

(** [d.get(key, default)] on a dictionary with [str] keys and values *)
Definition dict_get (d : gmap string string) (key default : value) : result value :=
  if py_hashable key then
    match as_str key with
    | Some k => inr (from_option PyStr default (d !! k))
    | None => inr default
    end
  else inl TypeError.

Section Delivery.

Variable remote : bus.
Variable fromisoformat : string -> option datetime.
Variable strftime : datetime -> string -> string.

(** [str(v)], as the f-strings use it. *)
Variable py_str : value -> string.

(** [email.utils.parseaddr], [formataddr], [make_msgid] and [formatdate];
    [formataddr] raises for an address it cannot encode, the last two depend
    on the moment of the call. *)
Variable parseaddr : string -> string * string.
Variable formataddr : string * string -> result string.
Variable make_msgid : list event -> string -> string.
Variable formatdate : list event -> string.

(** What the SMTP session ([connect], [starttls], [login], [sendmail])
    does with a message: [None] when it goes through, else the exception
    it raises. *)
Variable smtp_session : list event -> email -> option exn.

(** What the [Delete] call of the messaging interface answers. *)
Variable bus_delete : list event -> string -> string -> option exn.

(** [MMModemMessaging.delete_sms] *)
Definition delete_sms (self : DBusInterface) (sms_path : string) : M unit :=
  fun h =>
    let r := bus_delete h (proxy_path self) sms_path in
    ([Delete (proxy_path self) sms_path r],
     match r with Some e => inl e | None => inr tt end).

(** The [with smtplib.SMTP(...)] block of [send_email]. *)
Definition smtp_send (m : email) : M unit :=
  fun h =>
    let r := smtp_session h m in
    ([Smtp m r], match r with Some e => inl e | None => inr tt end).

(** [send_email] *)
Definition send_email (smtp_server : string) (smtp_port : Z)
    (smtp_user smtp_password from_addr : string)
    (to_addrs : list (string * string)) (subject body : string) : M unit :=
  let '(from_name, from_email) := parseaddr from_addr in
  match Str.split "@" from_email with
  | _ :: from_domain :: _ =>
      match map_r formataddr to_addrs with
      | inl e => raise e
      | inr to_items =>
          match formataddr (from_name, from_email) with
          | inl e => raise e
          | inr header_from =>
              fun h =>
                let msg :=
                  {| mail_server := smtp_server;
                     mail_port := smtp_port;
                     mail_user := smtp_user;
                     mail_password := smtp_password;
                     mail_envelope_from := from_email;
                     mail_envelope_to := List.map snd to_addrs;
                     mail_header_to := Str.join ", " to_items;
                     mail_header_from := header_from;
                     mail_subject := subject;
                     mail_message_id := make_msgid h from_domain;
                     mail_date := formatdate h;
                     mail_body := body |} in
                try_except
                  (smtp_send msg;;
                   logging INFO "Email sent successfully." [])
                  (fun e => logging ERROR "Failed to send email: %s" [LogExn e])
                  h
          end
      end
  | _ => raise IndexError
  end.

Variable smtp_server : string.
Variable smtp_port : Z.
Variable smtp_user smtp_password mail_from : string.
Variable cfg : config.

(** The body of the [for msg in messages] loop of [process_messages]. *)
Definition process_message (messaging msg : DBusInterface) : M unit :=
  let sender_number := Number msg in
  sender_name ← lift (dict_get (known_senders cfg) sender_number sender_number);
  logging INFO "SMS from %s: %s" [LogVal sender_number; LogVal (Text msg)];;
  let subject := "New SMS from " +:+ py_str sender_name in
  date ← get_date fromisoformat strftime msg;
  let body :=
    "From: " +:+ py_str sender_name +:+ "
Date: " +:+ date +:+ "

" +:+ py_str (Text msg) in
  send_email smtp_server smtp_port smtp_user smtp_password mail_from
    (mail_to cfg) subject body;;
  if delete_after_sending cfg then
    try_except
      (delete_sms messaging (get_object_path msg);;
       logging INFO "Deleted SMS %s" [LogStr (get_object_path msg)])
      (fun e => logging ERROR "Failed to delete SMS %s: %s"
                  [LogStr (get_object_path msg); LogExn e])
  else ret tt.

(** [process_messages], one poll cycle *)
Definition process_messages : M unit :=
  mm ← ModemManager_init remote;
  modem ← get_first remote mm;
  match modem with
  | Some modem =>
      messaging ← MMModemMessaging remote modem;
      messages ← get_sms remote fromisoformat messaging PyNone true;
      match messages with
      | SmsList l => for_each l (process_message messaging)
      | _ => ret tt
      end
  | None => ret tt
  end.

End Delivery.

(** ** A reference instance of the library functions and a sample bus

    The theorems below hold for every choice of the library functions; the
    instance here serves to run the program on concrete inputs. *)

Module Sample.

(** Exactly [n] decimal digits at the head of [s]. *)
Fixpoint number (n : nat) (acc : Z) (s : string) : option (Z * string) :=
  match n with
  | O => Some (acc, s)
  | S n' =>
      match s with
      | String c r =>
          if Str.is_digit c
          then number n' (10 * acc + (Z.of_nat (nat_of_ascii c) - 48)) r
          else None
      | EmptyString => None
      end
  end.

Definition expect (c : ascii) (s : string) : option string :=
  match s with
  | String c' r => if Ascii.eqb c c' then Some r else None
  | EmptyString => None
  end.

Definition parse_date (s : string) : option (Z * Z * Z * string) :=
  '(y, s) ← number 4 0 s;
  s ← expect "-" s;
  '(m, s) ← number 2 0 s;
  s ← expect "-" s;
  '(d, s) ← number 2 0 s;
  guard (1 <= y ∧ 1 <= m <= 12 ∧ 1 <= d <= days_in_month y m);;
  Some (y, m, d, s).

Definition parse_hms (s : string) : option (Z * Z * Z * string) :=
  '(h, s) ← number 2 0 s;
  s ← expect ":" s;
  '(m, s) ← number 2 0 s;
  s ← expect ":" s;
  '(sec, s) ← number 2 0 s;
  guard (h < 24 ∧ m < 60 ∧ sec < 60);;
  Some (h, m, sec, s).

Definition parse_offset (s : string) : option (option Z) :=
  match s with
  | EmptyString => Some None
  | String c r =>
      sign ← (if Ascii.eqb c "+" then Some 1
              else if Ascii.eqb c "-" then Some (-1) else None);
      '(h, r) ← number 2 0 r;
      r ← expect ":" r;
      '(m, r) ← number 2 0 r;
      guard (h < 24 ∧ m < 60 ∧ r = EmptyString);;
      Some (Some (sign * (h * 3600 + m * 60)))
  end.

(** [datetime.fromisoformat] on the profile [YYYY-MM-DD],
    [YYYY-MM-DDxHH:MM:SS] and [YYYY-MM-DDxHH:MM:SS±HH:MM], with any
    separator character [x]. The library accepts more spellings (fractions
    of a second, shortened times); they are rejected here. *)
Definition fromisoformat (s : string) : option datetime :=
  '(y, m, d, s) ← parse_date s;
  match s with
  | EmptyString =>
      Some {| year := y; month := m; day := d;
              hour := 0; minute := 0; second := 0; microsecond := 0;
              utcoffset := None |}
  | String _ s =>
      '(h, mi, sec, s) ← parse_hms s;
      off ← parse_offset s;
      Some {| year := y; month := m; day := d;
              hour := h; minute := mi; second := sec; microsecond := 0;
              utcoffset := off |}
  end.

Definition pad (width : nat) (n : Z) : string :=
  let digits := Str.of_Z n in
  String.concat "" (repeat "0" (width - String.length digits)) +:+ digits.

(** [strftime] for the directives [%d %m %Y %H %M %S]; other characters
    are copied. *)
Fixpoint strftime (d : datetime) (fmt : string) : string :=
  match fmt with
  | String "%" (String c r) =>
      (if Ascii.eqb c "d" then pad 2 (day d)
       else if Ascii.eqb c "m" then pad 2 (month d)
       else if Ascii.eqb c "Y" then pad 4 (year d)
       else if Ascii.eqb c "H" then pad 2 (hour d)
       else if Ascii.eqb c "M" then pad 2 (minute d)
       else if Ascii.eqb c "S" then pad 2 (second d)
       else String "%" (String c EmptyString))
      +:+ strftime d r
  | String c r => String c (strftime d r)
  | EmptyString => EmptyString
  end.

(** [str(v)] for [None], [str] and [int] values; the examples format no
    other value. *)
Definition py_str (v : value) : string :=
  match v with
  | PyNone => "None"
  | PyStr s | DBusStr _ s => s
  | PyInt n | DBusInt _ n => Str.of_Z n
  | _ => "<object>"
  end.

(** [parseaddr] for a bare address without display name; [formataddr]
    for an ASCII display name without special characters: the address must
    encode as ASCII, whatever the name is; [make_msgid] and [formatdate] at
    a fixed instant. *)
Definition parseaddr (a : string) : string * string := ("", a).
Definition formataddr (p : string * string) : result string :=
  if Str.all Str.is_ascii (snd p) then
    if String.eqb (fst p) "" then inr (snd p)
    else inr (fst p +:+ " <" +:+ snd p +:+ ">")
  else inl UnicodeEncodeError.
Definition make_msgid (h : list event) (domain : string) : string :=
  "<" +:+ Str.of_Z (Z.of_nat (length h)) +:+ "@" +:+ domain +:+ ">".
Definition formatdate (h : list event) : string :=
  "Mon, 01 Jan 2024 10:00:00 -0000".

Definition sms_path (n : Z) : string := objbasepath "SMS" +:+ Str.of_Z n.
Definition modem0 : string := objbasepath "Modem" +:+ "0".

Definition sms_props (number text : string) (state : Z) (stamp : option string)
  : gmap string value :=
  let base : gmap string value :=
    {[ "Number" := DBusStr String_ number;
       "Text" := DBusStr String_ text;
       "State" := DBusInt UInt32 state ]} in
  match stamp with
  | Some t => <["Timestamp" := DBusStr String_ t]> base
  | None => base
  end.

Definition modem_props : gmap string value :=
  {[ "Manufacturer" := DBusStr String_ "QUALCOMM INCORPORATED";
     "Model" := DBusStr String_ "QUECTEL Mobile Broadband Module";
     "EquipmentIdentifier" := DBusStr String_ "860000000000001";
     "OwnNumbers" := DBusArray [DBusStr String_ "+491700000000"];
     "PrimaryPort" := DBusStr String_ "cdc-wdm0";
     "State" := DBusInt Int32 8 ]}.

(** A bus with one modem and the given messages, numbered from 1. *)
Definition bus_of (msgs : list (gmap string value)) : bus :=
  {| managed_objects := inr [DBusStr ObjectPath modem0];
     all_properties path iface :=
       if String.eqb path modem0 then
         if String.eqb iface "org.freedesktop.ModemManager1.Modem"
         then inr modem_props
         else if String.eqb iface "org.freedesktop.ModemManager1.Modem.Messaging"
         then inr {[ "Messages" :=
                       DBusArray (List.map (fun i => DBusStr ObjectPath (sms_path (Z.of_nat i)))
                                    (seq 1 (length msgs))) ]}
         else inl (DBusException "org.freedesktop.DBus.Error.UnknownInterface")
       else
         match
           List.find (fun '(i, _) => String.eqb path (sms_path (Z.of_nat i)))
             (combine (seq 1 (length msgs)) msgs)
         with
         | Some (_, props) => inr props
         | None => inl (DBusException "org.freedesktop.DBus.Error.UnknownMethod")
         end |}.

(** A bus without any modem. *)
Definition empty_bus : bus :=
  {| managed_objects := inr [];
     all_properties _ _ := inl (DBusException "org.freedesktop.DBus.Error.UnknownMethod") |}.

(** The remote message set of the specification's example. *)
Definition example_msgs : list (gmap string value) :=
  [ sms_props "+491701234567" "Hi" 3 (Some "2024-01-01T10:00:00");
    sms_props "+491707654321" "Sent" 5 (Some "2024-01-02T10:00:00") ].

Definition example_bus : bus := bus_of example_msgs.

(** Two received messages, the first with a UTC offset in its timestamp,
    the second without a timestamp. *)
Definition mixed_msgs : list (gmap string value) :=
  [ sms_props "+491701234567" "Hi" 3 (Some "2024-01-01T10:00:00+01:00");
    sms_props "+491707654321" "Ho" 3 None ].

Definition mixed_bus : bus := bus_of mixed_msgs.

(** Two received messages, the older one listed first. *)
Definition two_msgs : list (gmap string value) :=
  [ sms_props "+491701234567" "Hi" 3 (Some "2024-01-01T10:00:00");
    sms_props "+491707654321" "Ho" 3 (Some "2024-01-02T10:00:00") ].

Definition two_bus : bus := bus_of two_msgs.

(** The message object that [MMModemSms] builds for message [i] of
    [bus_of msgs]. *)
Definition sms_object (i : Z) (props : gmap string value) : DBusInterface :=
  {| proxy_path := sms_path i;
     name := "org.freedesktop.ModemManager1.Sms";
     properties := Some props |}.

Definition manager : ModemManager := {| modems := [modem0] |}.

(** The messaging interface of the modem of [bus_of msgs], as
    [MMModemMessaging] builds it. *)
Definition messaging_of (msgs : list (gmap string value)) : DBusInterface :=
  {| proxy_path := modem0;
     name := "org.freedesktop.ModemManager1.Modem.Messaging";
     properties :=
       Some {[ "Messages" :=
                 DBusArray (List.map (fun i => DBusStr ObjectPath (sms_path (Z.of_nat i)))
                              (seq 1 (length msgs))) ]} |}.

(** The SMTP server refuses the first message it is offered and accepts
    the later ones. *)
Definition smtp_first_fails (h : list event) (m : email) : option exn :=
  if forallb (fun e => match e with Smtp _ _ => false | _ => true end) h
  then Some (SMTPException "451 try again later")
  else None.

Definition cfg (delete : bool) : config :=
  {| mail_to := [("Admin", "admin@example.org")];
     known_senders := ∅;
     interval := 60;
     delete_after_sending := delete;
     continuous_mode := false |}.

Definition smtp_ok (h : list event) (m : email) : option exn := None.
Definition delete_ok (h : list event) (modem sms : string) : option exn := None.

(** A configuration whose recipient address is outside ASCII. *)
Definition cfg_umlaut (delete : bool) : config :=
  {| mail_to := [("Admin", "admin@müller.de")];
     known_senders := ∅;
     interval := 60;
     delete_after_sending := delete;
     continuous_mode := false |}.

(** One turn of the delivery loop and one poll cycle with the reference
    instance, for a given sender address and configuration. *)
Definition turn_as (mail_from : string) (c : config)
    (smtp : list event -> email -> option exn)
    (del : list event -> string -> string -> option exn)
    (messaging msg : DBusInterface) : M unit :=
  process_message fromisoformat strftime py_str parseaddr formataddr
    make_msgid formatdate smtp del "smtp.example.org" 587 "user" "secret"
    mail_from c messaging msg.

Definition cycle_as (remote : bus) (mail_from : string) (c : config)
    (smtp : list event -> email -> option exn)
    (del : list event -> string -> string -> option exn) : M unit :=
  process_messages remote fromisoformat strftime py_str parseaddr formataddr
    make_msgid formatdate smtp del "smtp.example.org" 587 "user" "secret"
    mail_from c.

(** One turn of the delivery loop with the reference instance. *)
Definition turn (smtp : list event -> email -> option exn)
    (del : list event -> string -> string -> option exn) (delete : bool)
    (messaging msg : DBusInterface) : M unit :=
  process_message fromisoformat strftime py_str parseaddr formataddr
    make_msgid formatdate smtp del "smtp.example.org" 587 "user" "secret"
    "gateway@example.org" (cfg delete) messaging msg.

(** What [get_sms()] returns on [example_bus] and on [two_bus]. *)
Definition example_received : list DBusInterface :=
  [ sms_object 1 (sms_props "+491701234567" "Hi" 3 (Some "2024-01-01T10:00:00")) ].

Definition two_received : list DBusInterface :=
  [ sms_object 2 (sms_props "+491707654321" "Ho" 3 (Some "2024-01-02T10:00:00"));
    sms_object 1 (sms_props "+491701234567" "Hi" 3 (Some "2024-01-01T10:00:00")) ].

(** One poll cycle on [remote] with the reference instance. *)
Definition cycle (remote : bus) (smtp : list event -> email -> option exn)
    (del : list event -> string -> string -> option exn) (delete : bool) : M unit :=
  process_messages remote fromisoformat strftime py_str parseaddr formataddr
    make_msgid formatdate smtp del "smtp.example.org" 587 "user" "secret"
    "gateway@example.org" (cfg delete).

End Sample.

(** ** Vocabulary of the statements *)

(** The wire classes that [type_cast] converts. *)
Definition recognized (v : value) : bool :=
  match v with
  | DBusStr String_ _ | DBusStr ObjectPath _
  | DBusInt Int32 _ | DBusInt UInt32 _
  | DBusArray _ => true
  | _ => false
  end.

(** [<root>/<kind>/<n>] *)
Definition full_path (kind : string) (n : Z) : string :=
  mm_root +:+ "/" +:+ kind +:+ "/" +:+ Str.of_Z n.

(** [int(v)] returns. *)
Definition numeric (v : value) : Prop := exists n, py_int v = inr n.

(** No character of [s] is [c]. *)
Definition lacks (c : ascii) (s : string) : bool :=
  Str.all (fun x => negb (Ascii.eqb x c)) s.

(** The characters of a decimal numeral. *)
Definition numeral_char (c : ascii) : bool :=
  Str.is_digit c || Ascii.eqb c "-".

(** The result of [object_path] without its logging. *)
Definition encoded (obj : string) (v : value) : option string :=
  match py_int (object_id obj v) with
  | inr n => Some (full_path obj n)
  | inl _ => None
  end.

(** The path [p] occurs in a listing of paths. *)
Definition listed (p : string) (l : list value) : Prop :=
  exists x, x ∈ l /\ as_str x = Some p.

(** The events that bind an entity to a remote object. *)
Definition is_fetch (e : event) : bool :=
  match e with GetAll _ _ => true | _ => false end.

Definition is_log (e : event) : bool :=
  match e with Log _ _ _ => true | _ => false end.

(** Send and delete attempts, as the cycle makes them. *)
Inductive action :=
| SendAttempt (subject body : string)
| DeleteAttempt (sms_path : string).

Definition action_of (e : event) : option action :=
  match e with
  | Smtp m _ => Some (SendAttempt (mail_subject m) (mail_body m))
  | Delete _ p _ => Some (DeleteAttempt p)
  | _ => None
  end.

Definition actions (ev : list event) : list action := omap action_of ev.

(** A listing whose items are all [str]. *)
Definition path_listing (l : list value) : Prop :=
  Forall (fun x => is_Some (as_str x)) l.

(** What [get_datetime] returns or raises, without its logging. *)
Definition timestamp_of (fromisoformat : string -> option datetime)
    (m : DBusInterface) : result (option datetime) :=
  let stamp := Timestamp m in
  if py_truthy stamp then
    match as_str stamp with
    | Some s => inr (fromisoformat s)
    | None => inl TypeError
    end
  else inr None.

(** The sort key of a message that [get_datetime] accepts. *)
Definition key_of (fromisoformat : string -> option datetime)
    (m : DBusInterface) : datetime :=
  match timestamp_of fromisoformat m with
  | inr (Some d) => d
  | _ => datetime_min
  end.

Definition date_of (fromisoformat : string -> option datetime)
    (strftime : datetime -> string -> string) (m : DBusInterface) : string :=
  match timestamp_of fromisoformat m with
  | inr (Some d) => strftime d "%d.%m.%Y, %H:%M:%S Uhr"
  | _ => "Datum nicht verfügbar"
  end.

(** The display name of the sender of a message whose number is hashable. *)
Definition sender_name_of (cfg : config) (m : DBusInterface) : value :=
  match dict_get (known_senders cfg) (Number m) (Number m) with
  | inr v => v
  | inl _ => Number m
  end.

Definition subject_of (py_str : value -> string) (cfg : config)
    (m : DBusInterface) : string :=
  "New SMS from " +:+ py_str (sender_name_of cfg m).

Definition body_of (fromisoformat : string -> option datetime)
    (strftime : datetime -> string -> string) (py_str : value -> string)
    (cfg : config) (m : DBusInterface) : string :=
  "From: " +:+ py_str (sender_name_of cfg m) +:+ "
Date: " +:+ date_of fromisoformat strftime m +:+ "

" +:+ py_str (Text m).

(** Rendering the message raises nothing: the number can be looked up and
    the timestamp, when there is one, is a [str]. *)
Definition renders (m : DBusInterface) : bool :=
  py_hashable (Number m)
  && (negb (py_truthy (Timestamp m)) || bool_decide (is_Some (as_str (Timestamp m)))).

(** The domain that [send_email] takes from the sender address. *)
Definition from_domain (parseaddr : string -> string * string)
    (from_addr : string) : option string :=
  match Str.split "@" (snd (parseaddr from_addr)) with
  | _ :: d :: _ => Some d
  | _ => None
  end.

(** What [send_email] has in hand when it reaches its [try]: the domain
    of the sender address and the To and From headers; or the exception
    that ends the call before the SMTP session. *)
Definition prepared (parseaddr : string -> string * string)
    (formataddr : string * string -> result string)
    (from_addr : string) (to_addrs : list (string * string))
  : result (string * string * string) :=
  match from_domain parseaddr from_addr with
  | None => inl IndexError
  | Some d =>
      match map_r formataddr to_addrs with
      | inl e => inl e
      | inr to_items =>
          match formataddr (parseaddr from_addr) with
          | inl e => inl e
          | inr header_from => inr (d, Str.join ", " to_items, header_from)
          end
      end
  end.

(** The log line that follows an SMTP session. *)
Definition send_log (r : option exn) : event :=
  match r with
  | Some e => Log ERROR "Failed to send email: %s" [LogExn e]
  | None => Log INFO "Email sent successfully." []
  end.

(** The log line that follows a [Delete] call. *)
Definition delete_log (sms_path : string) (r : option exn) : event :=
  match r with
  | Some e => Log ERROR "Failed to delete SMS %s: %s" [LogStr sms_path; LogExn e]
  | None => Log INFO "Deleted SMS %s" [LogStr sms_path]
  end.

(** What one message adds to the send and delete attempts of a cycle. *)
Definition attempts (fromisoformat : string -> option datetime)
    (strftime : datetime -> string -> string) (py_str : value -> string)
    (cfg : config) (m : DBusInterface) : list action :=
  SendAttempt (subject_of py_str cfg m) (body_of fromisoformat strftime py_str cfg m)
  :: (if delete_after_sending cfg then [DeleteAttempt (proxy_path m)] else []).

(** A computation that makes no send or delete attempt. *)
Definition quiet {A} (m : M A) : Prop :=
  forall h ev r, m h = (ev, r) -> actions ev = [].

(** Every two keys of the list compare. *)
Definition comparable {K A} (lt : K -> K -> result bool) (l : list (K * A)) : Prop :=
  forall a b, a ∈ l -> b ∈ l -> exists c, lt a.1 b.1 = inr c.

(** The message is in lifecycle state [s]. *)
Definition in_state (m : DBusInterface) (s : MMSmsState) : Prop :=
  as_int (State m) = Some (state_code s).

(** A message with the key [list.sort] sees. *)
Definition keyed (fromisoformat : string -> option datetime)
    (m : DBusInterface) : datetime * DBusInterface :=
  (key_of fromisoformat m, m).

(** [get_datetime] raises nothing on the message. *)
Definition dated (fromisoformat : string -> option datetime)
    (m : DBusInterface) : Prop :=
  exists t, timestamp_of fromisoformat m = inr t.

Definition is_send (a : action) : bool :=
  match a with SendAttempt _ _ => true | DeleteAttempt _ => false end.

(** The check that decides [comparable] on a given list. *)
Definition comparableb {K A} (lt : K -> K -> result bool) (l : list (K * A)) : bool :=
  forallb (fun a => forallb (fun b => match lt a.1 b.1 with inr _ => true | inl _ => false end) l) l.

(** [b] does not come before [a] in ascending order of the keys. *)
Definition ascending {K A} (ltb : K -> K -> bool) (a b : K * A) : Prop :=
  ltb b.1 a.1 = false.

(** [a] has the same rank as the key [k]: neither is less. *)
Definition same_rank {K A} (ltb : K -> K -> bool) (k : K) (a : K * A) : bool :=
  negb (ltb k a.1) && negb (ltb a.1 k).

(** On the keys of [l], [lt] raises nothing and answers as [ltb]. *)
Definition decides {K A} (lt : K -> K -> result bool) (ltb : K -> K -> bool)
    (l : list (K * A)) : Prop :=
  forall a b, a ∈ l -> b ∈ l -> lt a.1 b.1 = inr (ltb a.1 b.1).

(** The order of naive datetimes. *)
Definition naive_lt (a b : datetime) : bool := lex_lt (fields a) (fields b).

(** Message [a] may stand before message [b] in the result of [get_sms]. *)
Definition in_order (fromisoformat : string -> option datetime) (reverse : bool)
    (a b : DBusInterface) : Prop :=
  if reverse
  then naive_lt (key_of fromisoformat a) (key_of fromisoformat b) = false
  else naive_lt (key_of fromisoformat b) (key_of fromisoformat a) = false.

(** Message [m] has a key of the same rank as [k]. *)
Definition same_key (fromisoformat : string -> option datetime) (k : datetime)
    (m : DBusInterface) : bool :=
  same_rank naive_lt k (keyed fromisoformat m).

(** The fields of a datetime are in the ranges of the calendar's first
    instant onwards. *)
Definition after_min (d : datetime) : Prop :=
  1 <= year d /\ 1 <= month d /\ 1 <= day d
  /\ 0 <= hour d /\ 0 <= minute d /\ 0 <= second d /\ 0 <= microsecond d.

(** The containment test of [get_modem_by] on a modem, when it raises
    nothing. *)
Definition matches (prop : string) (val : value) (m : DBusInterface) : bool :=
  match py_in val (get_property m prop) with
  | inr b => b
  | inl _ => false
  end.

(** The containment test applies to the property of the modem: it is a
    string and so is the value, or it is a sequence. *)
Definition testable (prop : string) (val : value) (m : DBusInterface) : Prop :=
  exists b, py_in val (get_property m prop) = inr b.

(** ** The main program *)

(** The checks of the command line before [main] runs: the message logged
    before [sys.exit(1)], or [None] when the arguments pass. *)
Definition validate_arguments (smtp_port : Z) (mail_from : string) : option string :=
  if (smtp_port <=? 0) || (smtp_port >? 65535) then
    Some "Invalid SMTP port number."
  else if negb (Str.contains "@" mail_from) then
    Some "Invalid email address for the From field."
  else None.

Section Main.

(** The bus as the [k]-th poll cycle of the run finds it. *)
Variable remote_at : nat -> bus.

Variable fromisoformat : string -> option datetime.
Variable strftime : datetime -> string -> string.
Variable py_str : value -> string.
Variable parseaddr : string -> string * string.
Variable formataddr : string * string -> result string.
Variable make_msgid : list event -> string -> string.
Variable formatdate : list event -> string.
Variable smtp_session : list event -> email -> option exn.
Variable bus_delete : list event -> string -> string -> option exn.

(** [time.sleep] *)
Variable sleep : Z -> M unit.

Variable smtp_server : string.
Variable smtp_port : Z.
Variable smtp_user smtp_password mail_from : string.
Variable cfg : config.

(** The [k]-th call of [process_messages]. *)
Definition poll (k : nat) : M unit :=
  process_messages (remote_at k) fromisoformat strftime py_str parseaddr
    formataddr make_msgid formatdate smtp_session bus_delete smtp_server
    smtp_port smtp_user smtp_password mail_from cfg.

(** The first [n] turns of the [while True] loop of [main], from the
    [k]-th poll cycle on. *)
Fixpoint polling (k n : nat) : M unit :=
  match n with
  | O => ret tt
  | S n' => poll k;; sleep (interval cfg);; polling (S k) n'
  end.

(** [main] after the configuration is read. In continuous mode the loop
    has no exit: [turns] bounds the part of the run that is observed. *)
Definition main (turns : nat) : M unit :=
  if continuous_mode cfg then polling 0 turns else poll 0.

End Main.

(** ** More vocabulary *)

(** A computation whose events and result do not depend on what happened
    before it. *)
Definition steady {A} (m : M A) : Prop := forall h h', m h = m h'.

Definition is_delete (a : action) : bool :=
  match a with DeleteAttempt _ => true | SendAttempt _ _ => false end.

(** A value as it comes off the wire: built from the dbus-python classes
    only. *)
Fixpoint wire (v : value) : bool :=
  match v with
  | DBusStr _ _ | DBusInt _ _ => true
  | DBusArray l | DBusStruct l => forallb wire l
  | _ => false
  end.

(** A value that holds none of the classes [type_cast] converts, neither
    itself nor, for a list, in its items. *)
Fixpoint normalized (v : value) : bool :=
  match v with
  | PyList l => forallb normalized l
  | _ => negb (recognized v)
  end.

(** The [Sms] and [Modem] interface names. *)
Definition sms_iface : string := "org.freedesktop.ModemManager1.Sms".
Definition modem_iface : string := "org.freedesktop.ModemManager1.Modem".
Definition messaging_iface : string := "org.freedesktop.ModemManager1.Modem.Messaging".

(** The snapshot read of property [prop] from the properties [props]. *)
Definition snapshot (props : gmap string value) (prop : string) : value :=
  from_option type_cast PyNone (props !! prop).

(** * Facts *)

(** ** Strings and decimal numerals *)

Module StrFacts.

Import Decimal.

Lemma app_nil (b : string) : "" +:+ b = b.
Proof. reflexivity. Qed.

Lemma app_cons (c : ascii) (a b : string) :
  String c a +:+ b = String c (a +:+ b).
Proof. reflexivity. Qed.

Lemma prefix_app (a b : string) : String.prefix a (a +:+ b) = true.
Proof.
  induction a as [|c a IH]; rewrite ?app_nil, ?app_cons; simpl.
  - now destruct b.
  - destruct (ascii_dec c c); [exact IH | congruence].
Qed.

Lemma contains_prefix (a s : string) :
  String.prefix a s = true -> Str.contains a s = true.
Proof.
  intros H.
  destruct s as [|c s];
    [ change (String.prefix a "" || false = true)
    | change (String.prefix a (String c s) || Str.contains a s = true) ];
    now rewrite H.
Qed.

Lemma contains_app (a b : string) : Str.contains a (a +:+ b) = true.
Proof. apply contains_prefix, prefix_app. Qed.

Lemma contains_lacks (c : ascii) (a s : string) :
  lacks c s = true -> Str.contains (String c a) s = false.
Proof.
  induction s as [|x s IH]; simpl; [easy|].
  intros [Hx Hs]%andb_prop.
  rewrite (IH Hs), orb_false_r.
  destruct (ascii_dec c x) as [->|]; [|easy].
  now rewrite Ascii.eqb_refl in Hx.
Qed.

Lemma split_nonempty (c : ascii) (s : string) : Str.split c s <> [].
Proof.
  destruct s as [|a s]; simpl; [easy|].
  destruct (Ascii.eqb a c); [easy|].
  now destruct (Str.split c s).
Qed.

Lemma split_lacks (c : ascii) (s : string) :
  lacks c s = true -> Str.split c s = [s].
Proof.
  induction s as [|x s IH]; simpl; [easy|].
  intros [Hx Hs]%andb_prop.
  apply negb_true_iff in Hx. now rewrite Hx, (IH Hs).
Qed.

Lemma split_app (c : ascii) (a d : string) :
  Str.split c (a +:+ String c d) = Str.split c a ++ Str.split c d.
Proof.
  induction a as [|x a IH]; rewrite ?app_nil, ?app_cons; simpl.
  - now rewrite Ascii.eqb_refl.
  - destruct (Ascii.eqb x c); rewrite IH; [easy|].
    pose proof (split_nonempty c a).
    now destruct (Str.split c a).
Qed.

Lemma last_item_split (c : ascii) (a d : string) :
  lacks c d = true ->
  Str.last_item (Str.split c (a +:+ String c d)) = d.
Proof.
  intros Hd. rewrite split_app, (split_lacks _ _ Hd).
  unfold Str.last_item. apply last_last.
Qed.

Lemma app_assoc_str (a b c : string) : (a +:+ b) +:+ c = a +:+ (b +:+ c).
Proof. induction a as [|x a IH]; rewrite ?app_nil, ?app_cons, ?IH; reflexivity. Qed.

Lemma rstrip_id (s : string) :
  Str.all (fun c => negb (Str.is_space c)) s = true -> Str.rstrip s = s.
Proof.
  induction s as [|c s IH]; simpl; [easy|].
  intros [Hc Hs]%andb_prop. rewrite (IH Hs).
  apply negb_true_iff in Hc. rewrite Hc. now destruct s.
Qed.

Lemma lstrip_id (s : string) :
  Str.all (fun c => negb (Str.is_space c)) s = true -> Str.lstrip s = s.
Proof.
  destruct s as [|c s]; simpl; [easy|].
  intros [Hc _]%andb_prop. apply negb_true_iff in Hc. now rewrite Hc.
Qed.

Lemma strip_id (s : string) :
  Str.all (fun c => negb (Str.is_space c)) s = true -> Str.strip s = s.
Proof.
  intros H. unfold Str.strip. now rewrite (lstrip_id _ H), (rstrip_id _ H).
Qed.

Lemma numeral_uint (d : uint) :
  Str.all Str.is_digit (NilEmpty.string_of_uint d) = true.
Proof. induction d; simpl; auto. Qed.

Lemma all_impl (p q : ascii -> bool) (s : string) :
  (forall c, p c = true -> q c = true) ->
  Str.all p s = true -> Str.all q s = true.
Proof.
  intros Hpq. induction s as [|c s IH]; simpl; [easy|].
  intros [Hc Hs]%andb_prop. now rewrite (Hpq _ Hc), (IH Hs).
Qed.

Lemma numeral_of_Z (n : Z) : Str.all numeral_char (Str.of_Z n) = true.
Proof.
  unfold Str.of_Z.
  assert (Hu : forall d, Str.all numeral_char (NilZero.string_of_uint d) = true).
  { intros d. unfold NilZero.string_of_uint.
    destruct d; try reflexivity;
      (eapply all_impl; [|apply numeral_uint]);
      intros c Hc; unfold numeral_char; now rewrite Hc. }
  destruct (Z.to_int n) as [d|d]; simpl; [apply Hu|].
  now rewrite Hu.
Qed.

Lemma numeral_char_cases (c : ascii) :
  numeral_char c = true ->
  negb (Str.is_space c) = true /\ negb (Ascii.eqb c Str.slash) = true.
Proof.
  destruct c as [[] [] [] [] [] [] [] []]; vm_compute; intuition congruence.
Qed.

Lemma of_Z_no_space (n : Z) :
  Str.all (fun c => negb (Str.is_space c)) (Str.of_Z n) = true.
Proof.
  eapply all_impl; [|apply numeral_of_Z]. intros c Hc.
  now apply numeral_char_cases.
Qed.

Lemma of_Z_no_slash (n : Z) : lacks Str.slash (Str.of_Z n) = true.
Proof.
  eapply all_impl; [|apply numeral_of_Z]. intros c Hc.
  now apply numeral_char_cases.
Qed.

Lemma digits_uint (d : uint) :
  PyInt.digits true (NilEmpty.string_of_uint d) = Some d.
Proof. induction d; simpl; try rewrite IHd; reflexivity. Qed.

Lemma digits_uint_nonnil (d : uint) :
  d <> Nil -> PyInt.digits false (NilEmpty.string_of_uint d) = Some d.
Proof. destruct d; simpl; try rewrite digits_uint; easy. Qed.

Lemma digits_nilzero (d : uint) :
  exists d', PyInt.digits false (NilZero.string_of_uint d) = Some d'
             /\ Z.of_uint d' = Z.of_uint d.
Proof.
  destruct d; try (eexists; split; [apply digits_uint_nonnil|]; easy).
  now exists (D0 Nil).
Qed.

Lemma head_digit (d : uint) :
  exists c r, NilZero.string_of_uint d = String c r /\ Str.is_digit c = true.
Proof. destruct d; simpl; eauto. Qed.

Lemma is_digit_not_sign (c : ascii) :
  Str.is_digit c = true -> Ascii.eqb c "-" = false /\ Ascii.eqb c "+" = false.
Proof.
  destruct c as [[] [] [] [] [] [] [] []]; vm_compute; intuition congruence.
Qed.

(** [int("%d" % n) == n] *)
Lemma of_string_of_Z (n : Z) : PyInt.of_string (Str.of_Z n) = Some n.
Proof.
  unfold PyInt.of_string. rewrite strip_id by apply of_Z_no_space.
  rewrite <- (DecimalZ.of_to n) at 2. unfold Str.of_Z.
  destruct (Z.to_int n) as [d|d]; simpl NilZero.string_of_int.
  - destruct (head_digit d) as (c & r & E & Hc).
    destruct (digits_nilzero d) as (d' & Hd & Hv).
    rewrite E in *. destruct (is_digit_not_sign _ Hc) as [-> ->].
    rewrite Hd. simpl. now rewrite Hv.
  - destruct (digits_nilzero d) as (d' & Hd & Hv).
    rewrite Ascii.eqb_refl, Hd. simpl. now rewrite Hv.
Qed.

End StrFacts.

(** ** Wire values *)

(** C9. [type_cast] is a total function on wire values (it has no way to
    raise): [dbus.String] and [dbus.ObjectPath] become [str], [dbus.Int32]
    and [dbus.UInt32] become [int], a [dbus.Array] becomes the list of its
    normalized elements, every other value, [None] included, is returned as
    it is, and a normalized value is a fixed point. *)
Theorem type_cast_normalizes :
  (forall s, type_cast (DBusStr String_ s) = PyStr s
             /\ type_cast (DBusStr ObjectPath s) = PyStr s)
  /\ (forall n, type_cast (DBusInt Int32 n) = PyInt n
                /\ type_cast (DBusInt UInt32 n) = PyInt n)
  /\ (forall l, type_cast (DBusArray l) = PyList (List.map type_cast l))
  /\ (forall v, recognized v = false -> type_cast v = v)
  /\ (forall v, type_cast (type_cast v) = type_cast v).
Proof.
  repeat split.
  - intros [] Hv; try reflexivity; try discriminate Hv.
    + destruct c; try reflexivity; discriminate Hv.
    + destruct c; try reflexivity; discriminate Hv.
  - intros []; try reflexivity.
    + destruct c; reflexivity.
    + destruct c; reflexivity.
Qed.

(** ** Object paths *)

Lemma objbasepath_full (obj s : string) :
  objbasepath obj +:+ s = mm_root +:+ "/" +:+ obj +:+ "/" +:+ s.
Proof.
  unfold objbasepath. now rewrite !StrFacts.app_assoc_str.
Qed.

Lemma objbasepath_split (obj s : string) :
  objbasepath obj +:+ s = (mm_root +:+ "/" +:+ obj) +:+ String Str.slash s.
Proof.
  rewrite objbasepath_full. now rewrite !StrFacts.app_assoc_str.
Qed.

Lemma object_id_full_path (obj : string) (n : Z) :
  object_id obj (PyStr (full_path obj n)) = PyStr (Str.of_Z n).
Proof.
  unfold object_id, full_path. cbn [as_str].
  rewrite <- objbasepath_full, StrFacts.contains_app.
  rewrite objbasepath_split, StrFacts.last_item_split; [easy|].
  apply StrFacts.of_Z_no_slash.
Qed.

Lemma object_id_numeral (obj : string) (n : Z) :
  object_id obj (PyStr (Str.of_Z n)) = PyStr (Str.of_Z n).
Proof.
  unfold object_id. cbn [as_str].
  change (objbasepath obj)
    with (String Str.slash ("org/freedesktop/ModemManager1" +:+ "/" +:+ obj +:+ "/")).
  now rewrite StrFacts.contains_lacks by apply StrFacts.of_Z_no_slash.
Qed.

Lemma object_path_ok (obj : string) (v : value) (n : Z) (h : list event) :
  py_int (object_id obj v) = inr n ->
  object_path obj v h = ([], inr (Some (full_path obj n))).
Proof.
  intros E. unfold object_path. rewrite E. unfold full_path.
  now rewrite <- objbasepath_full.
Qed.

Lemma py_int_error (v : value) (e : exn) :
  py_int v = inl e -> e = TypeError \/ e = ValueError.
Proof.
  destruct v; simpl; try (intros [= <-]; auto);
    destruct (PyInt.of_string s); intros [= <-]; auto.
Qed.

Lemma object_path_bad (obj : string) (v : value) (h : list event) :
  ~ numeric (object_id obj v) ->
  object_path obj v h
  = ([Log ERROR "Bad object ID provided: %s" [LogVal (object_id obj v)]], inr None).
Proof.
  intros Hn. unfold object_path.
  destruct (py_int (object_id obj v)) as [e|n] eqn:E.
  - destruct (py_int_error _ _ E) as [-> | ->]; reflexivity.
  - exfalso. apply Hn. now exists n.
Qed.



(** ** The monad *)

Lemma bind_inr {A B} (m : M A) (f : A -> M B) h ev a :
  m h = (ev, inr a) ->
  (m ≫= f) h = (ev ++ (f a (h ++ ev)).1, (f a (h ++ ev)).2).
Proof.
  intros E. unfold mbind, M_bind, bind. rewrite E.
  now destruct (f a (h ++ ev)).
Qed.

Lemma bind_inl {A B} (m : M A) (f : A -> M B) h ev e :
  m h = (ev, inl e) -> (m ≫= f) h = (ev, inl e).
Proof. intros E. unfold mbind, M_bind, bind. now rewrite E. Qed.

Lemma bind_pure {A B} (m : M A) (f : A -> M B) h a :
  m h = ([], inr a) -> (m ≫= f) h = f a h.
Proof.
  intros E. rewrite (bind_inr _ _ _ _ _ E), app_nil_r. simpl.
  now destruct (f a h).
Qed.

Lemma bind_inv {A B} (m : M A) (f : A -> M B) h ev b :
  (m ≫= f) h = (ev, inr b) ->
  exists ev1 a ev2,
    m h = (ev1, inr a) /\ f a (h ++ ev1) = (ev2, inr b) /\ ev = ev1 ++ ev2.
Proof.
  unfold mbind, M_bind, bind. destruct (m h) as [ev1 [e|a]]; [easy|].
  destruct (f a (h ++ ev1)) as [ev2 r] eqn:E. intros [= <- ->].
  now exists ev1, a, ev2.
Qed.

Lemma lift_run {A} (r : result A) h : lift r h = ([], r).
Proof. reflexivity. Qed.

Lemma ret_run {A} (a : A) h : ret a h = ([], inr a).
Proof. reflexivity. Qed.

(** ** Entities *)

Lemma object_path_encoded (obj : string) (v : value) (h : list event) :
  exists ev, object_path obj v h = (ev, inr (encoded obj v))
             /\ forallb is_log ev = true.
Proof.
  unfold encoded. destruct (py_int (object_id obj v)) as [e|n] eqn:E.
  - eexists. split; [apply object_path_bad|reflexivity].
    intros [n Hn]. congruence.
  - exists []. split; [now apply object_path_ok|reflexivity].
Qed.

Lemma encoded_full_path (obj : string) (n : Z) :
  encoded obj (PyStr (full_path obj n)) = Some (full_path obj n).
Proof.
  unfold encoded. rewrite object_id_full_path. simpl.
  now rewrite StrFacts.of_string_of_Z.
Qed.

Lemma encoded_idem (obj : string) (v : value) (p : string) :
  encoded obj v = Some p -> encoded obj (PyStr p) = Some p.
Proof.
  unfold encoded at 1. destruct (py_int (object_id obj v)); [easy|].
  intros [= <-]. apply encoded_full_path.
Qed.

Section EntityFacts.

Variable remote : bus.

Lemma DBusInterface_init_inv path iface h ev m :
  DBusInterface_init remote path iface h = (ev, inr m) ->
  proxy_path m = path /\ name m = iface /\ GetAll path iface ∈ ev.
Proof.
  unfold DBusInterface_init, get_properties. intros H.
  apply bind_inv in H as (ev1 & props & ev2 & H1 & [= <- <-] & ->).
  apply bind_inv in H1 as (ev3 & [] & ev4 & [= <-] & _ & ->).
  repeat split. set_solver.
Qed.

Lemma construct_inv (obj iface : string) (v : value) h ev m :
  (path ← object_path obj v;
   p ← setup_proxy_object path;
   DBusInterface_init remote p iface) h = (ev, inr m) ->
  encoded obj v = Some (proxy_path m) /\ GetAll (proxy_path m) iface ∈ ev.
Proof.
  intros H.
  apply bind_inv in H as (ev1 & path & ev2 & H1 & H2 & ->).
  destruct (object_path_encoded obj v h) as (ev1' & E & _).
  rewrite E in H1. injection H1 as <- <-.
  apply bind_inv in H2 as (ev3 & p & ev4 & H3 & H4 & ->).
  unfold setup_proxy_object in H3.
  destruct (encoded obj v) as [q|]; [|discriminate H3].
  destruct (valid_object_path q); [|discriminate H3].
  injection H3 as <- <-.
  apply DBusInterface_init_inv in H4 as (-> & _ & Hin).
  split; [reflexivity|]. set_solver.
Qed.

Lemma MMModem_inv (v : value) h ev m :
  MMModem remote v h = (ev, inr m) ->
  encoded "Modem" v = Some (proxy_path m)
  /\ GetAll (proxy_path m) "org.freedesktop.ModemManager1.Modem" ∈ ev.
Proof. apply construct_inv. Qed.

Lemma MMModemSms_inv (v : value) h ev m :
  MMModemSms remote v h = (ev, inr m) ->
  encoded "SMS" v = Some (proxy_path m)
  /\ GetAll (proxy_path m) "org.freedesktop.ModemManager1.Sms" ∈ ev.
Proof. apply construct_inv. Qed.

(** [get_modem] when the encoded path is not enumerated. *)
Lemma get_modem_absent (self : ModemManager) (modem : value) h :
  (forall p, encoded "Modem" modem = Some p -> p ∉ modems self) ->
  exists ev, get_modem remote self modem h = (ev, inr None)
             /\ forallb is_log ev = true.
Proof.
  intros Habs. unfold get_modem.
  destruct (object_path_encoded "Modem" modem h) as (ev & E & Hlog).
  exists ev. rewrite (bind_inr _ _ _ _ _ E).
  destruct (encoded "Modem" modem) as [p|]; simpl.
  - rewrite bool_decide_eq_false_2 by now apply Habs.
    simpl. now rewrite app_nil_r.
  - now rewrite app_nil_r.
Qed.

Lemma get_modem_found (self : ModemManager) (modem : value) h ev m :
  get_modem remote self modem h = (ev, inr (Some m)) ->
  encoded "Modem" modem = Some (proxy_path m)
  /\ proxy_path m ∈ modems self
  /\ GetAll (proxy_path m) "org.freedesktop.ModemManager1.Modem" ∈ ev.
Proof.
  unfold get_modem. intros H.
  apply bind_inv in H as (ev1 & path & ev2 & H1 & H2 & ->).
  destruct (object_path_encoded "Modem" modem h) as (ev1' & E & _).
  rewrite E in H1. injection H1 as <- <-.
  destruct (encoded "Modem" modem) as [p|] eqn:Ep; [|discriminate H2].
  case_bool_decide as Hin; [|discriminate H2].
  apply bind_inv in H2 as (ev3 & m' & ev4 & H3 & [= <- <-] & ->).
  apply MMModem_inv in H3 as (Hp & Hev).
  rewrite (encoded_idem _ _ _ Ep) in Hp. injection Hp as ->.
  repeat split; [assumption|]. set_solver.
Qed.

End EntityFacts.

(** ** Object paths that the bus library accepts *)

Lemma digit_path_char (c : ascii) :
  Str.is_digit c = true ->
  is_path_char c = true /\ Ascii.eqb c Str.slash = false.
Proof.
  destruct c as [[] [] [] [] [] [] [] []]; vm_compute; intuition congruence.
Qed.

Lemma valid_elements_digits (b : bool) (s : string) :
  s <> EmptyString ->
  Str.all Str.is_digit s = true -> valid_elements b s = true.
Proof.
  revert b. induction s as [|c r IH]; intros b Hne; [easy|].
  simpl. intros [Hc Hr]%andb_prop.
  destruct (digit_path_char c Hc) as [-> ->]. simpl.
  destruct r as [|c' r']; [reflexivity|]. now apply IH.
Qed.

Lemma nilzero_digits (d : Decimal.uint) :
  NilZero.string_of_uint d <> EmptyString
  /\ Str.all Str.is_digit (NilZero.string_of_uint d) = true.
Proof.
  destruct (StrFacts.head_digit d) as (c & r & E & _). split; [now rewrite E|].
  unfold NilZero.string_of_uint.
  destruct d; try reflexivity; apply StrFacts.numeral_uint.
Qed.

(** The numeral of [n] is an element of an object path exactly when [n]
    is not negative. *)
Lemma valid_elements_of_Z (n : Z) :
  valid_elements true (Str.of_Z n) = (0 <=? n).
Proof.
  unfold Str.of_Z. destruct n as [|p|p]; simpl Z.to_int; simpl NilZero.string_of_int.
  - reflexivity.
  - destruct (nilzero_digits (Pos.to_uint p)) as [Hne Hd].
    now rewrite valid_elements_digits.
  - reflexivity.
Qed.

Lemma valid_modem_path (n : Z) :
  valid_object_path (full_path "Modem" n) = (0 <=? n).
Proof.
  rewrite <- valid_elements_of_Z.
  cbv [full_path mm_root String.append]. reflexivity.
Qed.

Lemma valid_sms_path (n : Z) :
  valid_object_path (full_path "SMS" n) = (0 <=? n).
Proof.
  rewrite <- valid_elements_of_Z.
  cbv [full_path mm_root String.append]. reflexivity.
Qed.

Lemma setup_proxy_object_run (p : string) h :
  valid_object_path p = true -> setup_proxy_object (Some p) h = ([], inr p).
Proof. intros H. unfold setup_proxy_object. now rewrite H. Qed.

Lemma setup_proxy_object_refuse (p : string) h :
  valid_object_path p = false -> setup_proxy_object (Some p) h = ([], inl ValueError).
Proof. intros H. unfold setup_proxy_object. now rewrite H. Qed.

(** ** Membership *)

Lemma py_eq_str (p : string) (x : value) :
  py_eq (PyStr p) x = true <-> as_str x = Some p.
Proof.
  simpl. destruct (as_str x) as [s|]; [|easy].
  rewrite String.eqb_eq. split; congruence.
Qed.

Lemma existsb_listed (p : string) (l : list value) :
  existsb (py_eq (PyStr p)) l = true <-> listed p l.
Proof.
  rewrite existsb_exists. unfold listed.
  split; intros (x & Hin & Hx); exists x;
    (split; [now apply list_elem_of_In | now apply py_eq_str]).
Qed.

Lemma existsb_none (l : list value) :
  path_listing l -> existsb (py_eq PyNone) l = false.
Proof.
  induction 1 as [|x l [s Hx] _ IH]; [easy|].
  cbn [existsb]. rewrite IH, orb_false_r.
  destruct x; try reflexivity. discriminate Hx.
Qed.

Section LookupFacts.

Variable remote : bus.
Variable fromisoformat : string -> option datetime.

Lemma get_modem_none (self : ModemManager) (modem : value) h ev :
  get_modem remote self modem h = (ev, inr None) -> forallb is_log ev = true.
Proof.
  unfold get_modem. intros H.
  apply bind_inv in H as (ev1 & path & ev2 & H1 & H2 & ->).
  destruct (object_path_encoded "Modem" modem h) as (ev1' & E & Hlog).
  rewrite E in H1. injection H1 as <- <-.
  destruct (encoded "Modem" modem) as [p|].
  - case_bool_decide.
    + apply bind_inv in H2 as (? & ? & ? & _ & [=] & _).
    + injection H2 as <-. now rewrite app_nil_r.
  - injection H2 as <-. now rewrite app_nil_r.
Qed.

Lemma get_first_none (self : ModemManager) h ev :
  get_first remote self h = (ev, inr None) -> forallb is_log ev = true.
Proof.
  unfold get_first. destruct (modems self).
  - now intros [= <-].
  - apply get_modem_none.
Qed.

Lemma get_sms_by_id (self : DBusInterface) (sms : value) (reverse : bool) :
  sms <> PyNone ->
  get_sms remote fromisoformat self sms reverse
  = (smspath ← object_path "SMS" sms;
     found ← lift (py_in (from_option PyStr PyNone smspath) (Messages self));
     if found : bool then
       m ← MMModemSms remote (from_option PyStr PyNone smspath);
       ret (SmsOne m)
     else ret SmsNone).
Proof. now destruct sms. Qed.

Lemma get_sms_found (self : DBusInterface) (sms : value) (reverse : bool)
    (l : list value) h ev m :
  sms <> PyNone ->
  Messages self = PyList l ->
  get_sms remote fromisoformat self sms reverse h = (ev, inr (SmsOne m)) ->
  encoded "SMS" sms = Some (proxy_path m) /\ listed (proxy_path m) l.
Proof.
  intros Hs Hl. rewrite (get_sms_by_id _ _ _ Hs), Hl. intros H.
  apply bind_inv in H as (ev1 & path & ev2 & H1 & H2 & ->).
  destruct (object_path_encoded "SMS" sms h) as (ev1' & E & _).
  rewrite E in H1. injection H1 as <- <-.
  apply bind_inv in H2 as (ev3 & found & ev4 & [= <- <-] & H4 & ->).
  destruct (existsb _ l) eqn:Hex; [|discriminate H4].
  apply bind_inv in H4 as (ev5 & m' & ev6 & H5 & [= <- <-] & ->).
  apply MMModemSms_inv in H5 as (Hp & _).
  destruct (encoded "SMS" sms) as [p|] eqn:Ep.
  - cbn [from_option] in Hp, Hex. rewrite (encoded_idem _ _ _ Ep) in Hp.
    injection Hp as ->. split; [reflexivity|]. now apply existsb_listed.
  - discriminate Hp.
Qed.

Lemma get_sms_absent (self : DBusInterface) (sms : value) (reverse : bool)
    (l : list value) h :
  sms <> PyNone ->
  Messages self = PyList l ->
  path_listing l ->
  (forall p, encoded "SMS" sms = Some p -> ~ listed p l) ->
  exists ev, get_sms remote fromisoformat self sms reverse h = (ev, inr SmsNone)
             /\ forallb is_log ev = true.
Proof.
  intros Hs Hl Hpl Habs. rewrite (get_sms_by_id _ _ _ Hs), Hl.
  destruct (object_path_encoded "SMS" sms h) as (ev & E & Hlog).
  exists ev. rewrite (bind_inr _ _ _ _ _ E).
  assert (Hex : existsb (py_eq (from_option PyStr PyNone (encoded "SMS" sms))) l = false).
  { destruct (encoded "SMS" sms) as [p|]; cbn [from_option].
    - apply not_true_is_false. rewrite existsb_listed. now apply Habs.
    - now apply existsb_none. }
  rewrite (bind_pure _ _ _ false) by (simpl; now rewrite Hex).
  simpl. now rewrite app_nil_r.
Qed.

End LookupFacts.

(** C7. [get_modem] returns a modem only for an encoded path that is in
    the enumerated list, and [get_sms] with an id returns a message only
    for an encoded path that is in the [Messages] listing; when the encoded
    path is missing from the listing (or the input does not encode), both
    return [None] after logging at most: no entity is constructed. *)
Theorem lookups_validate_listing (remote : bus)
    (fromisoformat : string -> option datetime) (h : list event) :
  (forall (self : ModemManager) (modem : value),
      (forall ev m, get_modem remote self modem h = (ev, inr (Some m)) ->
                    encoded "Modem" modem = Some (proxy_path m)
                    /\ proxy_path m ∈ modems self)
      /\ ((forall p, encoded "Modem" modem = Some p -> p ∉ modems self) ->
          exists ev, get_modem remote self modem h = (ev, inr None)
                     /\ forallb is_log ev = true))
  /\ (forall (self : DBusInterface) (sms : value) (reverse : bool) (l : list value),
         sms <> PyNone ->
         Messages self = PyList l ->
         (forall ev m,
             get_sms remote fromisoformat self sms reverse h = (ev, inr (SmsOne m)) ->
             encoded "SMS" sms = Some (proxy_path m) /\ listed (proxy_path m) l)
         /\ (path_listing l ->
             (forall p, encoded "SMS" sms = Some p -> ~ listed p l) ->
             exists ev,
               get_sms remote fromisoformat self sms reverse h = (ev, inr SmsNone)
               /\ forallb is_log ev = true)).
Proof.
  split.
  - intros self modem. split.
    + intros ev m H. apply get_modem_found in H. tauto.
    + apply get_modem_absent.
  - intros self sms reverse l Hs Hl. split.
    + intros ev m. now apply get_sms_found.
    + now apply get_sms_absent.
Qed.

(** ** Computations without send or delete attempts *)

Lemma actions_app (a b : list event) : actions (a ++ b) = actions a ++ actions b.
Proof. apply omap_app. Qed.

Lemma actions_logs (ev : list event) : forallb is_log ev = true -> actions ev = [].
Proof.
  induction ev as [|e ev IH]; [easy|]. simpl.
  intros [He Hev]%andb_prop. unfold actions in *. simpl.
  rewrite (IH Hev). now destruct e.
Qed.

Lemma quiet_ret {A} (a : A) : quiet (ret a).
Proof. now intros h ev r [= <- _]. Qed.

Lemma quiet_raise {A} (e : exn) : quiet (@raise A e).
Proof. now intros h ev r [= <- _]. Qed.

Lemma quiet_lift {A} (x : result A) : quiet (lift x).
Proof. now intros h ev r [= <- _]. Qed.

Lemma quiet_emit (e : event) : action_of e = None -> quiet (emit e).
Proof. intros He h ev r [= <- _]. unfold actions. simpl. now rewrite He. Qed.

Lemma quiet_bind {A B} (m : M A) (f : A -> M B) :
  quiet m -> (forall a, quiet (f a)) -> quiet (m ≫= f).
Proof.
  intros Hm Hf h ev r. unfold mbind, M_bind, bind.
  destruct (m h) as [ev1 [e|a]] eqn:E.
  - intros [= <- _]. eauto.
  - destruct (f a (h ++ ev1)) as [ev2 r2] eqn:E2. intros [= <- _].
    rewrite actions_app, (Hm _ _ _ E), (Hf _ _ _ _ E2). reflexivity.
Qed.

Lemma quiet_map_m {A B} (f : A -> M B) (l : list A) :
  (forall a, quiet (f a)) -> quiet (map_m f l).
Proof.
  intros Hf. induction l as [|x l IH]; simpl; [apply quiet_ret|].
  apply quiet_bind; [apply Hf|]. intros y.
  apply quiet_bind; [apply IH|]. intros ys. apply quiet_ret.
Qed.

Lemma quiet_filter_map_m {A B} (p : B -> M bool) (f : A -> M B) (l : list A) :
  (forall a, quiet (f a)) -> (forall b, quiet (p b)) -> quiet (filter_map_m p f l).
Proof.
  intros Hf Hp. induction l as [|x l IH]; simpl; [apply quiet_ret|].
  apply quiet_bind; [apply Hf|]. intros y.
  apply quiet_bind; [apply Hp|]. intros k.
  apply quiet_bind; [apply IH|]. intros ys. apply quiet_ret.
Qed.

Lemma quiet_object_path (obj : string) (v : value) : quiet (object_path obj v).
Proof.
  intros h ev r H. destruct (object_path_encoded obj v h) as (ev' & E & Hlog).
  rewrite E in H. injection H as <- _. now apply actions_logs.
Qed.

Ltac quiet_step :=
  lazymatch goal with
  | |- quiet (ret _) => apply quiet_ret
  | |- quiet (raise _) => apply quiet_raise
  | |- quiet (lift _) => apply quiet_lift
  | |- quiet (object_path _ _) => apply quiet_object_path
  | |- quiet (emit _) => apply quiet_emit; reflexivity
  | |- quiet (_ ≫= _) => apply quiet_bind; [|intros ?]
  end.

Section QuietFacts.

Variable remote : bus.
Variable fromisoformat : string -> option datetime.

Lemma quiet_get_properties path iface : quiet (get_properties remote path iface).
Proof.
  unfold get_properties, logging.
  quiet_step; [quiet_step|].
  destruct (all_properties remote path iface) as [[]|]; repeat quiet_step.
Qed.

Lemma quiet_DBusInterface_init path iface :
  quiet (DBusInterface_init remote path iface).
Proof.
  unfold DBusInterface_init. quiet_step; [apply quiet_get_properties|quiet_step].
Qed.

Lemma quiet_construct (obj iface : string) (v : value) :
  quiet (path ← object_path obj v;
         p ← setup_proxy_object path;
         DBusInterface_init remote p iface).
Proof.
  repeat quiet_step.
  - unfold setup_proxy_object.
    destruct a as [p|]; [destruct (valid_object_path p)|]; quiet_step.
  - apply quiet_DBusInterface_init.
Qed.

Lemma quiet_MMModem v : quiet (MMModem remote v).
Proof. apply quiet_construct. Qed.

Lemma quiet_MMModemSms v : quiet (MMModemSms remote v).
Proof. apply quiet_construct. Qed.

Lemma quiet_get_datetime m : quiet (get_datetime fromisoformat m).
Proof.
  unfold get_datetime, logging.
  destruct (py_truthy _); [|quiet_step].
  destruct (as_str _); [|quiet_step].
  destruct (fromisoformat _); repeat quiet_step.
Qed.

Lemma quiet_get_sms self sms reverse :
  quiet (get_sms remote fromisoformat self sms reverse).
Proof.
  assert (Hid : quiet
    (smspath ← object_path "SMS" sms;
     found ← lift (py_in (from_option PyStr PyNone smspath) (Messages self));
     if found : bool then
       m ← MMModemSms remote (from_option PyStr PyNone smspath);
       ret (SmsOne m)
     else ret SmsNone)).
  { repeat quiet_step. destruct a0; repeat quiet_step.
    apply quiet_MMModemSms. }
  destruct sms; try exact Hid.
  unfold get_sms. repeat quiet_step.
  - apply quiet_filter_map_m; [apply quiet_MMModemSms|intros; quiet_step].
  - apply quiet_map_m. intros m. unfold sort_key. repeat quiet_step.
    apply quiet_get_datetime.
Qed.

Lemma quiet_get_modem self modem : quiet (get_modem remote self modem).
Proof.
  unfold get_modem. repeat quiet_step.
  destruct a; [|quiet_step]. case_bool_decide; repeat quiet_step.
  apply quiet_MMModem.
Qed.

Lemma quiet_get_first self : quiet (get_first remote self).
Proof.
  unfold get_first. destruct (modems self); [quiet_step|apply quiet_get_modem].
Qed.

Lemma quiet_ModemManager_init : quiet (ModemManager_init remote).
Proof. unfold ModemManager_init, get_modems_list. repeat quiet_step. Qed.

Lemma quiet_MMModemMessaging modem : quiet (MMModemMessaging remote modem).
Proof. apply quiet_DBusInterface_init. Qed.

End QuietFacts.

(** ** Sorting *)

Section SortFacts.

Context {K A : Type}.
Variable lt : K -> K -> result bool.

Lemma insert_perm (x : K * A) (l l' : list (K * A)) :
insert lt x l = inr l' -> Permutation (x :: l) l'.
Proof.
revert l'. induction l as [|y l IH]; simpl; intros l'.
- now intros [= <-].
- destruct (lt y.1 x.1) as [e|[]]; [easy| |now intros [= <-]].
  destruct (insert lt x l) as [e|r]; [easy|]. intros [= <-].
  rewrite perm_swap. now constructor; apply IH.
Qed.

Lemma stable_sort_perm (l l' : list (K * A)) :
stable_sort lt l = inr l' -> Permutation l l'.
Proof.
revert l'. induction l as [|x l IH]; simpl; intros l'.
- now intros [= <-].
- destruct (stable_sort lt l) as [e|s]; [easy|]. intros H.
  apply insert_perm in H. now rewrite (IH s eq_refl).
Qed.

Lemma list_sort_perm (reverse : bool) (l l' : list (K * A)) :
list_sort lt reverse l = inr l' -> Permutation l l'.
Proof.
unfold list_sort. destruct reverse; [|apply stable_sort_perm].
destruct (stable_sort lt (rev l)) as [e|s] eqn:E; [easy|]. intros [= <-].
apply stable_sort_perm in E.
now rewrite <- Permutation_rev, <- E, <- Permutation_rev.
Qed.

Lemma insert_returns (x : K * A) (l : list (K * A)) :
comparable lt (x :: l) -> exists l', insert lt x l = inr l'.
Proof.
induction l as [|y l IH]; simpl; intros Hc; [eauto|].
destruct (Hc y x) as [c ->]; [rewrite !elem_of_cons; auto..|].
destruct c; [|eauto].
destruct IH as [l' ->]; [|eauto].
intros a b Ha Hb. apply Hc; rewrite !elem_of_cons in *; tauto.
Qed.

Lemma stable_sort_returns (l : list (K * A)) :
comparable lt l -> exists l', stable_sort lt l = inr l'.
Proof.
induction l as [|x l IH]; simpl; intros Hc; [eauto|].
destruct IH as [s Hs]; [intros a b Ha Hb; apply Hc; now right|].
rewrite Hs. apply insert_returns.
intros a b Ha Hb. apply stable_sort_perm in Hs.
apply Hc; rewrite Hs; assumption.
Qed.

Lemma list_sort_returns (reverse : bool) (l : list (K * A)) :
comparable lt l -> exists l', list_sort lt reverse l = inr l'.
Proof.
intros Hc. unfold list_sort. destruct reverse; [|now apply stable_sort_returns].
destruct (stable_sort_returns (rev l)) as [s ->]; [|eauto].
intros a b Ha Hb.
apply Hc; apply list_elem_of_In, in_rev, list_elem_of_In; assumption.
Qed.

End SortFacts.

(** ** The received messages *)

Lemma filter_map_m_pure {A B} (q : B -> bool) (f : A -> M B) (l : list A) h :
  filter_map_m (fun y => ret (q y)) f l h
  = match map_m f l h with
    | (ev, inr xs) => (ev, inr (List.filter q xs))
    | (ev, inl e) => (ev, inl e)
    end.
Proof.
  revert h. induction l as [|x l IH]; intros h; [reflexivity|].
  cbn [filter_map_m map_m]. unfold mbind, M_bind, bind.
  destruct (f x h) as [ev1 [e|y]]; [reflexivity|].
  cbn [ret]. rewrite app_nil_r, IH.
  destruct (map_m f l (h ++ ev1)) as [ev2 [e|xs]]; [reflexivity|].
  cbn. now destruct (q y).
Qed.

Lemma state_received (m : DBusInterface) :
  is_received m = true <-> in_state m MM_SMS_STATE_RECEIVED.
Proof.
  unfold is_received, in_state. simpl.
  destruct (State m); simpl; try easy;
    rewrite Z.eqb_eq; split; congruence.
Qed.

Lemma state_code_inj (s s' : MMSmsState) : state_code s = state_code s' -> s = s'.
Proof. now destruct s, s'. Qed.

Section ReceivedFacts.

Variable remote : bus.
Variable fromisoformat : string -> option datetime.

Lemma get_datetime_run (m : DBusInterface) h :
exists logs, forallb is_log logs = true
             /\ get_datetime fromisoformat m h = (logs, timestamp_of fromisoformat m).
Proof.
unfold get_datetime, timestamp_of.
destruct (py_truthy _); [|now exists []].
destruct (as_str _) as [s|]; [|now exists []].
destruct (fromisoformat s); [now exists []|].
eexists. split; [|reflexivity]. reflexivity.
Qed.

Lemma sort_key_run (m : DBusInterface) h :
exists logs,
  forallb is_log logs = true
  /\ sort_key fromisoformat m h
     = (logs, match timestamp_of fromisoformat m with
              | inr _ => inr (keyed fromisoformat m)
              | inl e => inl e
              end).
Proof.
destruct (get_datetime_run m h) as (logs & Hlogs & E).
exists logs. split; [assumption|].
unfold sort_key, mbind, M_bind, bind, keyed, key_of. rewrite E.
destruct (timestamp_of fromisoformat m) as [e|[d|]]; [reflexivity|..];
  cbn; now rewrite app_nil_r.
Qed.

Lemma map_sort_key_inv (msgs : list DBusInterface) h ev ks :
map_m (sort_key fromisoformat) msgs h = (ev, inr ks) ->
ks = List.map (keyed fromisoformat) msgs /\ Forall (dated fromisoformat) msgs.
Proof.
revert h ev ks. induction msgs as [|m msgs IH]; intros h ev ks.
- now intros [= _ <-].
- cbn [map_m]. intros H.
  apply bind_inv in H as (ev1 & k & ev2 & H1 & H2 & ->).
  apply bind_inv in H2 as (ev3 & ks' & ev4 & H3 & [= <- <-] & ->).
  destruct (sort_key_run m h) as (logs & _ & E). rewrite E in H1.
  destruct (timestamp_of fromisoformat m) as [e|t] eqn:Et; [easy|].
  injection H1 as <- <-.
  apply IH in H3 as [-> HF]. split; [reflexivity|].
  constructor; [now exists t|assumption].
Qed.

Lemma map_sort_key_run (msgs : list DBusInterface) h :
Forall (dated fromisoformat) msgs ->
exists logs,
  forallb is_log logs = true
  /\ map_m (sort_key fromisoformat) msgs h
     = (logs, inr (List.map (keyed fromisoformat) msgs)).
Proof.
intros HF. revert h. induction HF as [|m msgs [t Ht] _ IH]; intros h.
- now exists [].
- destruct (sort_key_run m h) as (logs & Hlogs & E). rewrite Ht in E.
  destruct (IH (h ++ logs)) as (logs' & Hlogs' & E').
  exists (logs ++ logs'). split; [now rewrite forallb_app, Hlogs, Hlogs'|].
  cbn [map_m]. rewrite (bind_inr _ _ _ _ _ E), (bind_inr _ _ _ _ _ E').
  cbn. now rewrite app_nil_r.
Qed.

Lemma get_sms_list_inv (self : DBusInterface) (reverse : bool) h ev l :
get_sms remote fromisoformat self PyNone reverse h = (ev, inr (SmsList l)) ->
exists paths msgs ev1,
  py_iter (Messages self) = inr paths
  /\ map_m (MMModemSms remote) paths h = (ev1, inr msgs)
  /\ list_sort datetime_lt reverse
       (List.map (keyed fromisoformat) (List.filter is_received msgs))
     = inr (List.map (keyed fromisoformat) l)
  /\ Forall (dated fromisoformat) (List.filter is_received msgs).
Proof.
cbn [get_sms]. intros H.
apply bind_inv in H as (ev0 & paths & ev' & [= <- Hp] & H & ->).
apply bind_inv in H as (ev1 & kept & ev2 & H1 & H2 & ->).
rewrite filter_map_m_pure, app_nil_r in H1.
destruct (map_m (MMModemSms remote) paths h) as [ev1' [e|msgs]] eqn:Em; [easy|].
injection H1 as <- <-.
apply bind_inv in H2 as (ev3 & ks & ev4 & H3 & H4 & ->).
apply map_sort_key_inv in H3 as [-> HF].
apply bind_inv in H4 as (ev5 & sorted & ev6 & [= <- Hs] & [= <- <-] & ->).
exists paths, msgs, ev1'. repeat split; try assumption.
rewrite Hs. f_equal.
pose proof (list_sort_perm _ _ _ _ Hs) as Hperm.
assert (Hk : Forall (fun k => k = keyed fromisoformat k.2) sorted).
{ rewrite <- Hperm. apply Forall_forall. intros k Hk.
  apply list_elem_of_In, in_map_iff in Hk as (m & <- & _). reflexivity. }
clear -Hk. induction Hk as [|k sorted Hk _ IH]; [reflexivity|].
cbn. now rewrite <- IH, <- Hk.
Qed.

Lemma keyed_perm (l l' : list DBusInterface) :
Permutation (List.map (keyed fromisoformat) l) (List.map (keyed fromisoformat) l') ->
Permutation l l'.
Proof.
intros H. apply (Permutation_map snd) in H.
rewrite !List.map_map in H. cbn in H. now rewrite !List.map_id in H.
Qed.

Lemma get_sms_list_run (self : DBusInterface) (reverse : bool) h paths msgs ev1 :
py_iter (Messages self) = inr paths ->
map_m (MMModemSms remote) paths h = (ev1, inr msgs) ->
Forall (dated fromisoformat) (List.filter is_received msgs) ->
comparable datetime_lt (List.map (keyed fromisoformat) (List.filter is_received msgs)) ->
exists logs sorted,
  forallb is_log logs = true
  /\ list_sort datetime_lt reverse
       (List.map (keyed fromisoformat) (List.filter is_received msgs)) = inr sorted
  /\ get_sms remote fromisoformat self PyNone reverse h
     = (ev1 ++ logs, inr (SmsList (List.map snd sorted))).
Proof.
intros Hp Hm HF Hc.
destruct (map_sort_key_run _ (h ++ ev1) HF) as (logs & Hlogs & Ek).
destruct (list_sort_returns datetime_lt reverse _ Hc) as [sorted Hs].
exists logs, sorted. repeat split; try assumption.
cbn [get_sms]. rewrite Hp, (bind_pure _ _ _ paths eq_refl).
assert (Ef : filter_map_m (fun x => ret (is_received x)) (MMModemSms remote) paths h
             = (ev1, inr (List.filter is_received msgs)))
  by now rewrite filter_map_m_pure, Hm.
rewrite (bind_inr _ _ _ _ _ Ef), (bind_inr _ _ _ _ _ Ek), Hs.
cbn. now rewrite !app_nil_r.
Qed.

End ReceivedFacts.


(** ** Delivery of one message *)

Section DeliveryFacts.

Variable remote : bus.
Variable fromisoformat : string -> option datetime.
Variable strftime : datetime -> string -> string.
Variable py_str : value -> string.
Variable parseaddr : string -> string * string.
Variable formataddr : string * string -> result string.
Variable make_msgid : list event -> string -> string.
Variable formatdate : list event -> string.
Variable smtp_session : list event -> email -> option exn.
Variable bus_delete : list event -> string -> string -> option exn.
Variable smtp_server : string.
Variable smtp_port : Z.
Variable smtp_user smtp_password mail_from : string.
Variable cfg : config.

Local Abbreviation send :=
  (send_email parseaddr formataddr make_msgid formatdate smtp_session).
Local Abbreviation turn :=
  (process_message fromisoformat strftime py_str parseaddr formataddr make_msgid
     formatdate smtp_session bus_delete smtp_server smtp_port smtp_user
     smtp_password mail_from cfg).
Local Abbreviation cycle :=
  (process_messages remote fromisoformat strftime py_str parseaddr formataddr
     make_msgid formatdate smtp_session bus_delete smtp_server smtp_port
     smtp_user smtp_password mail_from cfg).
Local Abbreviation tries := (attempts fromisoformat strftime py_str cfg).

Lemma renders_inv (m : DBusInterface) :
  renders m = true ->
  dict_get (known_senders cfg) (Number m) (Number m) = inr (sender_name_of cfg m)
  /\ exists t, timestamp_of fromisoformat m = inr t.
Proof.
  unfold renders, sender_name_of, dict_get, timestamp_of.
  intros [Hh Ht]%andb_prop. rewrite Hh. split.
  - now destruct (as_str (Number m)).
  - destruct (py_truthy _); [|eauto]. simpl in Ht.
    apply bool_decide_eq_true in Ht as [s ->]. eauto.
Qed.

Lemma get_date_run (m : DBusInterface) h :
  renders m = true ->
  exists logs, forallb is_log logs = true
               /\ get_date fromisoformat strftime m h
                  = (logs, inr (date_of fromisoformat strftime m)).
Proof.
  intros (_ & t & Ht)%renders_inv.
  destruct (get_datetime_run fromisoformat m h) as (logs & Hlogs & E).
  exists logs. split; [assumption|].
  unfold get_date, date_of. rewrite Ht in *.
  rewrite (bind_inr _ _ _ _ _ E). destruct t; simpl; now rewrite app_nil_r.
Qed.

(** [send_email] once the headers are built: one SMTP session, one log
    line, and a normal return whatever the session did. *)
Lemma send_email_run (to_addrs : list (string * string)) (subject body : string)
    (p : string * string * string) h :
  prepared parseaddr formataddr mail_from to_addrs = inr p ->
  exists mail,
    mail_subject mail = subject /\ mail_body mail = body
    /\ send smtp_server smtp_port smtp_user smtp_password mail_from
         to_addrs subject body h
       = ([Smtp mail (smtp_session h mail); send_log (smtp_session h mail)], inr tt).
Proof.
  unfold prepared, from_domain, send_email.
  destruct (parseaddr mail_from) as [from_name from_email]. simpl.
  destruct (Str.split "@" from_email) as [|a [|dom r]]; try discriminate.
  destruct (map_r formataddr to_addrs) as [e|items]; [discriminate|].
  destruct (formataddr (from_name, from_email)) as [e|f]; [discriminate|].
  intros _.
  match goal with |- context [smtp_send _ ?m] => exists m end.
  repeat split.
  unfold try_except, smtp_send, mbind, M_bind, bind, logging, emit.
  destruct (smtp_session h _); reflexivity.
Qed.

(** [send_email] when the headers cannot be built: the exception leaves
    the call, before any SMTP session. *)
Lemma send_email_raise (to_addrs : list (string * string)) (subject body : string)
    (e : exn) h :
  prepared parseaddr formataddr mail_from to_addrs = inl e ->
  send smtp_server smtp_port smtp_user smtp_password mail_from
    to_addrs subject body h
  = ([], inl e).
Proof.
  unfold prepared, from_domain, send_email.
  destruct (parseaddr mail_from) as [from_name from_email]. simpl.
  destruct (Str.split "@" from_email) as [|a [|dom r]];
    try (now intros [= <-]).
  destruct (map_r formataddr to_addrs) as [e'|items]; [now intros [= <-]|].
  destruct (formataddr (from_name, from_email)) as [e'|f]; [now intros [= <-]|].
  discriminate.
Qed.

Lemma delete_run (messaging : DBusInterface) (p : string) h :
  try_except
    (delete_sms bus_delete messaging p;;
     logging INFO "Deleted SMS %s" [LogStr p])
    (fun e => logging ERROR "Failed to delete SMS %s: %s" [LogStr p; LogExn e]) h
  = (let r := bus_delete h (proxy_path messaging) p in
     [Delete (proxy_path messaging) p r; delete_log p r], inr tt).
Proof.
  unfold try_except, delete_sms, mbind, M_bind, bind, logging, emit.
  destruct (bus_delete h _ p); reflexivity.
Qed.

(** The events of one turn of the loop. *)
Lemma process_message_run (messaging msg : DBusInterface)
    (p : string * string * string) h :
  prepared parseaddr formataddr mail_from (mail_to cfg) = inr p ->
  renders msg = true ->
  exists logs mail,
    forallb is_log logs = true
    /\ mail_subject mail = subject_of py_str cfg msg
    /\ mail_body mail = body_of fromisoformat strftime py_str cfg msg
    /\ turn messaging msg h
       = (let r := smtp_session (h ++ logs) mail in
          let sent := logs ++ [Smtp mail r; send_log r] in
          if delete_after_sending cfg then
            let r' := bus_delete (h ++ sent) (proxy_path messaging) (proxy_path msg) in
            sent ++ [Delete (proxy_path messaging) (proxy_path msg) r';
                     delete_log (proxy_path msg) r']
          else sent,
          inr tt).
Proof.
  intros Hd Hr. destruct (renders_inv _ Hr) as (Hn & _).
  set (l0 := Log INFO "SMS from %s: %s" [LogVal (Number msg); LogVal (Text msg)]).
  destruct (get_date_run msg (h ++ [l0]) Hr) as (dlogs & Hdlogs & Edate).
  destruct (send_email_run (mail_to cfg) (subject_of py_str cfg msg)
              (body_of fromisoformat strftime py_str cfg msg) p
              ((h ++ [l0]) ++ dlogs) Hd) as (mail & Hs & Hb & Esend).
  exists (l0 :: dlogs), mail. repeat split; try assumption.
  unfold process_message.
  rewrite (bind_pure _ _ _ _ (f_equal (pair []) Hn)).
  rewrite (bind_inr _ _ h [l0] tt eq_refl).
  rewrite (bind_inr _ _ _ _ _ Edate).
  unfold subject_of, body_of in Esend.
  rewrite (bind_inr _ _ _ _ _ Esend).
  unfold get_object_path.
  replace (h ++ l0 :: dlogs) with ((h ++ [l0]) ++ dlogs)
    by now rewrite <- app_assoc.
  destruct (delete_after_sending cfg).
  - rewrite delete_run. cbn [fst snd]. f_equal.
    + cbn. now rewrite <- !app_assoc.
  - cbn [fst snd ret]. now rewrite app_nil_r.
Qed.

(** One turn of the loop when the headers cannot be built: the exception
    of [send_email] ends the turn after its log lines. *)
Lemma process_message_raise (messaging msg : DBusInterface) (e : exn) h :
  prepared parseaddr formataddr mail_from (mail_to cfg) = inl e ->
  renders msg = true ->
  exists logs,
    forallb is_log logs = true /\ turn messaging msg h = (logs, inl e).
Proof.
  intros Hp Hr. destruct (renders_inv _ Hr) as (Hn & _).
  set (l0 := Log INFO "SMS from %s: %s" [LogVal (Number msg); LogVal (Text msg)]).
  destruct (get_date_run msg (h ++ [l0]) Hr) as (dlogs & Hdlogs & Edate).
  exists (l0 :: dlogs). split; [assumption|].
  unfold process_message.
  rewrite (bind_pure _ _ _ _ (f_equal (pair []) Hn)).
  rewrite (bind_inr _ _ h [l0] tt eq_refl).
  rewrite (bind_inr _ _ _ _ _ Edate).
  rewrite (bind_inl _ _ _ _ _ (send_email_raise _ _ _ _ _ Hp)).
  cbn [fst snd]. now rewrite app_nil_r.
Qed.

Lemma send_log_quiet (r : option exn) : action_of (send_log r) = None.
Proof. now destruct r. Qed.

Lemma delete_log_quiet (p : string) (r : option exn) :
  action_of (delete_log p r) = None.
Proof. now destruct r. Qed.

Lemma turn_run (messaging msg : DBusInterface) (p : string * string * string) h :
  prepared parseaddr formataddr mail_from (mail_to cfg) = inr p ->
  renders msg = true ->
  exists ev, turn messaging msg h = (ev, inr tt) /\ actions ev = tries msg.
Proof.
  intros Hd Hr.
  destruct (process_message_run messaging msg p h Hd Hr)
    as (logs & mail & Hlogs & Hs & Hb & E).
  eexists. split; [exact E|].
  unfold attempts. rewrite <- Hs, <- Hb.
  destruct (delete_after_sending cfg); cbn zeta;
    rewrite !actions_app, (actions_logs _ Hlogs); unfold actions; cbn;
    now rewrite ?send_log_quiet, ?delete_log_quiet.
Qed.

Lemma loop_run (messaging : DBusInterface) (l : list DBusInterface)
    (p : string * string * string) h :
  prepared parseaddr formataddr mail_from (mail_to cfg) = inr p ->
  Forall (fun m => renders m = true) l ->
  exists ev, for_each l (turn messaging) h = (ev, inr tt)
             /\ actions ev = flat_map tries l.
Proof.
  intros Hd HF. revert h. induction HF as [|m l Hm _ IH]; intros h.
  - now exists [].
  - destruct (turn_run messaging m p h Hd Hm) as (ev1 & E1 & A1).
    destruct (IH (h ++ ev1)) as (ev2 & E2 & A2).
    exists (ev1 ++ ev2). cbn [for_each flat_map].
    rewrite (bind_inr _ _ _ _ _ E1), E2, actions_app, A1, A2. easy.
Qed.

(** The loop when the headers cannot be built: it ends in the turn of the
    first message. *)
Lemma loop_raise (messaging : DBusInterface) (m : DBusInterface)
    (l : list DBusInterface) (e : exn) h :
  prepared parseaddr formataddr mail_from (mail_to cfg) = inl e ->
  renders m = true ->
  exists logs,
    forallb is_log logs = true
    /\ for_each (m :: l) (turn messaging) h = (logs, inl e).
Proof.
  intros Hp Hm.
  destruct (process_message_raise messaging m e h Hp Hm) as (logs & Hlogs & E).
  exists logs. split; [assumption|].
  cbn [for_each]. now rewrite (bind_inl _ _ _ _ _ E).
Qed.

(** The send and delete attempts of the events before the loop. *)
Lemma fetch_quiet (h ev1 ev2 ev3 ev4 : list event)
    (mm : ModemManager) (modem messaging : DBusInterface)
    (l : list DBusInterface) :
  ModemManager_init remote h = (ev1, inr mm) ->
  get_first remote mm (h ++ ev1) = (ev2, inr (Some modem)) ->
  MMModemMessaging remote modem ((h ++ ev1) ++ ev2) = (ev3, inr messaging) ->
  get_sms remote fromisoformat messaging PyNone true (((h ++ ev1) ++ ev2) ++ ev3)
  = (ev4, inr (SmsList l)) ->
  forall ev5 r,
    for_each l (turn messaging) ((((h ++ ev1) ++ ev2) ++ ev3) ++ ev4) = (ev5, r) ->
    cycle h = (ev1 ++ ev2 ++ ev3 ++ ev4 ++ ev5, r)
    /\ actions (ev1 ++ ev2 ++ ev3 ++ ev4 ++ ev5) = actions ev5.
Proof.
  intros E1 E2 E3 E4 ev5 r E5. split.
  - unfold process_messages.
    rewrite (bind_inr _ _ _ _ _ E1), (bind_inr _ _ _ _ _ E2).
    cbn match. rewrite (bind_inr _ _ _ _ _ E3), (bind_inr _ _ _ _ _ E4).
    cbn match. rewrite E5. reflexivity.
  - rewrite !actions_app.
    rewrite (quiet_ModemManager_init remote _ _ _ E1).
    rewrite (quiet_get_first remote _ _ _ _ E2).
    rewrite (quiet_MMModemMessaging remote _ _ _ _ E3).
    rewrite (quiet_get_sms remote fromisoformat _ _ _ _ _ _ E4).
    reflexivity.
Qed.

Lemma received_render (self : DBusInterface) (reverse : bool) h ev l :
  get_sms remote fromisoformat self PyNone reverse h = (ev, inr (SmsList l)) ->
  Forall (fun m => py_hashable (Number m) = true) l ->
  Forall (fun m => renders m = true) l.
Proof.
  intros H Hh.
  apply get_sms_list_inv in H as (paths & msgs & ev1 & _ & _ & Hs & HF).
  apply list_sort_perm, keyed_perm in Hs. rewrite Hs in HF.
  rewrite Forall_forall in *. intros m Hm.
  unfold renders. rewrite (Hh m Hm). destruct (HF m Hm) as [t Ht].
  unfold timestamp_of in Ht. destruct (py_truthy _); [|reflexivity].
  destruct (as_str _) as [s|] eqn:Es; [|discriminate Ht].
  reflexivity.
Qed.

(** C3, as amended. In a cycle that found a modem and fetched the
    received messages [l], the send and delete attempts are made in the
    order of [l], each message's delete attempt directly after its own
    send attempt. When [send_email] can build the headers from the
    configured addresses, the cycle returns and makes, in this order, the
    attempts of the first message of [l], then those of the second, and so
    on; with two messages and deleting enabled these are exactly two send
    and two delete attempts, alternating. When the headers cannot be
    built, the exception leaves [send_email] in the turn of the first
    message: the cycle raises it, without any send or delete attempt. *)
Theorem cycle_attempts_in_order (h ev1 ev2 ev3 ev4 : list event)
    (mm : ModemManager) (modem messaging : DBusInterface)
    (l : list DBusInterface) :
  ModemManager_init remote h = (ev1, inr mm) ->
  get_first remote mm (h ++ ev1) = (ev2, inr (Some modem)) ->
  MMModemMessaging remote modem ((h ++ ev1) ++ ev2) = (ev3, inr messaging) ->
  get_sms remote fromisoformat messaging PyNone true (((h ++ ev1) ++ ev2) ++ ev3)
  = (ev4, inr (SmsList l)) ->
  Forall (fun m => py_hashable (Number m) = true) l ->
  exists ev,
    match prepared parseaddr formataddr mail_from (mail_to cfg) with
    | inr _ =>
        cycle h = (ev, inr tt)
        /\ actions ev = flat_map tries l
        /\ (forall a b,
               l = [a; b] -> delete_after_sending cfg = true ->
               actions ev
               = [SendAttempt (subject_of py_str cfg a)
                    (body_of fromisoformat strftime py_str cfg a);
                  DeleteAttempt (proxy_path a);
                  SendAttempt (subject_of py_str cfg b)
                    (body_of fromisoformat strftime py_str cfg b);
                  DeleteAttempt (proxy_path b)])
    | inl e =>
        cycle h = (ev, match l with [] => inr tt | _ :: _ => inl e end)
        /\ actions ev = []
    end.
Proof.
  intros E1 E2 E3 E4 Hh.
  pose proof (received_render _ _ _ _ _ E4 Hh) as Hr.
  destruct (prepared parseaddr formataddr mail_from (mail_to cfg))
    as [e|p] eqn:Hp.
  - destruct Hr as [|m l Hm _].
    + exists (ev1 ++ ev2 ++ ev3 ++ ev4 ++ []).
      destruct (fetch_quiet _ _ _ _ _ _ _ _ _ E1 E2 E3 E4 [] (inr tt) eq_refl)
        as [Hrun Hact].
      now rewrite Hact.
    + destruct (loop_raise messaging m l e
                  ((((h ++ ev1) ++ ev2) ++ ev3) ++ ev4) Hp Hm)
        as (logs & Hlogs & E5).
      exists (ev1 ++ ev2 ++ ev3 ++ ev4 ++ logs).
      destruct (fetch_quiet _ _ _ _ _ _ _ _ _ E1 E2 E3 E4 _ _ E5)
        as [Hrun Hact].
      split; [exact Hrun|]. rewrite Hact. now apply actions_logs.
  - destruct (loop_run messaging l p ((((h ++ ev1) ++ ev2) ++ ev3) ++ ev4) Hp Hr)
      as (ev5 & E5 & A5).
    exists (ev1 ++ ev2 ++ ev3 ++ ev4 ++ ev5).
    destruct (fetch_quiet _ _ _ _ _ _ _ _ _ E1 E2 E3 E4 _ _ E5)
      as [Hrun Hact].
    rewrite A5 in Hact.
    split; [exact Hrun|]. split; [exact Hact|].
    intros a b -> Hdel. rewrite Hact. unfold attempts. rewrite Hdel. reflexivity.
Qed.

(** C4, as amended. Once [send_email] has built the headers, it returns
    normally whatever the SMTP session does, after logging the failure
    when there is one; the loop over the messages [l] then runs to its end
    with one send attempt per message, in order, for every behaviour of
    the SMTP server. An exception raised while the headers are built (a
    sender address without domain part, an address that [formataddr]
    refuses) is not caught: it leaves [send_email] before any SMTP
    session and ends the loop in the turn of the first message. *)
Theorem send_failure_is_contained (messaging : DBusInterface)
    (l : list DBusInterface) (h : list event) :
  Forall (fun m => renders m = true) l ->
  (forall to_addrs subject body h',
      match prepared parseaddr formataddr mail_from to_addrs with
      | inr _ =>
          exists mail,
            let r := smtp_session h' mail in
            send smtp_server smtp_port smtp_user smtp_password mail_from
              to_addrs subject body h'
            = ([Smtp mail r; send_log r], inr tt)
            /\ (forall e, r = Some e ->
                          send_log r = Log ERROR "Failed to send email: %s" [LogExn e])
      | inl e =>
          send smtp_server smtp_port smtp_user smtp_password mail_from
            to_addrs subject body h'
          = ([], inl e)
      end)
  /\ match prepared parseaddr formataddr mail_from (mail_to cfg) with
     | inr _ =>
         exists ev,
           for_each l (turn messaging) h = (ev, inr tt)
           /\ List.filter is_send (actions ev)
              = List.map (fun m => SendAttempt (subject_of py_str cfg m)
                                     (body_of fromisoformat strftime py_str cfg m)) l
     | inl e =>
         exists logs,
           forallb is_log logs = true
           /\ for_each l (turn messaging) h
              = (logs, match l with [] => inr tt | _ :: _ => inl e end)
     end.
Proof.
  intros Hr. split.
  - intros to_addrs subject body h'.
    destruct (prepared parseaddr formataddr mail_from to_addrs) as [e|p] eqn:Hp.
    + now apply send_email_raise.
    + destruct (send_email_run to_addrs subject body p h' Hp) as (mail & _ & _ & E).
      exists mail. split; [exact E|]. now intros e ->.
  - destruct (prepared parseaddr formataddr mail_from (mail_to cfg))
      as [e|p] eqn:Hp.
    + destruct Hr as [|m l Hm _]; [now exists []|].
      exact (loop_raise messaging m l e h Hp Hm).
    + destruct (loop_run messaging l p h Hp Hr) as (ev & E & A).
      exists ev. split; [exact E|]. rewrite A. clear.
      induction l as [|m l IH]; [reflexivity|].
      cbn [flat_map List.map]. unfold attempts at 1.
      destruct (delete_after_sending cfg); cbn; now rewrite IH.
Qed.

(** C10, as amended. With delete-after-send enabled, once [send_email]
    has built the headers the turn of the loop for one message ends with
    the [Delete] call for that message, right after the SMTP session and
    its log line, whether the session succeeded or raised: [send_email]
    catches every exception of the session and gives the loop nothing to
    tell the two apart. An exception raised while the headers are built
    is not caught: the turn ends with it and makes no [Delete] call. *)
Theorem delete_follows_send_attempt (messaging msg : DBusInterface)
    (h : list event) :
  delete_after_sending cfg = true ->
  renders msg = true ->
  exists logs,
    forallb is_log logs = true
    /\ match prepared parseaddr formataddr mail_from (mail_to cfg) with
       | inr _ =>
           exists mail r r',
             r = smtp_session (h ++ logs) mail
             /\ turn messaging msg h
                = (logs ++ [Smtp mail r; send_log r;
                            Delete (proxy_path messaging) (proxy_path msg) r';
                            delete_log (proxy_path msg) r'],
                   inr tt)
             /\ (forall e, r = Some e ->
                           send_log r = Log ERROR "Failed to send email: %s" [LogExn e])
       | inl e => turn messaging msg h = (logs, inl e)
       end.
Proof.
  intros Hdel Hr.
  destruct (prepared parseaddr formataddr mail_from (mail_to cfg))
    as [e|p] eqn:Hp.
  - exact (process_message_raise messaging msg e h Hp Hr).
  - destruct (process_message_run messaging msg p h Hp Hr)
      as (logs & mail & Hlogs & _ & _ & E).
    rewrite Hdel in E. cbn zeta in E.
    exists logs. split; [exact Hlogs|].
    do 3 eexists. split; [reflexivity|].
    split; [rewrite E, <- app_assoc; reflexivity|]. now intros e ->.
Qed.

(** C8. When the manager is reached and [get_first] finds no modem, the
    cycle returns normally; its only events are the enumeration call and
    log lines, so there is no property fetch, no send and no delete. *)
Theorem no_modem_no_work (h ev1 ev2 : list event) (mm : ModemManager) :
  ModemManager_init remote h = (ev1, inr mm) ->
  get_first remote mm (h ++ ev1) = (ev2, inr None) ->
  cycle h = (ev1 ++ ev2, inr tt)
  /\ ev1 = [GetManagedObjects mm_root]
  /\ forallb is_log ev2 = true
  /\ List.filter is_fetch (ev1 ++ ev2) = []
  /\ actions (ev1 ++ ev2) = [].
Proof.
  intros E1 E2.
  assert (H1 : ev1 = [GetManagedObjects mm_root]).
  { unfold ModemManager_init, get_modems_list in E1.
    apply bind_inv in E1 as (? & ? & ? & E & [= <- _] & ->).
    apply bind_inv in E as (? & ? & ? & [= <- _] & E & ->).
    apply bind_inv in E as (? & ? & ? & [= <- _] & [= <- _] & ->).
    reflexivity. }
  pose proof (get_first_none remote _ _ _ E2) as H2.
  repeat split; try assumption.
  - unfold process_messages.
    rewrite (bind_inr _ _ _ _ _ E1), (bind_inr _ _ _ _ _ E2).
    cbn. now rewrite app_nil_r.
  - subst ev1. cbn. clear -H2. induction ev2 as [|e ev IH]; [reflexivity|].
    cbn in *. apply andb_prop in H2 as [He Hev]. rewrite (IH Hev).
    now destruct e.
  - subst ev1. rewrite actions_app. now rewrite (actions_logs _ H2).
Qed.

End DeliveryFacts.

(** ** Sorting keys that do not compare *)

(** [datetime.min] is naive: it compares with no aware value. *)
Lemma datetime_min_aware (d : datetime) (off : Z) :
  utcoffset d = Some off ->
  datetime_lt datetime_min d = inl TypeError
  /\ datetime_lt d datetime_min = inl TypeError.
Proof. intros Hd. unfold datetime_lt. rewrite Hd. now split. Qed.

(** Sorting a message with an aware key next to one without a timestamp
    raises, whatever the parser is, in both directions. *)
Lemma sort_aware_and_undated (a b : DBusInterface) (d : datetime) (off : Z)
    (reverse : bool) :
  utcoffset d = Some off ->
  list_sort datetime_lt reverse [(d, a); (datetime_min, b)] = inl TypeError.
Proof.
  intros Hd. destruct (datetime_min_aware d off Hd) as [H1 H2].
  destruct reverse; cbv [list_sort stable_sort insert rev app fst];
    rewrite ?H1, ?H2; reflexivity.
Qed.

(** C2 (the code departs from it). Two received messages, one whose
    timestamp carries a UTC offset and one without a timestamp: [get_sms()]
    raises [TypeError] for either value of [reverse] instead of returning
    the sorted list. *)
Theorem received_mixed_timestamps_raise (reverse : bool) :
  get_sms Sample.mixed_bus Sample.fromisoformat
    (Sample.messaging_of Sample.mixed_msgs) PyNone reverse []
  = ([GetAll (Sample.sms_path 1) "org.freedesktop.ModemManager1.Sms";
      GetAll (Sample.sms_path 2) "org.freedesktop.ModemManager1.Sms"],
     inl TypeError).
Proof. destruct reverse; vm_compute; reflexivity. Qed.

(** ** Lookup by property *)

Section ByProperty.

Variable remote : bus.

Lemma MMModem_run (k : Z) (props : gmap string value) h :
  0 <= k ->
  all_properties remote (full_path "Modem" k) "org.freedesktop.ModemManager1.Modem"
  = inr props ->
  MMModem remote (PyStr (full_path "Modem" k)) h
  = ([GetAll (full_path "Modem" k) "org.freedesktop.ModemManager1.Modem"],
     inr {| proxy_path := full_path "Modem" k;
            name := "org.freedesktop.ModemManager1.Modem";
            properties := Some props |}).
Proof.
  intros Hk Hp. unfold MMModem.
  assert (E : object_path "Modem" (PyStr (full_path "Modem" k)) h
              = ([], inr (Some (full_path "Modem" k)))).
  { apply object_path_ok. rewrite object_id_full_path. simpl.
    now rewrite StrFacts.of_string_of_Z. }
  rewrite (bind_pure _ _ _ _ E).
  rewrite (bind_pure _ _ _ (full_path "Modem" k))
    by (apply setup_proxy_object_run; rewrite valid_modem_path; lia).
  unfold DBusInterface_init, get_properties, mbind, M_bind, bind, emit.
  now rewrite Hp.
Qed.

(** A path with a negative number is no object path: the proxy is refused
    before any call on the bus. *)
Lemma MMModem_refuse (k : Z) h :
  k < 0 ->
  MMModem remote (PyStr (full_path "Modem" k)) h = ([], inl ValueError).
Proof.
  intros Hk. unfold MMModem.
  assert (E : object_path "Modem" (PyStr (full_path "Modem" k)) h
              = ([], inr (Some (full_path "Modem" k)))).
  { apply object_path_ok. rewrite object_id_full_path. simpl.
    now rewrite StrFacts.of_string_of_Z. }
  rewrite (bind_pure _ _ _ _ E).
  apply bind_inl, setup_proxy_object_refuse. rewrite valid_modem_path. lia.
Qed.

(** A property that is an [int] on the first enumerated modem makes the
    lookup raise, for every search value. (A first path with a negative
    number, which no bus enumerates, is refused before the property is
    fetched.) *)
Lemma get_modem_by_int_property (self : ModemManager) (prop : string) (val : value)
    (k : Z) (rest : list string) (props : gmap string value)
    (c : dbus_int_class) (n : Z) h :
  val <> PyNone ->
  prop ∈ allowed_names ->
  modems self = full_path "Modem" k :: rest ->
  all_properties remote (full_path "Modem" k) "org.freedesktop.ModemManager1.Modem"
  = inr props ->
  props !! prop = Some (DBusInt c n) ->
  get_modem_by remote self prop val h
  = if 0 <=? k
    then ([GetAll (full_path "Modem" k) "org.freedesktop.ModemManager1.Modem"],
          inl TypeError)
    else ([], inl ValueError).
Proof.
  intros Hv Ha Hm Hp Hprop.
  assert (E : get_modem_by remote self prop val
              = (found ← filter_map_m (fun x => lift (py_in val (get_property x prop)))
                           (MMModem remote) (List.map PyStr (modems self));
                 match found with
                 | [m] => ret (ModemOne m)
                 | _ => ret (ModemList found)
                 end)).
  { unfold get_modem_by. rewrite (bool_decide_eq_true_2 _ Ha).
    now destruct val. }
  rewrite E, Hm. cbn [List.map filter_map_m].
  unfold mbind at 1, M_bind, bind at 1.
  unfold mbind at 1, M_bind, bind at 1.
  destruct (Z.leb_spec 0 k) as [Hk|Hk];
    [|now rewrite (MMModem_refuse k h Hk)].
  rewrite (MMModem_run k props h Hk Hp).
  unfold mbind at 1, M_bind, bind at 1.
  unfold get_property. cbn [properties]. rewrite Hprop.
  assert (Hc : py_in val (type_cast (DBusInt c n)) = inl TypeError)
    by now destruct c.
  now rewrite Hc.
Qed.

Lemma filter_map_m_lift {A B} (p : B -> result bool) (q : B -> bool)
    (f : A -> M B) (l : list A) h ev xs :
  map_m f l h = (ev, inr xs) ->
  Forall (fun x => p x = inr (q x)) xs ->
  filter_map_m (fun x => lift (p x)) f l h = (ev, inr (List.filter q xs)).
Proof.
  revert h ev xs. induction l as [|a l IH]; intros h ev xs.
  - now intros [= <- <-] _.
  - cbn [map_m filter_map_m]. intros H HF.
    apply bind_inv in H as (ev1 & y & ev2 & H1 & H2 & ->).
    apply bind_inv in H2 as (ev3 & ys & ev4 & H3 & [= <- <-] & ->).
    apply Forall_cons_iff in HF as [Hy HF].
    rewrite (bind_inr _ _ _ _ _ H1).
    rewrite (bind_pure _ _ _ (q y)) by now rewrite lift_run, Hy.
    rewrite (bind_inr _ _ _ _ _ (IH _ _ _ H3 HF)).
    cbn. rewrite !app_nil_r. now destruct (q y).
Qed.

(** What [get_modem_by] returns when the containment test applies to
    every enumerated modem: the modems that match, as a bare modem when
    there is exactly one; and [None] for a name outside the allow-list. *)
Lemma get_modem_by_matches (self : ModemManager) (prop : string) (val : value) h :
  val <> PyNone ->
  (prop ∉ allowed_names -> get_modem_by remote self prop val h = ([], inr ModemNone))
  /\ (forall ev ms,
         prop ∈ allowed_names ->
         map_m (MMModem remote) (List.map PyStr (modems self)) h = (ev, inr ms) ->
         Forall (testable prop val) ms ->
         get_modem_by remote self prop val h
         = (ev, inr match List.filter (matches prop val) ms with
                    | [m] => ModemOne m
                    | found => ModemList found
                    end)).
Proof.
  intros Hv. split.
  - intros Hn. unfold get_modem_by. rewrite (bool_decide_eq_false_2 _ Hn).
    now destruct val.
  - intros ev ms Ha Hm Ht.
    assert (E : get_modem_by remote self prop val
                = (found ← filter_map_m (fun x => lift (py_in val (get_property x prop)))
                             (MMModem remote) (List.map PyStr (modems self));
                   match found with
                   | [m] => ret (ModemOne m)
                   | _ => ret (ModemList found)
                   end)).
    { unfold get_modem_by. rewrite (bool_decide_eq_true_2 _ Ha).
      now destruct val. }
    rewrite E.
    assert (HF : Forall (fun m => py_in val (get_property m prop)
                                  = inr (matches prop val m)) ms).
    { eapply Forall_impl; [exact Ht|]. intros m [b Hb].
      unfold matches. now rewrite Hb. }
    rewrite (bind_inr _ _ _ _ _ (filter_map_m_lift _ _ _ _ _ _ _ Hm HF)).
    destruct (List.filter (matches prop val) ms) as [|m [|m' r]];
      cbn; now rewrite app_nil_r.
Qed.

End ByProperty.

(** C6 (the code departs from it). [State] is in the allow-list, and the
    modem's [State] property is an [Int32]: the lookup by [State] raises
    [TypeError] on a bus with one modem instead of returning that modem or
    a sequence. *)
Theorem get_modem_by_state_raises :
  get_modem_by Sample.example_bus Sample.manager "State" (PyInt 8) []
  = ([GetAll Sample.modem0 "org.freedesktop.ModemManager1.Modem"], inl TypeError).
Proof. vm_compute. reflexivity. Qed.

(** ** The order of the result *)

Lemma lex_lt_asym (a b : list Z) : lex_lt a b = true -> lex_lt b a = false.
Proof.
  revert b. induction a as [|x a IH]; intros [|y b]; simpl; try easy.
  destruct (Z.ltb_spec x y), (Z.eqb_spec x y), (Z.ltb_spec y x), (Z.eqb_spec y x);
    simpl; try lia; try easy. apply IH.
Qed.

Lemma lex_lt_negtrans (a b c : list Z) :
  lex_lt a b = false -> lex_lt b c = false -> lex_lt a c = false.
Proof.
  revert b c. induction a as [|x a IH]; intros [|y b] [|z c]; simpl; try easy.
  destruct (Z.ltb_spec x y), (Z.eqb_spec x y), (Z.ltb_spec y z), (Z.eqb_spec y z),
    (Z.ltb_spec x z), (Z.eqb_spec x z); simpl; try lia; try easy. apply IH.
Qed.

(** [datetime.min] is the least naive datetime. *)
Lemma datetime_min_least (d : datetime) :
  after_min d -> naive_lt d datetime_min = false.
Proof.
  unfold after_min, naive_lt. destruct d as [y m dd hh mi ss us off]. simpl.
  intros (Hy & Hm & Hd & Hh & Hmi & Hs & Hus).
  repeat match goal with
         | |- context [?a <? ?b] => destruct (Z.ltb_spec a b); [lia|]
         | |- context [?a =? ?b] => destruct (Z.eqb_spec a b)
         end; reflexivity.
Qed.

Section SortOrder.

Context {K A : Type}.
Variable lt : K -> K -> result bool.
Variable ltb : K -> K -> bool.
Hypothesis ltb_asym : forall a b, ltb a b = true -> ltb b a = false.
Hypothesis ltb_negtrans :
  forall a b c, ltb a b = false -> ltb b c = false -> ltb a c = false.

Lemma decides_cons (x : K * A) (l : list (K * A)) :
  decides lt ltb (x :: l) -> decides lt ltb l.
Proof. intros H a b Ha Hb. apply H; now right. Qed.

Lemma insert_sorted (x : K * A) (s s' : list (K * A)) :
  decides lt ltb (x :: s) ->
  StronglySorted (ascending ltb) s ->
  insert lt x s = inr s' ->
  StronglySorted (ascending ltb) s'.
Proof.
  revert s'. induction s as [|y s IH]; intros s' Hd Hs; simpl.
  - intros [= <-]. repeat constructor.
  - rewrite (Hd y x) by (rewrite !elem_of_cons; auto).
    apply StronglySorted_inv in Hs as [Hs Hy].
    destruct (ltb y.1 x.1) eqn:Hyx.
    + destruct (insert lt x s) as [e|r] eqn:Er; [easy|]. intros [= <-].
      constructor.
      * apply IH; [|assumption|reflexivity].
        intros a b Ha Hb. apply Hd; rewrite !elem_of_cons in *; tauto.
      * apply insert_perm in Er. rewrite <- Er. constructor; [|assumption].
        now apply ltb_asym.
    + intros [= <-]. constructor; [now constructor|].
      constructor; [exact Hyx|].
      eapply Forall_impl; [exact Hy|]. intros z Hz. unfold ascending in *.
      eapply ltb_negtrans; eassumption.
Qed.

Lemma stable_sort_sorted (l s : list (K * A)) :
  decides lt ltb l ->
  stable_sort lt l = inr s ->
  StronglySorted (ascending ltb) s.
Proof.
  revert s. induction l as [|x l IH]; intros s Hd; simpl.
  - intros [= <-]. constructor.
  - destruct (stable_sort lt l) as [e|r] eqn:Er; [easy|]. intros Hi.
    eapply insert_sorted; [|eapply IH; [eapply decides_cons; eassumption|reflexivity]|exact Hi].
    apply stable_sort_perm in Er.
    intros a b Ha Hb. apply Hd; rewrite elem_of_cons in *; rewrite Er; assumption.
Qed.

Lemma insert_stable (k : K) (x : K * A) (s s' : list (K * A)) :
  decides lt ltb (x :: s) ->
  insert lt x s = inr s' ->
  List.filter (same_rank ltb k) s' = List.filter (same_rank ltb k) (x :: s).
Proof.
  revert s'. induction s as [|y s IH]; intros s' Hd; simpl.
  - now intros [= <-].
  - rewrite (Hd y x) by (rewrite !elem_of_cons; auto).
    destruct (ltb y.1 x.1) eqn:Hyx; [|now intros [= <-]].
    destruct (insert lt x s) as [e|r] eqn:Er; [easy|]. intros [= <-].
    assert (Hr : List.filter (same_rank ltb k) r
                 = List.filter (same_rank ltb k) (x :: s)).
    { apply IH; [|reflexivity].
      intros a b Ha Hb. apply Hd; rewrite !elem_of_cons in *; tauto. }
    simpl. rewrite Hr. simpl.
    destruct (same_rank ltb k y) eqn:Hy, (same_rank ltb k x) eqn:Hx; try reflexivity.
    exfalso. unfold same_rank in *.
    apply andb_prop in Hy as [_ Hy2], Hx as [Hx1 _].
    apply negb_true_iff in Hy2, Hx1.
    rewrite (ltb_negtrans _ _ _ Hy2 Hx1) in Hyx. discriminate Hyx.
Qed.

Lemma stable_sort_stable (k : K) (l s : list (K * A)) :
  decides lt ltb l ->
  stable_sort lt l = inr s ->
  List.filter (same_rank ltb k) s = List.filter (same_rank ltb k) l.
Proof.
  revert s. induction l as [|x l IH]; intros s Hd; simpl.
  - now intros [= <-].
  - destruct (stable_sort lt l) as [e|r] eqn:Er; [easy|]. intros Hi.
    apply (insert_stable k) in Hi.
    + rewrite Hi. simpl. now rewrite (IH r (decides_cons _ _ Hd) eq_refl).
    + apply stable_sort_perm in Er.
      intros a b Ha Hb. apply Hd; rewrite elem_of_cons in *; rewrite Er; assumption.
Qed.

Lemma decides_rev (l : list (K * A)) : decides lt ltb l -> decides lt ltb (rev l).
Proof.
  intros H a b Ha Hb.
  apply H; apply list_elem_of_In, in_rev, list_elem_of_In; assumption.
Qed.

Lemma sorted_snoc (R : K * A -> K * A -> Prop) (l : list (K * A)) (x : K * A) :
  StronglySorted R l -> Forall (fun y => R y x) l -> StronglySorted R (l ++ [x]).
Proof.
  induction 1 as [|y l Hl IH Hy]; intros Hx; simpl.
  - repeat constructor.
  - apply Forall_cons_iff in Hx as [Hyx Hx]. constructor; [now apply IH|].
    apply Forall_app. split; [assumption|now constructor].
Qed.

Lemma sorted_rev (R : K * A -> K * A -> Prop) (l : list (K * A)) :
  StronglySorted R l -> StronglySorted (fun a b => R b a) (rev l).
Proof.
  induction 1 as [|y l Hl IH Hy]; simpl; [constructor|].
  apply sorted_snoc; [assumption|].
  apply Forall_forall. intros z Hz.
  rewrite Forall_forall in Hy. apply Hy.
  now apply list_elem_of_In, in_rev, list_elem_of_In.
Qed.

Lemma filter_rev (p : K * A -> bool) (l : list (K * A)) :
  List.filter p (rev l) = rev (List.filter p l).
Proof.
  induction l as [|x l IH]; [reflexivity|]. simpl.
  rewrite List.filter_app, IH. simpl.
  destruct (p x); simpl; [reflexivity|apply app_nil_r].
Qed.

(** The result of [list.sort]: keys ascending, or descending with
    [reverse], and items of equal rank in their original order. *)
Lemma list_sort_sorted_stable (reverse : bool) (l s : list (K * A)) :
  decides lt ltb l ->
  list_sort lt reverse l = inr s ->
  StronglySorted (fun a b => if reverse then ascending ltb b a else ascending ltb a b) s
  /\ forall k, List.filter (same_rank ltb k) s = List.filter (same_rank ltb k) l.
Proof.
  intros Hd. unfold list_sort. destruct reverse.
  - destruct (stable_sort lt (rev l)) as [e|r] eqn:Er; [easy|]. intros [= <-].
    split.
    + apply sorted_rev. eapply stable_sort_sorted; [apply decides_rev|]; eassumption.
    + intros k. rewrite filter_rev.
      rewrite (stable_sort_stable k _ _ (decides_rev _ Hd) Er).
      now rewrite filter_rev, rev_involutive.
  - intros Hs. split.
    + eapply stable_sort_sorted; eassumption.
    + intros k. eapply stable_sort_stable; eassumption.
Qed.

End SortOrder.

Section ReceivedOrder.

Variable remote : bus.
Variable fromisoformat : string -> option datetime.

Lemma naive_decides (l : list (datetime * DBusInterface)) :
  Forall (fun a => utcoffset a.1 = None) l -> decides datetime_lt naive_lt l.
Proof.
  rewrite Forall_forall. intros H a b Ha Hb.
  unfold datetime_lt, naive_lt. now rewrite (H a Ha), (H b Hb).
Qed.

Lemma sorted_keyed (R : datetime * DBusInterface -> datetime * DBusInterface -> Prop)
    (l : list DBusInterface) :
  StronglySorted R (List.map (keyed fromisoformat) l) ->
  StronglySorted (fun a b => R (keyed fromisoformat a) (keyed fromisoformat b)) l.
Proof.
  induction l as [|m l IH]; simpl; intros H; [constructor|].
  apply StronglySorted_inv in H as [Hs Hm]. constructor; [now apply IH|].
  now rewrite Forall_map in Hm.
Qed.

Lemma filter_keyed (p : datetime * DBusInterface -> bool) (l : list DBusInterface) :
  List.filter p (List.map (keyed fromisoformat) l)
  = List.map (keyed fromisoformat) (List.filter (fun m => p (keyed fromisoformat m)) l).
Proof.
  induction l as [|m l IH]; [reflexivity|]. simpl. rewrite IH.
  now destruct (p (keyed fromisoformat m)).
Qed.

Lemma sorted_impl {B} (R R' : B -> B -> Prop) (l : list B) :
  (forall a b, R a b -> R' a b) -> StronglySorted R l -> StronglySorted R' l.
Proof.
  intros HR. induction 1 as [|x l Hl IH Hx]; constructor; [assumption|].
  eapply Forall_impl; [exact Hx|]. intros b. apply HR.
Qed.

Lemma keyed_inj (l l' : list DBusInterface) :
  List.map (keyed fromisoformat) l = List.map (keyed fromisoformat) l' -> l = l'.
Proof.
  intros H. apply (f_equal (List.map snd)) in H.
  rewrite !List.map_map in H. cbn in H. now rewrite !List.map_id in H.
Qed.


End ReceivedOrder.

(** ** The program on the sample bus *)

Lemma comparableb_sound {K A} (lt : K -> K -> result bool) (l : list (K * A)) :
  comparableb lt l = true -> comparable lt l.
Proof.
  unfold comparableb, comparable. rewrite forallb_forall.
  intros H a b Ha%list_elem_of_In Hb%list_elem_of_In.
  specialize (H a Ha). rewrite forallb_forall in H. specialize (H b Hb).
  destruct (lt a.1 b.1) as [e|c]; [discriminate H|now exists c].
Qed.

Lemma type_cast_normalizes_witness :
  type_cast (DBusInt Boolean 1) = DBusInt Boolean 1
  /\ type_cast (DBusStruct [DBusStr String_ "ttyUSB0"; DBusInt UInt32 3])
     = DBusStruct [DBusStr String_ "ttyUSB0"; DBusInt UInt32 3].
Proof.
  split; apply type_cast_normalizes; reflexivity.
Defined.



Lemma lookups_validate_listing_witness :
  (exists ev, get_modem Sample.example_bus Sample.manager (PyInt 7) [] = (ev, inr None)
              /\ forallb is_log ev = true)
  /\ (exists ev,
         get_sms Sample.example_bus Sample.fromisoformat
           (Sample.messaging_of Sample.example_msgs) (PyInt 9) true []
         = (ev, inr SmsNone)
         /\ forallb is_log ev = true).
Proof.
  split.
  - apply (proj1 (lookups_validate_listing Sample.example_bus Sample.fromisoformat [])).
    intros p [= <-]. vm_compute. intros H.
    apply list_elem_of_In in H as [H|[]]. discriminate H.
  - eapply (proj2 (lookups_validate_listing Sample.example_bus Sample.fromisoformat [])).
    + discriminate.
    + vm_compute. reflexivity.
    + repeat constructor; eexists; reflexivity.
    + intros p [= <-] (x & Hx & Hs).
      apply list_elem_of_In in Hx as [<-|[<-|[]]]; vm_compute in Hs; discriminate Hs.
Defined.

(** Evaluates [prepared] in a hypothesis about the reference instance. *)
Ltac run_prepared H :=
  lazymatch type of H with
  | context [prepared ?a ?b ?c ?d] =>
      let v := eval vm_compute in (prepared a b c d) in
      change (prepared a b c d) with v in H; cbv beta iota in H
  | _ => idtac
  end.

Lemma cycle_attempts_in_order_witness :
  exists ev,
    Sample.cycle Sample.two_bus Sample.smtp_ok Sample.delete_ok true [] = (ev, inr tt)
    /\ actions ev
       = [SendAttempt "New SMS from +491707654321"
            "From: +491707654321
Date: 02.01.2024, 10:00:00 Uhr

Ho";
          DeleteAttempt (Sample.sms_path 2);
          SendAttempt "New SMS from +491701234567"
            "From: +491701234567
Date: 01.01.2024, 10:00:00 Uhr

Hi";
          DeleteAttempt (Sample.sms_path 1)].
Proof.
  edestruct (cycle_attempts_in_order Sample.two_bus Sample.fromisoformat
               Sample.strftime Sample.py_str Sample.parseaddr Sample.formataddr
               Sample.make_msgid Sample.formatdate Sample.smtp_ok Sample.delete_ok
               "smtp.example.org" 587 "user" "secret" "gateway@example.org"
               (Sample.cfg true) [])
    as (ev & H).
  - vm_compute. reflexivity.
  - vm_compute. reflexivity.
  - vm_compute. reflexivity.
  - instantiate (1 := Sample.two_received). vm_compute. reflexivity.
  - repeat constructor.
  - run_prepared H. destruct H as (E & _ & T).
    exists ev. split; [exact E|].
    rewrite (T _ _ eq_refl eq_refl). vm_compute. reflexivity.
Defined.

(** C3 (counterexample). Two received messages, deleting enabled and a
    recipient address outside ASCII: [formataddr] raises in the turn of
    the first message and the cycle ends with this exception, without
    any send or delete attempt, where the claim has two of each. *)
Lemma cycle_without_attempts :
  get_sms Sample.two_bus Sample.fromisoformat
    (Sample.messaging_of Sample.two_msgs) PyNone true []
  = ([GetAll (Sample.sms_path 1) "org.freedesktop.ModemManager1.Sms";
      GetAll (Sample.sms_path 2) "org.freedesktop.ModemManager1.Sms"],
     inr (SmsList Sample.two_received))
  /\ exists ev,
      Sample.cycle_as Sample.two_bus "gateway@example.org" (Sample.cfg_umlaut true)
        Sample.smtp_ok Sample.delete_ok []
      = (ev, inl UnicodeEncodeError)
      /\ actions ev = [].
Proof.
  split; [vm_compute; reflexivity|].
  eexists. split; vm_compute; reflexivity.
Qed.

Lemma send_failure_is_contained_witness :
  exists ev,
    for_each Sample.two_received
      (Sample.turn Sample.smtp_first_fails Sample.delete_ok true
         (Sample.messaging_of Sample.two_msgs)) []
    = (ev, inr tt)
    /\ List.filter is_send (actions ev)
       = List.map (fun m => SendAttempt (subject_of Sample.py_str (Sample.cfg true) m)
                              (body_of Sample.fromisoformat Sample.strftime
                                 Sample.py_str (Sample.cfg true) m))
           Sample.two_received.
Proof.
  pose proof (proj2 (send_failure_is_contained Sample.fromisoformat
                       Sample.strftime Sample.py_str Sample.parseaddr
                       Sample.formataddr Sample.make_msgid Sample.formatdate
                       Sample.smtp_first_fails Sample.delete_ok
                       "smtp.example.org" 587 "user" "secret"
                       "gateway@example.org" (Sample.cfg true)
                       (Sample.messaging_of Sample.two_msgs) Sample.two_received
                       [] ltac:(repeat constructor))) as H.
  run_prepared H. exact H.
Defined.

(** C4 (counterexample). With a recipient address outside ASCII the
    exception of [formataddr] leaves [send_email], and the loop over two
    messages ends with it in the turn of the first: the second message
    is not attempted. *)
Lemma send_exception_escapes :
  send_email Sample.parseaddr Sample.formataddr Sample.make_msgid
    Sample.formatdate Sample.smtp_ok "smtp.example.org" 587 "user" "secret"
    "gateway@example.org" (mail_to (Sample.cfg_umlaut false))
    "New SMS from +491707654321" "Ho" []
  = ([], inl UnicodeEncodeError)
  /\ for_each Sample.two_received
       (Sample.turn_as "gateway@example.org" (Sample.cfg_umlaut false)
          Sample.smtp_ok Sample.delete_ok (Sample.messaging_of Sample.two_msgs)) []
     = ([Log INFO "SMS from %s: %s" [LogVal (PyStr "+491707654321"); LogVal (PyStr "Ho")]],
        inl UnicodeEncodeError).
Proof. split; vm_compute; reflexivity. Qed.

Lemma delete_follows_send_attempt_witness :
  exists logs,
    forallb is_log logs = true
    /\ exists mail r r',
        r = Sample.smtp_first_fails ([] ++ logs) mail
        /\ Sample.turn Sample.smtp_first_fails Sample.delete_ok true
             (Sample.messaging_of Sample.two_msgs)
             (Sample.sms_object 1
                (Sample.sms_props "+491701234567" "Hi" 3 (Some "2024-01-01T10:00:00"))) []
           = (logs ++ [Smtp mail r; send_log r;
                       Delete Sample.modem0 (Sample.sms_path 1) r';
                       delete_log (Sample.sms_path 1) r'],
              inr tt)
        /\ (forall e, r = Some e ->
                      send_log r = Log ERROR "Failed to send email: %s" [LogExn e]).
Proof.
  pose proof (delete_follows_send_attempt Sample.fromisoformat
                Sample.strftime Sample.py_str Sample.parseaddr Sample.formataddr
                Sample.make_msgid Sample.formatdate Sample.smtp_first_fails
                Sample.delete_ok "smtp.example.org" 587 "user" "secret"
                "gateway@example.org" (Sample.cfg true)
                (Sample.messaging_of Sample.two_msgs)
                (Sample.sms_object 1
                   (Sample.sms_props "+491701234567" "Hi" 3
                      (Some "2024-01-01T10:00:00")))
                [] eq_refl eq_refl) as H.
  run_prepared H. exact H.
Defined.

(** C10 (counterexample). Deleting is enabled and the sender address is
    outside ASCII: [formataddr] raises in [send_email] before its [try],
    the turn of the message ends with this exception after its first log
    line, and no [Delete] call is made. *)
Lemma delete_skipped_when_send_raises :
  Sample.turn_as "gäteway@example.org" (Sample.cfg true)
    Sample.smtp_ok Sample.delete_ok (Sample.messaging_of Sample.two_msgs)
    (Sample.sms_object 1
       (Sample.sms_props "+491701234567" "Hi" 3 (Some "2024-01-01T10:00:00"))) []
  = ([Log INFO "SMS from %s: %s" [LogVal (PyStr "+491701234567"); LogVal (PyStr "Hi")]],
     inl UnicodeEncodeError).
Proof. vm_compute. reflexivity. Qed.

Lemma no_modem_no_work_witness :
  Sample.cycle Sample.empty_bus Sample.smtp_ok Sample.delete_ok true []
  = ([GetManagedObjects mm_root] ++ [], inr tt)
  /\ [GetManagedObjects mm_root] = [GetManagedObjects mm_root]
  /\ forallb is_log [] = true
  /\ List.filter is_fetch ([GetManagedObjects mm_root] ++ []) = []
  /\ actions ([GetManagedObjects mm_root] ++ []) = [].
Proof.
  refine (no_modem_no_work Sample.empty_bus Sample.fromisoformat
            Sample.strftime Sample.py_str Sample.parseaddr Sample.formataddr
            Sample.make_msgid Sample.formatdate Sample.smtp_ok Sample.delete_ok
            "smtp.example.org" 587 "user" "secret" "gateway@example.org"
            (Sample.cfg true) [] _ _ {| modems := [] |} _ _);
    reflexivity.
Defined.

(** * Further properties of the code *)

(** ** Object paths: what is accepted *)

Lemma contains_cons (a : string) (c : ascii) (s : string) :
  Str.contains a (String c s) = String.prefix a (String c s) || Str.contains a s.
Proof. reflexivity. Qed.

Lemma contains_middle (a pre post : string) :
  Str.contains a (pre +:+ a +:+ post) = true.
Proof.
  induction pre as [|c pre IH]; rewrite ?StrFacts.app_nil, ?StrFacts.app_cons.
  - apply StrFacts.contains_app.
  - now rewrite contains_cons, IH, orb_true_r.
Qed.

(** Once the base path of the kind occurs anywhere in a string, only the
    text after the last [/] counts: whatever stands before the base or
    between the base and the last segment is dropped. *)
Theorem object_path_last_segment (obj pre mid : string) (n : Z) (h : list event) :
  object_path obj
    (PyStr (pre +:+ objbasepath obj +:+ mid +:+ String Str.slash (Str.of_Z n))) h
  = ([], inr (Some (full_path obj n))).
Proof.
  apply object_path_ok. unfold object_id. cbn [as_str].
  rewrite contains_middle.
  replace (pre +:+ objbasepath obj +:+ mid +:+ String Str.slash (Str.of_Z n))
    with ((pre +:+ objbasepath obj +:+ mid) +:+ String Str.slash (Str.of_Z n))
    by now rewrite !StrFacts.app_assoc_str.
  rewrite StrFacts.last_item_split by apply StrFacts.of_Z_no_slash.
  simpl. now rewrite StrFacts.of_string_of_Z.
Qed.

(** Whatever input [object_path] accepts, the path it returns is
    [<root>/<kind>/<n>] in canonical decimal, nothing is logged, and the
    returned path encodes to itself. *)
Theorem object_path_normalizes (obj : string) (v : value) (p : string)
    (h ev : list event) :
  object_path obj v h = (ev, inr (Some p)) ->
  ev = []
  /\ (exists n, py_int (object_id obj v) = inr n /\ p = full_path obj n)
  /\ forall h', object_path obj (PyStr p) h' = ([], inr (Some p)).
Proof.
  intros H. destruct (py_int (object_id obj v)) as [e|n] eqn:E.
  - rewrite object_path_bad in H by (intros [n Hn]; congruence). discriminate H.
  - rewrite (object_path_ok _ _ _ _ E) in H. injection H as <- <-.
    repeat split; [now exists n|].
    intros h'. apply object_path_ok. rewrite object_id_full_path. simpl.
    now rewrite StrFacts.of_string_of_Z.
Qed.

Lemma object_path_normalizes_witness :
  object_path "SMS" (PyStr " 007 ") [] = ([], inr (Some (full_path "SMS" 7)))
  /\ forall h', object_path "SMS" (PyStr (full_path "SMS" 7)) h'
                = ([], inr (Some (full_path "SMS" 7))).
Proof.
  split; [reflexivity|].
  apply (object_path_normalizes "SMS" (PyStr " 007 ") (full_path "SMS" 7) [] []).
  reflexivity.
Defined.

(** ** The sender address *)

Lemma split_contains (c : ascii) (s : string) :
  Str.contains (String c EmptyString) s = true ->
  exists a b r, Str.split c s = a :: b :: r.
Proof.
  induction s as [|x s IH]; [discriminate|].
  rewrite contains_cons. cbn [Str.split String.prefix].
  destruct (Ascii.eqb_spec x c) as [->|Hne].
  - intros _. pose proof (StrFacts.split_nonempty c s).
    destruct (Str.split c s) as [|b r]; [easy|]. eauto.
  - destruct (ascii_dec c x) as [->|_]; [easy|]. cbn [orb].
    intros (a & b & r & ->)%IH. eauto.
Qed.

(** A comprehension that raises does so for one of its items. *)
Lemma map_r_raise {A B} (f : A -> result B) (l : list A) (e : exn) :
  map_r f l = inl e -> exists a, a ∈ l /\ f a = inl e.
Proof.
  induction l as [|x l IH]; [discriminate|]. cbn [map_r].
  destruct (f x) as [e'|y] eqn:Ex.
  - intros [= ->]. exists x. split; [set_solver|assumption].
  - destruct (map_r f l) as [e'|ys]; [|discriminate].
    intros [= ->]. destruct (IH eq_refl) as (a & Ha & Hf).
    exists a. split; [set_solver|assumption].
Qed.

Section SenderFacts.

Variable parseaddr : string -> string * string.
Variable formataddr : string * string -> result string.
Variable make_msgid : list event -> string -> string.
Variable formatdate : list event -> string.
Variable smtp_session : list event -> email -> option exn.

(** Arguments that pass the checks of the command line have a port in
    1..65535; when [parseaddr] leaves the sender address as it is (a bare
    address), the address also has the domain part that [send_email] takes
    from it. [send_email] then returns after one SMTP session when
    [formataddr] accepts the recipients and the sender, and otherwise
    raises the exception of [formataddr] for one of these addresses,
    before any SMTP session. *)
Theorem validated_sender_has_domain (smtp_server : string) (smtp_port : Z)
    (smtp_user smtp_password mail_from display : string)
    (to_addrs : list (string * string)) (subject body : string) (h : list event) :
  validate_arguments smtp_port mail_from = None ->
  parseaddr mail_from = (display, mail_from) ->
  1 <= smtp_port <= 65535
  /\ is_Some (from_domain parseaddr mail_from)
  /\ match prepared parseaddr formataddr mail_from to_addrs with
     | inr _ =>
         exists mail,
           send_email parseaddr formataddr make_msgid formatdate smtp_session
             smtp_server smtp_port smtp_user smtp_password mail_from to_addrs
             subject body h
           = ([Smtp mail (smtp_session h mail); send_log (smtp_session h mail)],
              inr tt)
     | inl e =>
         send_email parseaddr formataddr make_msgid formatdate smtp_session
           smtp_server smtp_port smtp_user smtp_password mail_from to_addrs
           subject body h
         = ([], inl e)
         /\ exists a, a ∈ to_addrs ++ [(display, mail_from)] /\ formataddr a = inl e
     end.
Proof.
  unfold validate_arguments. intros Hv Hp.
  destruct (Z.leb_spec smtp_port 0); [discriminate Hv|].
  destruct (Z.gtb_spec smtp_port 65535); [discriminate Hv|]. cbn in Hv.
  destruct (Str.contains "@" mail_from) eqn:Hc; [|discriminate Hv].
  split; [lia|].
  destruct (split_contains _ _ Hc) as (a & d & r & Hs).
  assert (Hd : from_domain parseaddr mail_from = Some d)
    by (unfold from_domain; rewrite Hp; cbn [snd]; now rewrite Hs).
  split; [now rewrite Hd|].
  destruct (prepared parseaddr formataddr mail_from to_addrs) as [e|p] eqn:E.
  - split; [now apply send_email_raise|].
    unfold prepared in E. rewrite Hd, Hp in E.
    destruct (map_r formataddr to_addrs) as [e'|items] eqn:Em.
    + injection E as ->. destruct (map_r_raise _ _ _ Em) as (x & Hx & Hf).
      exists x. split; [set_solver|assumption].
    + destruct (formataddr (display, mail_from)) as [e'|f] eqn:Ef; [|discriminate E].
      injection E as ->. exists (display, mail_from). split; [set_solver|assumption].
  - destruct (send_email_run parseaddr formataddr make_msgid formatdate smtp_session
                smtp_server smtp_port smtp_user smtp_password mail_from
                to_addrs subject body p h E) as (mail & _ & _ & Es).
    now exists mail.
Qed.

(** A sender address whose parsed form has no [@] makes [send_email] raise
    [IndexError] before any SMTP session. *)
Lemma send_email_no_domain (smtp_server : string) (smtp_port : Z)
    (smtp_user smtp_password mail_from : string)
    (to_addrs : list (string * string)) (subject body : string) (h : list event) :
  from_domain parseaddr mail_from = None ->
  send_email parseaddr formataddr make_msgid formatdate smtp_session
    smtp_server smtp_port smtp_user smtp_password mail_from to_addrs subject body h
  = ([], inl IndexError).
Proof.
  unfold from_domain, send_email.
  destruct (parseaddr mail_from) as [from_name from_email]. simpl.
  now destruct (Str.split "@" from_email) as [|a [|d r]].
Qed.

End SenderFacts.

Lemma validated_sender_has_domain_witness :
  1 <= 587 <= 65535
  /\ is_Some (from_domain Sample.parseaddr "gateway@example.org")
  /\ exists mail,
      send_email Sample.parseaddr Sample.formataddr Sample.make_msgid
        Sample.formatdate Sample.smtp_ok "smtp.example.org" 587 "user" "secret"
        "gateway@example.org" [("Admin", "admin@example.org")] "subject" "body" []
      = ([Smtp mail (Sample.smtp_ok [] mail); send_log (Sample.smtp_ok [] mail)],
         inr tt).
Proof.
  exact (validated_sender_has_domain Sample.parseaddr Sample.formataddr
           Sample.make_msgid Sample.formatdate Sample.smtp_ok "smtp.example.org"
           587 "user" "secret" "gateway@example.org" ""
           [("Admin", "admin@example.org")] "subject" "body" [] eq_refl eq_refl).
Defined.

(** ** Entities and their snapshots *)

Lemma object_path_some (obj : string) (v : value) (p : string) h :
  encoded obj v = Some p -> object_path obj v h = ([], inr (Some p)).
Proof.
  unfold encoded. destruct (py_int (object_id obj v)) as [e|n] eqn:E; [easy|].
  intros [= <-]. now apply object_path_ok.
Qed.

Lemma object_path_none (obj : string) (v : value) h :
  encoded obj v = None ->
  object_path obj v h
  = ([Log ERROR "Bad object ID provided: %s" [LogVal (object_id obj v)]], inr None).
Proof.
  unfold encoded. destruct (py_int (object_id obj v)) as [e|n] eqn:E; [|easy].
  intros _. apply object_path_bad. intros [n Hn]. congruence.
Qed.

Section SnapshotFacts.

Variable remote : bus.

Lemma DBusInterface_init_ok (p iface : string) (props : gmap string value) h :
  all_properties remote p iface = inr props ->
  DBusInterface_init remote p iface h
  = ([GetAll p iface],
     inr {| proxy_path := p; name := iface; properties := Some props |}).
Proof.
  intros Hp. unfold DBusInterface_init, get_properties, mbind, M_bind, bind, emit.
  now rewrite Hp.
Qed.

Lemma DBusInterface_init_unreadable (p iface e : string) h :
  all_properties remote p iface = inl (DBusException e) ->
  DBusInterface_init remote p iface h
  = ([GetAll p iface;
      Log ERROR "Cannot get %s interface properties: %s"
        [LogIface p iface; LogExn (DBusException e)]],
     inr {| proxy_path := p; name := iface; properties := None |}).
Proof.
  intros Hp.
  unfold DBusInterface_init, get_properties, mbind, M_bind, bind, emit, logging.
  now rewrite Hp.
Qed.

Lemma MMModemSms_ok (v : value) (p : string) (props : gmap string value) h :
  encoded "SMS" v = Some p ->
  valid_object_path p = true ->
  all_properties remote p sms_iface = inr props ->
  MMModemSms remote v h
  = ([GetAll p sms_iface],
     inr {| proxy_path := p; name := sms_iface; properties := Some props |}).
Proof.
  intros He Hv Hp. unfold MMModemSms.
  rewrite (bind_pure _ _ _ _ (object_path_some _ _ _ h He)).
  rewrite (bind_pure _ _ _ p (setup_proxy_object_run p h Hv)).
  now apply DBusInterface_init_ok.
Qed.

Lemma MMModem_ok (v : value) (p : string) (props : gmap string value) h :
  encoded "Modem" v = Some p ->
  valid_object_path p = true ->
  all_properties remote p modem_iface = inr props ->
  MMModem remote v h
  = ([GetAll p modem_iface],
     inr {| proxy_path := p; name := modem_iface; properties := Some props |}).
Proof.
  intros He Hv Hp. unfold MMModem.
  rewrite (bind_pure _ _ _ _ (object_path_some _ _ _ h He)).
  rewrite (bind_pure _ _ _ p (setup_proxy_object_run p h Hv)).
  now apply DBusInterface_init_ok.
Qed.

(** An encoded path that is no object path: the proxy is refused and no
    call is made on the bus. *)
Lemma construct_invalid (obj iface : string) (v : value) (p : string) h :
  encoded obj v = Some p ->
  valid_object_path p = false ->
  (path ← object_path obj v;
   q ← setup_proxy_object path;
   DBusInterface_init remote q iface) h
  = ([], inl ValueError).
Proof.
  intros He Hv.
  rewrite (bind_pure _ _ _ _ (object_path_some _ _ _ h He)).
  now apply bind_inl, setup_proxy_object_refuse.
Qed.

(** The paths that [object_path] returns are object paths exactly for
    the numbers that are not negative. *)
Lemma encoded_valid (obj : string) (v : value) (p : string) :
  obj = "SMS" \/ obj = "Modem" ->
  encoded obj v = Some p ->
  exists n, py_int (object_id obj v) = inr n
            /\ p = full_path obj n
            /\ valid_object_path p = (0 <=? n).
Proof.
  unfold encoded. intros Ho.
  destruct (py_int (object_id obj v)) as [e|n]; [discriminate|].
  intros [= <-]. exists n. split; [reflexivity|]. split; [reflexivity|].
  destruct Ho as [-> | ->]; [apply valid_sms_path|apply valid_modem_path].
Qed.

(** Constructing a message object. With an id that encodes to the path
    [p] of a number that is not negative, one [GetAll] on [p] is made and
    every later property read is served from that reply, normalized, or is
    [None] for a name the reply lacks. When the call fails with a bus
    exception the object is still constructed: the failure is logged,
    every property reads as [None], and the message does not count as
    received. With an id that encodes to the path of a negative number,
    the proxy is refused with [ValueError]; with an id that does not
    encode, the constructor raises [TypeError] after the error log. In
    both cases no call is made on the bus. *)
Theorem message_snapshot (v : value) (h : list event) :
  (forall p, encoded "SMS" v = Some p ->
             exists n, py_int (object_id "SMS" v) = inr n
                       /\ p = full_path "SMS" n
                       /\ valid_object_path p = (0 <=? n))
  /\ (forall p props,
         encoded "SMS" v = Some p ->
         valid_object_path p = true ->
         all_properties remote p sms_iface = inr props ->
         exists m,
           MMModemSms remote v h = ([GetAll p sms_iface], inr m)
           /\ proxy_path m = p
           /\ forall prop, get_property m prop = snapshot props prop)
  /\ (forall p e,
         encoded "SMS" v = Some p ->
         valid_object_path p = true ->
         all_properties remote p sms_iface = inl (DBusException e) ->
         exists m,
           MMModemSms remote v h
           = ([GetAll p sms_iface;
               Log ERROR "Cannot get %s interface properties: %s"
                 [LogIface p sms_iface; LogExn (DBusException e)]],
              inr m)
           /\ proxy_path m = p
           /\ (forall prop, get_property m prop = PyNone)
           /\ is_received m = false)
  /\ (forall p,
         encoded "SMS" v = Some p ->
         valid_object_path p = false ->
         MMModemSms remote v h = ([], inl ValueError))
  /\ (encoded "SMS" v = None ->
      MMModemSms remote v h
      = ([Log ERROR "Bad object ID provided: %s" [LogVal (object_id "SMS" v)]],
         inl TypeError)).
Proof.
  split; [|split; [|split; [|split]]].
  - intros p. apply encoded_valid. now left.
  - intros p props He Hv Hp. eexists. split; [eapply MMModemSms_ok; eassumption|].
    split; [reflexivity|]. intros prop. unfold get_property, snapshot. cbn.
    now destruct (props !! prop).
  - intros p e He Hv Hp.
    exists {| proxy_path := p; name := sms_iface; properties := None |}.
    split; [|easy].
    unfold MMModemSms.
    rewrite (bind_pure _ _ _ _ (object_path_some _ _ _ h He)).
    rewrite (bind_pure _ _ _ p (setup_proxy_object_run p h Hv)).
    now apply DBusInterface_init_unreadable.
  - intros p He Hv. now apply construct_invalid with (p := p).
  - intros He. unfold MMModemSms.
    rewrite (bind_inr _ _ _ _ _ (object_path_none _ _ h He)). reflexivity.
Qed.

(** [get_modem] and [get_sms] with an id return the entity bound to the
    encoded path when that path is in the listing and its properties can
    be read, after exactly one [GetAll]. *)
Lemma get_modem_present (self : ModemManager) (v : value) (p : string)
    (props : gmap string value) h :
  encoded "Modem" v = Some p ->
  p ∈ modems self ->
  all_properties remote p modem_iface = inr props ->
  get_modem remote self v h
  = if valid_object_path p
    then ([GetAll p modem_iface],
          inr (Some {| proxy_path := p; name := modem_iface;
                       properties := Some props |}))
    else ([], inl ValueError).
Proof.
  intros He Hin Hp. unfold get_modem.
  rewrite (bind_pure _ _ _ _ (object_path_some _ _ _ h He)).
  rewrite (bool_decide_eq_true_2 _ Hin).
  destruct (valid_object_path p) eqn:Hv.
  - rewrite (bind_inr _ _ _ _ _
               (MMModem_ok (PyStr p) p props h (encoded_idem _ _ _ He) Hv Hp)).
    reflexivity.
  - apply bind_inl.
    exact (construct_invalid "Modem" _ (PyStr p) p h (encoded_idem _ _ _ He) Hv).
Qed.

End SnapshotFacts.

Lemma message_snapshot_witness :
  exists m,
    MMModemSms Sample.example_bus (PyInt 1) []
    = ([GetAll (Sample.sms_path 1) sms_iface], inr m)
    /\ proxy_path m = Sample.sms_path 1
    /\ forall prop,
        get_property m prop
        = snapshot (Sample.sms_props "+491701234567" "Hi" 3 (Some "2024-01-01T10:00:00"))
            prop.
Proof.
  apply (proj1 (proj2 (message_snapshot Sample.example_bus (PyInt 1) [])));
    reflexivity.
Defined.

Section LookupPresent.

Variable remote : bus.
Variable fromisoformat : string -> option datetime.

(** C7 the other way round: an id whose encoded path is listed gets its
    entity, bound to that path, with the properties of the one [GetAll]
    that the lookup makes. (The paths that a bus lists are object paths;
    were the encoded path none, the proxy would be refused with
    [ValueError] before any call on the bus.) *)
Theorem lookups_find_listed (h : list event) :
  (forall (self : ModemManager) (v : value) (p : string) (props : gmap string value),
      encoded "Modem" v = Some p ->
      p ∈ modems self ->
      all_properties remote p modem_iface = inr props ->
      get_modem remote self v h
      = if valid_object_path p
        then ([GetAll p modem_iface],
              inr (Some {| proxy_path := p; name := modem_iface;
                           properties := Some props |}))
        else ([], inl ValueError))
  /\ (forall (self : DBusInterface) (sms : value) (reverse : bool)
             (l : list value) (p : string) (props : gmap string value),
         sms <> PyNone ->
         Messages self = PyList l ->
         encoded "SMS" sms = Some p ->
         listed p l ->
         all_properties remote p sms_iface = inr props ->
         get_sms remote fromisoformat self sms reverse h
         = if valid_object_path p
           then ([GetAll p sms_iface],
                 inr (SmsOne {| proxy_path := p; name := sms_iface;
                                properties := Some props |}))
           else ([], inl ValueError)).
Proof.
  split.
  - intros self v p props. apply get_modem_present.
  - intros self sms reverse l p props Hs Hl He Hin Hp.
    rewrite (get_sms_by_id _ _ _ _ _ Hs), Hl.
    rewrite (bind_pure _ _ _ _ (object_path_some _ _ _ h He)).
    cbn [from_option].
    rewrite (bind_pure _ _ _ true)
      by (rewrite lift_run; cbn [py_in]; now rewrite (proj2 (existsb_listed p l) Hin)).
    destruct (valid_object_path p) eqn:Hv.
    + rewrite (bind_inr _ _ _ _ _
                 (MMModemSms_ok remote (PyStr p) p props h
                    (encoded_idem _ _ _ He) Hv Hp)).
      reflexivity.
    + apply bind_inl.
      exact (construct_invalid remote "SMS" _ (PyStr p) p h
               (encoded_idem _ _ _ He) Hv).
Qed.

(** [get_first]: without modems the answer is [None] and nothing happens;
    otherwise the first enumerated path is encoded again, and the modem
    bound to the encoded path is returned when that path is enumerated
    (for a path in canonical form it is the first path itself); when it is
    not, the answer is [None] although modems are attached. (An encoded
    path that is no object path, which no bus enumerates, is refused with
    [ValueError] instead of being bound.)
    [get_modem_by] without a search value is [get_first], whatever the
    property name. *)
Theorem get_first_cases (self : ModemManager) (h : list event) :
  (modems self = [] -> get_first remote self h = ([], inr None))
  /\ (forall first rest p props,
         modems self = first :: rest ->
         encoded "Modem" (PyStr first) = Some p ->
         p ∈ modems self ->
         all_properties remote p modem_iface = inr props ->
         get_first remote self h
         = if valid_object_path p
           then ([GetAll p modem_iface],
                 inr (Some {| proxy_path := p; name := modem_iface;
                              properties := Some props |}))
           else ([], inl ValueError))
  /\ (forall first rest n,
         modems self = first :: rest ->
         first = full_path "Modem" n ->
         encoded "Modem" (PyStr first) = Some first /\ first ∈ modems self)
  /\ (forall first rest,
         modems self = first :: rest ->
         (forall p, encoded "Modem" (PyStr first) = Some p -> p ∉ modems self) ->
         exists ev, get_first remote self h = (ev, inr None)
                    /\ forallb is_log ev = true)
  /\ (forall prop ev r,
         get_first remote self h = (ev, inr r) ->
         get_modem_by remote self prop PyNone h
         = (ev, inr (from_option ModemOne ModemNone r))).
Proof.
  split; [|split; [|split; [|split]]].
  - intros Hm. unfold get_first. now rewrite Hm.
  - intros first rest p props Hm He Hin Hp. unfold get_first. rewrite Hm.
    now apply get_modem_present.
  - intros first rest n Hm ->. split; [apply encoded_full_path|].
    rewrite Hm. now left.
  - intros first rest Hm Habs. unfold get_first. rewrite Hm.
    now apply get_modem_absent.
  - intros prop ev r E. cbn [get_modem_by].
    rewrite (bind_inr _ _ _ _ _ E). cbn. now rewrite app_nil_r.
Qed.

End LookupPresent.

Lemma lookups_find_listed_witness :
  get_sms Sample.example_bus Sample.fromisoformat
    (Sample.messaging_of Sample.example_msgs) (PyInt 2) true []
  = ([GetAll (Sample.sms_path 2) sms_iface],
     inr (SmsOne {| proxy_path := Sample.sms_path 2; name := sms_iface;
                    properties :=
                      Some (Sample.sms_props "+491707654321" "Sent" 5
                              (Some "2024-01-02T10:00:00")) |})).
Proof.
  refine (proj2 (lookups_find_listed Sample.example_bus Sample.fromisoformat [])
            (Sample.messaging_of Sample.example_msgs) (PyInt 2) true
            [PyStr (Sample.sms_path 1); PyStr (Sample.sms_path 2)]
            (Sample.sms_path 2)
            (Sample.sms_props "+491707654321" "Sent" 5 (Some "2024-01-02T10:00:00"))
            _ _ _ _ _).
  - discriminate.
  - vm_compute. reflexivity.
  - reflexivity.
  - exists (PyStr (Sample.sms_path 2)). split; [|reflexivity].
    right. left.
  - reflexivity.
Defined.

Lemma get_first_cases_witness :
  get_first Sample.example_bus Sample.manager []
  = ([GetAll Sample.modem0 modem_iface],
     inr (Some {| proxy_path := Sample.modem0; name := modem_iface;
                  properties := Some Sample.modem_props |})).
Proof.
  refine (proj1 (proj2 (get_first_cases Sample.example_bus Sample.manager []))
            Sample.modem0 [] Sample.modem0 Sample.modem_props _ _ _ _).
  - reflexivity.
  - reflexivity.
  - left.
  - reflexivity.
Defined.

(** ** Dates *)

Section DateFacts.

Variable fromisoformat : string -> option datetime.
Variable strftime : datetime -> string -> string.

(** [get_date]: a message without timestamp gets the placeholder text and
    no log line; a timestamp that does not parse gets the placeholder and
    one warning; a timestamp that parses is formatted; a timestamp that is
    not a string raises [TypeError], which [get_datetime] does not catch. *)
Theorem get_date_cases (m : DBusInterface) (h : list event) :
  (py_truthy (Timestamp m) = false ->
   get_date fromisoformat strftime m h = ([], inr "Datum nicht verfügbar"))
  /\ (forall s,
         as_str (Timestamp m) = Some s -> s <> "" -> fromisoformat s = None ->
         get_date fromisoformat strftime m h
         = ([Log WARNING "Invalid timestamp format: %s" [LogVal (Timestamp m)]],
            inr "Datum nicht verfügbar"))
  /\ (forall s d,
         as_str (Timestamp m) = Some s -> s <> "" -> fromisoformat s = Some d ->
         get_date fromisoformat strftime m h
         = ([], inr (strftime d "%d.%m.%Y, %H:%M:%S Uhr")))
  /\ (py_truthy (Timestamp m) = true -> as_str (Timestamp m) = None ->
      get_date fromisoformat strftime m h = ([], inl TypeError)).
Proof.
  assert (Ht : forall s, as_str (Timestamp m) = Some s -> s <> "" ->
                         py_truthy (Timestamp m) = true).
  { intros s Hs Hne. destruct (Timestamp m); try discriminate Hs;
      injection Hs as ->; cbn; now rewrite (proj2 (String.eqb_neq _ _) Hne). }
  unfold get_date, get_datetime, mbind, M_bind, bind, logging, emit.
  split; [|split; [|split]].
  - now intros ->.
  - intros s Hs Hne Hp. now rewrite (Ht s Hs Hne), Hs, Hp.
  - intros s d Hs Hne Hp. now rewrite (Ht s Hs Hne), Hs, Hp.
  - now intros -> ->.
Qed.

End DateFacts.

Lemma get_date_cases_witness :
  get_date Sample.fromisoformat Sample.strftime
    (Sample.sms_object 1 (Sample.sms_props "+491701234567" "Hi" 3 (Some "yesterday"))) []
  = ([Log WARNING "Invalid timestamp format: %s"
        [LogVal (Timestamp
                   (Sample.sms_object 1
                      (Sample.sms_props "+491701234567" "Hi" 3 (Some "yesterday"))))]],
     inr "Datum nicht verfügbar")
  /\ get_date Sample.fromisoformat Sample.strftime
       (Sample.sms_object 1 (Sample.sms_props "+491701234567" "Hi" 3 None)) []
     = ([], inr "Datum nicht verfügbar").
Proof.
  split.
  - apply (proj1 (proj2 (get_date_cases Sample.fromisoformat Sample.strftime _ [])))
      with (s := "yesterday"); [reflexivity|discriminate|reflexivity].
  - apply (proj1 (get_date_cases Sample.fromisoformat Sample.strftime _ [])).
    reflexivity.
Defined.

(** ** Wire values, at any depth of arrays *)

(** Whatever comes off the wire, [type_cast] leaves none of the classes it
    converts, neither at the top nor in the items of arrays at any depth.
    Structs are not entered: their fields keep their wire classes. *)
Theorem type_cast_normalized (v : value) :
  wire v = true -> normalized (type_cast v) = true.
Proof.
  revert v. fix IH 1. intros [ | s | n | l | c s | c n | l | l ]; cbn; try easy.
  - now destruct c.
  - now destruct c.
  - induction l as [|x l IHl]; cbn; [easy|].
    intros [Hx Hl]%andb_prop. now rewrite (IH x Hx), (IHl Hl).
Qed.

Lemma type_cast_normalized_witness :
  normalized
    (type_cast (DBusArray [DBusArray [DBusStr ObjectPath "/a"; DBusInt UInt32 3];
                           DBusArray [DBusStruct [DBusStr String_ "tty"]]]))
  = true.
Proof. apply type_cast_normalized. reflexivity. Defined.

(** ** Computations that do not look at the past *)

Lemma steady_ret {A} (a : A) : steady (ret a).
Proof. easy. Qed.

Lemma steady_raise {A} (e : exn) : steady (@raise A e).
Proof. easy. Qed.

Lemma steady_lift {A} (x : result A) : steady (lift x).
Proof. easy. Qed.

Lemma steady_emit (e : event) : steady (emit e).
Proof. easy. Qed.

Lemma steady_bind {A B} (m : M A) (f : A -> M B) :
  steady m -> (forall a, steady (f a)) -> steady (m ≫= f).
Proof.
  intros Hm Hf h h'. unfold mbind, M_bind, bind. rewrite (Hm h h').
  destruct (m h') as [ev [e|a]]; [reflexivity|].
  now rewrite (Hf a (h ++ ev) (h' ++ ev)).
Qed.

Lemma steady_map_m {A B} (f : A -> M B) (l : list A) :
  (forall a, steady (f a)) -> steady (map_m f l).
Proof.
  intros Hf. induction l as [|x l IH]; cbn [map_m]; [apply steady_ret|].
  apply steady_bind; [apply Hf|]. intros y.
  apply steady_bind; [apply IH|]. intros ys. apply steady_ret.
Qed.

Lemma steady_filter_map_m {A B} (p : B -> M bool) (f : A -> M B) (l : list A) :
  (forall a, steady (f a)) -> (forall b, steady (p b)) -> steady (filter_map_m p f l).
Proof.
  intros Hf Hp. induction l as [|x l IH]; cbn [filter_map_m]; [apply steady_ret|].
  apply steady_bind; [apply Hf|]. intros y.
  apply steady_bind; [apply Hp|]. intros k.
  apply steady_bind; [apply IH|]. intros ys. apply steady_ret.
Qed.

Lemma steady_object_path (obj : string) (v : value) : steady (object_path obj v).
Proof.
  intros h h'. unfold object_path.
  now destruct (py_int (object_id obj v)) as [[]|].
Qed.

Ltac steady_step :=
  lazymatch goal with
  | |- steady (ret _) => apply steady_ret
  | |- steady (raise _) => apply steady_raise
  | |- steady (lift _) => apply steady_lift
  | |- steady (emit _) => apply steady_emit
  | |- steady (logging _ _ _) => apply steady_emit
  | |- steady (object_path _ _) => apply steady_object_path
  | |- steady (_ ≫= _) => apply steady_bind; [|intros ?]
  end.

Section SteadyFacts.

Variable remote : bus.
Variable fromisoformat : string -> option datetime.

Lemma steady_DBusInterface_init path iface :
  steady (DBusInterface_init remote path iface).
Proof.
  unfold DBusInterface_init, get_properties. repeat steady_step.
  destruct (all_properties remote path iface) as [[]|]; repeat steady_step.
Qed.

Lemma steady_construct (obj iface : string) (v : value) :
  steady (path ← object_path obj v;
          p ← setup_proxy_object path;
          DBusInterface_init remote p iface).
Proof.
  repeat steady_step.
  - unfold setup_proxy_object.
    destruct a as [p|]; [destruct (valid_object_path p)|]; steady_step.
  - apply steady_DBusInterface_init.
Qed.

Lemma steady_get_datetime m : steady (get_datetime fromisoformat m).
Proof.
  unfold get_datetime.
  destruct (py_truthy _); [|steady_step].
  destruct (as_str _); [|steady_step].
  destruct (fromisoformat _); repeat steady_step.
Qed.

Lemma steady_get_sms_list self reverse :
  steady (get_sms remote fromisoformat self PyNone reverse).
Proof.
  cbn [get_sms]. repeat steady_step.
  - apply steady_filter_map_m; [intros; apply steady_construct|intros; steady_step].
  - apply steady_map_m. intros m. unfold sort_key. repeat steady_step.
    apply steady_get_datetime.
Qed.

Lemma steady_get_first self : steady (get_first remote self).
Proof.
  unfold get_first. destruct (modems self); [steady_step|].
  unfold get_modem. repeat steady_step.
  destruct a; [|steady_step]. case_bool_decide; repeat steady_step.
  apply steady_construct.
Qed.

Lemma steady_ModemManager_init : steady (ModemManager_init remote).
Proof. unfold ModemManager_init, get_modems_list. repeat steady_step. Qed.

Lemma steady_MMModemMessaging modem : steady (MMModemMessaging remote modem).
Proof. apply steady_DBusInterface_init. Qed.

End SteadyFacts.

(** ** More on delivery *)

Section DeliveryMore.

Variable remote : bus.
Variable fromisoformat : string -> option datetime.
Variable strftime : datetime -> string -> string.
Variable py_str : value -> string.
Variable parseaddr : string -> string * string.
Variable formataddr : string * string -> result string.
Variable make_msgid : list event -> string -> string.
Variable formatdate : list event -> string.
Variable smtp_session : list event -> email -> option exn.
Variable bus_delete : list event -> string -> string -> option exn.
Variable smtp_server : string.
Variable smtp_port : Z.
Variable smtp_user smtp_password mail_from : string.
Variable cfg : config.

Local Abbreviation turn :=
  (process_message fromisoformat strftime py_str parseaddr formataddr make_msgid
     formatdate smtp_session bus_delete smtp_server smtp_port smtp_user
     smtp_password mail_from cfg).
Local Abbreviation cycle :=
  (process_messages remote fromisoformat strftime py_str parseaddr formataddr
     make_msgid formatdate smtp_session bus_delete smtp_server smtp_port
     smtp_user smtp_password mail_from cfg).
Local Abbreviation tries := (attempts fromisoformat strftime py_str cfg).

(** The attempts of a cycle that found a modem and its received messages. *)
Lemma cycle_run (h ev1 ev2 ev3 ev4 : list event)
    (mm : ModemManager) (modem messaging : DBusInterface)
    (l : list DBusInterface) (p : string * string * string) :
  ModemManager_init remote h = (ev1, inr mm) ->
  get_first remote mm (h ++ ev1) = (ev2, inr (Some modem)) ->
  MMModemMessaging remote modem ((h ++ ev1) ++ ev2) = (ev3, inr messaging) ->
  get_sms remote fromisoformat messaging PyNone true (((h ++ ev1) ++ ev2) ++ ev3)
  = (ev4, inr (SmsList l)) ->
  prepared parseaddr formataddr mail_from (mail_to cfg) = inr p ->
  Forall (fun m => py_hashable (Number m) = true) l ->
  exists ev, cycle h = (ev, inr tt) /\ actions ev = flat_map tries l.
Proof.
  intros E1 E2 E3 E4 Hd Hh.
  pose proof (received_render _ _ _ _ _ _ _ E4 Hh) as Hr.
  destruct (loop_run fromisoformat strftime py_str parseaddr formataddr make_msgid
              formatdate smtp_session bus_delete smtp_server smtp_port smtp_user
              smtp_password mail_from cfg messaging l p
              ((((h ++ ev1) ++ ev2) ++ ev3) ++ ev4) Hd Hr)
    as (ev5 & E5 & A5).
  exists (ev1 ++ ev2 ++ ev3 ++ ev4 ++ ev5). split.
  - unfold process_messages.
    rewrite (bind_inr _ _ _ _ _ E1), (bind_inr _ _ _ _ _ E2).
    cbn match. rewrite (bind_inr _ _ _ _ _ E3), (bind_inr _ _ _ _ _ E4).
    cbn match. rewrite E5. reflexivity.
  - rewrite !actions_app.
    rewrite (quiet_ModemManager_init remote _ _ _ E1).
    rewrite (quiet_get_first remote _ _ _ _ E2).
    rewrite (quiet_MMModemMessaging remote _ _ _ _ E3).
    rewrite (quiet_get_sms remote fromisoformat _ _ _ _ _ _ E4).
    exact A5.
Qed.

(** A cycle stops at whatever the fetch raises: when the enumeration of
    the manager fails, the cycle raises the same exception after that one
    call; when the messaging interface of the modem cannot be read, or its
    reply has no [Messages], the cycle raises [TypeError]. In neither case
    is anything sent or deleted. *)
Theorem cycle_fetch_failures (h : list event) :
  (forall e, managed_objects remote = inl e ->
             cycle h = ([GetManagedObjects mm_root], inl e))
  /\ (forall ev1 ev2 mm modem,
         ModemManager_init remote h = (ev1, inr mm) ->
         get_first remote mm (h ++ ev1) = (ev2, inr (Some modem)) ->
         actions (ev1 ++ ev2) = []
         /\ (forall e,
                all_properties remote (proxy_path modem) messaging_iface
                = inl (DBusException e) ->
                cycle h
                = (ev1 ++ ev2
                   ++ [GetAll (proxy_path modem) messaging_iface;
                       Log ERROR "Cannot get %s interface properties: %s"
                         [LogIface (proxy_path modem) messaging_iface;
                          LogExn (DBusException e)]],
                   inl TypeError))
         /\ (forall props,
                all_properties remote (proxy_path modem) messaging_iface = inr props ->
                props !! "Messages" = None ->
                cycle h
                = (ev1 ++ ev2 ++ [GetAll (proxy_path modem) messaging_iface],
                   inl TypeError))).
Proof.
  split.
  - intros e He. unfold process_messages, ModemManager_init, get_modems_list,
      mbind, M_bind, bind, emit, lift. now rewrite He.
  - intros ev1 ev2 mm modem E1 E2. split; [|split].
    + rewrite actions_app, (quiet_ModemManager_init remote _ _ _ E1).
      now rewrite (quiet_get_first remote _ _ _ _ E2).
    + intros e He. unfold process_messages.
      rewrite (bind_inr _ _ _ _ _ E1), (bind_inr _ _ _ _ _ E2). cbn match.
      unfold MMModemMessaging.
      rewrite (bind_inr _ _ _ _ _ (DBusInterface_init_unreadable remote _ _ _ _ He)).
      cbn. now rewrite ?app_nil_r.
    + intros props Hp Hm. unfold process_messages.
      rewrite (bind_inr _ _ _ _ _ E1), (bind_inr _ _ _ _ _ E2). cbn match.
      unfold MMModemMessaging.
      rewrite (bind_inr _ _ _ _ _ (DBusInterface_init_ok remote _ _ _ _ Hp)).
      cbn [get_sms fst snd].
      assert (Hmsg : Messages {| proxy_path := proxy_path modem;
                                 name := messaging_iface;
                                 properties := Some props |} = PyNone)
        by (unfold Messages, get_property; cbn; now rewrite Hm).
      unfold messaging_iface in *. rewrite Hmsg. cbn. now rewrite ?app_nil_r.
Qed.

(** A sender address without domain part ends the loop at the first
    message: [IndexError] leaves [send_email], the turn and the loop, and
    the only events are log lines; nothing is sent, nothing deleted, also
    with delete-after-send enabled. *)
Theorem sender_without_domain_aborts (messaging m : DBusInterface)
    (rest : list DBusInterface) (h : list event) :
  from_domain parseaddr mail_from = None ->
  renders m = true ->
  exists logs,
    forallb is_log logs = true
    /\ turn messaging m h = (logs, inl IndexError)
    /\ for_each (m :: rest) (turn messaging) h = (logs, inl IndexError).
Proof.
  intros Hd Hr. destruct (renders_inv fromisoformat cfg _ Hr) as (Hn & _).
  set (l0 := Log INFO "SMS from %s: %s" [LogVal (Number m); LogVal (Text m)]).
  destruct (get_date_run fromisoformat strftime cfg m (h ++ [l0]) Hr)
    as (dlogs & Hdlogs & Edate).
  assert (E : turn messaging m h = (l0 :: dlogs, inl IndexError)).
  { unfold process_message.
    rewrite (bind_pure _ _ _ _ (f_equal (pair []) Hn)).
    rewrite (bind_inr _ _ h [l0] tt eq_refl).
    rewrite (bind_inr _ _ _ _ _ Edate).
    rewrite (bind_inl _ _ _ [] IndexError)
      by now apply send_email_no_domain.
    cbn. now rewrite app_nil_r. }
  exists (l0 :: dlogs). repeat split; try assumption.
  cbn [for_each]. now rewrite (bind_inl _ _ _ _ _ E).
Qed.

Lemma deletes_of_attempts (l : list DBusInterface) :
  List.filter is_delete (flat_map tries l)
  = if delete_after_sending cfg
    then List.map (fun m => DeleteAttempt (proxy_path m)) l
    else [].
Proof.
  induction l as [|m l IH]; cbn [flat_map List.map].
  - now destruct (delete_after_sending cfg).
  - rewrite List.filter_app, IH. unfold attempts.
    now destruct (delete_after_sending cfg).
Qed.

(** A failing [Delete] call is logged and goes no further: when
    [send_email] can build the headers from the configured addresses, the
    loop runs to its end for every behaviour of the bus, with one delete
    attempt per message, in order, when delete-after-send is enabled, and
    with none at all when it is disabled. *)
Theorem delete_failure_is_contained (messaging : DBusInterface)
    (l : list DBusInterface) (p : string * string * string) (h : list event) :
  prepared parseaddr formataddr mail_from (mail_to cfg) = inr p ->
  Forall (fun m => renders m = true) l ->
  (forall q h',
      let r := bus_delete h' (proxy_path messaging) q in
      try_except
        (delete_sms bus_delete messaging q;;
         logging INFO "Deleted SMS %s" [LogStr q])
        (fun e => logging ERROR "Failed to delete SMS %s: %s" [LogStr q; LogExn e]) h'
      = ([Delete (proxy_path messaging) q r; delete_log q r], inr tt)
      /\ (forall e, r = Some e ->
                    delete_log q r
                    = Log ERROR "Failed to delete SMS %s: %s" [LogStr q; LogExn e]))
  /\ exists ev,
      for_each l (turn messaging) h = (ev, inr tt)
      /\ List.filter is_delete (actions ev)
         = if delete_after_sending cfg
           then List.map (fun m => DeleteAttempt (proxy_path m)) l
           else [].
Proof.
  intros Hd Hr. split.
  - intros q h' r. split; [apply delete_run|]. now intros e ->.
  - destruct (loop_run fromisoformat strftime py_str parseaddr formataddr make_msgid
                formatdate smtp_session bus_delete smtp_server smtp_port smtp_user
                smtp_password mail_from cfg messaging l p h Hd Hr) as (ev & E & A).
    exists ev. split; [exact E|]. rewrite A. apply deletes_of_attempts.
Qed.

(** When [send_email] can build the headers from the configured
    addresses, the mail for a message names the sender by the entry of
    [known_senders] for the number, and by the number itself when there is
    no entry; the same name opens the body. *)
Theorem subject_uses_known_sender (messaging msg : DBusInterface)
    (n : string) (p : string * string * string) (h : list event) :
  Number msg = PyStr n ->
  prepared parseaddr formataddr mail_from (mail_to cfg) = inr p ->
  renders msg = true ->
  exists ev mail r,
    turn messaging msg h = (ev, inr tt)
    /\ Smtp mail r ∈ ev
    /\ mail_subject mail
       = "New SMS from " +:+ py_str (PyStr (default n (known_senders cfg !! n)))
    /\ mail_body mail
       = "From: " +:+ py_str (PyStr (default n (known_senders cfg !! n))) +:+ "
Date: " +:+ date_of fromisoformat strftime msg +:+ "

" +:+ py_str (Text msg).
Proof.
  intros Hn Hd Hr.
  destruct (process_message_run fromisoformat strftime py_str parseaddr formataddr
              make_msgid formatdate smtp_session bus_delete smtp_server smtp_port
              smtp_user smtp_password mail_from cfg messaging msg p h Hd Hr)
    as (logs & mail & _ & Hs & Hb & E).
  assert (Hname : sender_name_of cfg msg = PyStr (default n (known_senders cfg !! n))).
  { unfold sender_name_of, dict_get. rewrite Hn. cbn.
    now destruct (known_senders cfg !! n). }
  unfold subject_of, body_of in *. rewrite Hname in *.
  exists (let r := smtp_session (h ++ logs) mail in
          let sent := logs ++ [Smtp mail r; send_log r] in
          if delete_after_sending cfg
          then sent ++ [Delete (proxy_path messaging) (proxy_path msg)
                          (bus_delete (h ++ sent) (proxy_path messaging) (proxy_path msg));
                        delete_log (proxy_path msg)
                          (bus_delete (h ++ sent) (proxy_path messaging) (proxy_path msg))]
          else sent),
    mail, (smtp_session (h ++ logs) mail).
  repeat split; try assumption.
  cbn zeta. destruct (delete_after_sending cfg);
    rewrite ?elem_of_app, !elem_of_cons; tauto.
Qed.

End DeliveryMore.

(** ** Lookups only read *)

Section ReadOnly.

Variable remote : bus.
Variable fromisoformat : string -> option datetime.

Lemma quiet_get_modem_by self prop val : quiet (get_modem_by remote self prop val).
Proof.
  assert (Hq : quiet
    (if bool_decide (prop ∈ allowed_names) then
       found ← filter_map_m (fun x => lift (py_in val (get_property x prop)))
                 (MMModem remote) (List.map PyStr (modems self));
       match found with
       | [m] => ret (ModemOne m)
       | _ => ret (ModemList found)
       end
     else ret ModemNone)).
  { case_bool_decide; [|quiet_step]. quiet_step.
    - apply quiet_filter_map_m; [apply quiet_MMModem|intros; quiet_step].
    - destruct a as [|m [|m' r]]; quiet_step. }
  destruct val; try exact Hq.
  cbn [get_modem_by]. quiet_step; [apply quiet_get_first|quiet_step].
Qed.

(** The enumeration of the modems and every lookup ([get_first],
    [get_modem], [get_modem_by], [get_sms] with or without an id) make no
    SMTP session and no [Delete] call, whether they return or raise. *)
Theorem lookups_are_read_only :
  quiet (ModemManager_init remote)
  /\ (forall self, quiet (get_first remote self))
  /\ (forall self modem, quiet (get_modem remote self modem))
  /\ (forall self prop val, quiet (get_modem_by remote self prop val))
  /\ (forall modem, quiet (MMModemMessaging remote modem))
  /\ (forall self sms reverse, quiet (get_sms remote fromisoformat self sms reverse)).
Proof.
  repeat split.
  - apply quiet_ModemManager_init.
  - apply quiet_get_first.
  - apply quiet_get_modem.
  - apply quiet_get_modem_by.
  - apply quiet_MMModemMessaging.
  - apply quiet_get_sms.
Qed.

End ReadOnly.

Lemma lookups_are_read_only_witness :
  actions
    [GetAll (Sample.sms_path 1) sms_iface; GetAll (Sample.sms_path 2) sms_iface] = [].
Proof.
  refine (proj2 (proj2 (proj2 (proj2 (proj2
            (lookups_are_read_only Sample.mixed_bus Sample.fromisoformat)))))
            (Sample.messaging_of Sample.mixed_msgs) PyNone true [] _ (inl TypeError) _).
  vm_compute. reflexivity.
Defined.

(** ** The main loop *)

Section MainFacts.

Variable remote_at : nat -> bus.
Variable fromisoformat : string -> option datetime.
Variable strftime : datetime -> string -> string.
Variable py_str : value -> string.
Variable parseaddr : string -> string * string.
Variable formataddr : string * string -> result string.
Variable make_msgid : list event -> string -> string.
Variable formatdate : list event -> string.
Variable smtp_session : list event -> email -> option exn.
Variable bus_delete : list event -> string -> string -> option exn.
Variable sleep : Z -> M unit.
Variable smtp_server : string.
Variable smtp_port : Z.
Variable smtp_user smtp_password mail_from : string.
Variable cfg : config.

Local Abbreviation run :=
  (main remote_at fromisoformat strftime py_str parseaddr formataddr make_msgid
     formatdate smtp_session bus_delete sleep smtp_server smtp_port smtp_user
     smtp_password mail_from cfg).
Local Abbreviation loop :=
  (polling remote_at fromisoformat strftime py_str parseaddr formataddr make_msgid
     formatdate smtp_session bus_delete sleep smtp_server smtp_port smtp_user
     smtp_password mail_from cfg).

Lemma sends_of_attempts (l : list DBusInterface) :
  delete_after_sending cfg = false ->
  flat_map (attempts fromisoformat strftime py_str cfg) l
  = List.map (fun m => SendAttempt (subject_of py_str cfg m)
                         (body_of fromisoformat strftime py_str cfg m)) l.
Proof.
  intros Hdel. induction l as [|m l IH]; [reflexivity|].
  cbn [flat_map List.map]. rewrite IH. unfold attempts. now rewrite Hdel.
Qed.


End MainFacts.


(** ** The further properties on the sample bus *)


Lemma get_modem_by_matches_witness :
  get_modem_by Sample.example_bus Sample.manager "Frequency" (PyStr "QUECTEL") []
  = ([], inr ModemNone)
  /\ get_modem_by Sample.example_bus Sample.manager "Model" (PyStr "QUECTEL") []
     = ([GetAll Sample.modem0 modem_iface],
        inr (ModemOne {| proxy_path := Sample.modem0; name := modem_iface;
                         properties := Some Sample.modem_props |}))
  /\ get_modem_by Sample.example_bus Sample.manager "OwnNumbers" (PyStr "+49170") []
     = ([GetAll Sample.modem0 modem_iface], inr (ModemList [])).
Proof.
  split; [|split].
  - apply (proj1 (get_modem_by_matches Sample.example_bus Sample.manager "Frequency"
                    (PyStr "QUECTEL") [] ltac:(discriminate))).
    vm_compute. intros H.
    repeat (apply elem_of_cons in H as [H|H]; [discriminate H|]).
    inversion H.
  - apply (proj2 (get_modem_by_matches Sample.example_bus Sample.manager "Model"
                    (PyStr "QUECTEL") [] ltac:(discriminate))
             [GetAll Sample.modem0 modem_iface]
             [{| proxy_path := Sample.modem0; name := modem_iface;
                 properties := Some Sample.modem_props |}]).
    + unfold allowed_names. rewrite !elem_of_cons. tauto.
    + vm_compute. reflexivity.
    + repeat constructor. eexists. vm_compute. reflexivity.
  - apply (proj2 (get_modem_by_matches Sample.example_bus Sample.manager "OwnNumbers"
                    (PyStr "+49170") [] ltac:(discriminate))
             [GetAll Sample.modem0 modem_iface]
             [{| proxy_path := Sample.modem0; name := modem_iface;
                 properties := Some Sample.modem_props |}]).
    + unfold allowed_names. rewrite !elem_of_cons. tauto.
    + vm_compute. reflexivity.
    + repeat constructor. eexists. vm_compute. reflexivity.
Defined.

Lemma get_modem_by_int_property_witness :
  get_modem_by Sample.example_bus Sample.manager "State" (PyStr "8") []
  = ([GetAll (full_path "Modem" 0) "org.freedesktop.ModemManager1.Modem"],
     inl TypeError).
Proof.
  apply (get_modem_by_int_property Sample.example_bus Sample.manager "State"
           (PyStr "8") 0 [] Sample.modem_props Int32 8 []).
  - discriminate.
  - unfold allowed_names. rewrite !elem_of_cons. tauto.
  - reflexivity.
  - reflexivity.
  - vm_compute. reflexivity.
Defined.

Lemma cycle_fetch_failures_witness :
  Sample.cycle
    {| managed_objects := inl (DBusException "org.freedesktop.DBus.Error.ServiceUnknown");
       all_properties _ _ := inl (DBusException "org.freedesktop.DBus.Error.ServiceUnknown") |}
    Sample.smtp_ok Sample.delete_ok true []
  = ([GetManagedObjects mm_root],
     inl (DBusException "org.freedesktop.DBus.Error.ServiceUnknown"))
  /\ Sample.cycle
       {| managed_objects := inr [DBusStr ObjectPath Sample.modem0];
          all_properties path iface :=
            if String.eqb iface modem_iface then inr Sample.modem_props
            else inl (DBusException "org.freedesktop.DBus.Error.UnknownInterface") |}
       Sample.smtp_ok Sample.delete_ok true []
     = ([GetManagedObjects mm_root] ++ [GetAll Sample.modem0 modem_iface]
        ++ [GetAll Sample.modem0 messaging_iface;
            Log ERROR "Cannot get %s interface properties: %s"
              [LogIface Sample.modem0 messaging_iface;
               LogExn (DBusException "org.freedesktop.DBus.Error.UnknownInterface")]],
        inl TypeError).
Proof.
  split.
  - apply (proj1 (cycle_fetch_failures _ Sample.fromisoformat Sample.strftime
                    Sample.py_str Sample.parseaddr Sample.formataddr Sample.make_msgid
                    Sample.formatdate Sample.smtp_ok Sample.delete_ok
                    "smtp.example.org" 587 "user" "secret" "gateway@example.org"
                    (Sample.cfg true) [])).
    reflexivity.
  - refine (proj1 (proj2 (proj2 (cycle_fetch_failures _ Sample.fromisoformat
                    Sample.strftime Sample.py_str Sample.parseaddr Sample.formataddr
                    Sample.make_msgid Sample.formatdate Sample.smtp_ok Sample.delete_ok
                    "smtp.example.org" 587 "user" "secret" "gateway@example.org"
                    (Sample.cfg true) [])
                    [GetManagedObjects mm_root] [GetAll Sample.modem0 modem_iface]
                    Sample.manager
                    {| proxy_path := Sample.modem0; name := modem_iface;
                       properties := Some Sample.modem_props |} _ _))
              "org.freedesktop.DBus.Error.UnknownInterface" _).
    + vm_compute. reflexivity.
    + vm_compute. reflexivity.
    + reflexivity.
Defined.

Lemma sender_without_domain_aborts_witness :
  exists logs,
    forallb is_log logs = true
    /\ process_message Sample.fromisoformat Sample.strftime Sample.py_str
         Sample.parseaddr Sample.formataddr Sample.make_msgid Sample.formatdate
         Sample.smtp_ok Sample.delete_ok "smtp.example.org" 587 "user" "secret"
         "gateway" (Sample.cfg true) (Sample.messaging_of Sample.two_msgs)
         (Sample.sms_object 2
            (Sample.sms_props "+491707654321" "Ho" 3 (Some "2024-01-02T10:00:00"))) []
       = (logs, inl IndexError)
    /\ for_each Sample.two_received
         (process_message Sample.fromisoformat Sample.strftime Sample.py_str
            Sample.parseaddr Sample.formataddr Sample.make_msgid Sample.formatdate
            Sample.smtp_ok Sample.delete_ok "smtp.example.org" 587 "user" "secret"
            "gateway" (Sample.cfg true) (Sample.messaging_of Sample.two_msgs)) []
       = (logs, inl IndexError).
Proof.
  apply (sender_without_domain_aborts Sample.fromisoformat Sample.strftime
           Sample.py_str Sample.parseaddr Sample.formataddr Sample.make_msgid
           Sample.formatdate Sample.smtp_ok Sample.delete_ok
           "smtp.example.org" 587 "user" "secret" "gateway" (Sample.cfg true));
    reflexivity.
Defined.

Lemma delete_failure_is_contained_witness :
  exists ev,
    for_each Sample.two_received
      (Sample.turn Sample.smtp_ok
         (fun _ _ _ => Some (DBusException "org.freedesktop.DBus.Error.Failed")) true
         (Sample.messaging_of Sample.two_msgs)) []
    = (ev, inr tt)
    /\ List.filter is_delete (actions ev)
       = [DeleteAttempt (Sample.sms_path 2); DeleteAttempt (Sample.sms_path 1)].
Proof.
  refine (proj2 (delete_failure_is_contained Sample.fromisoformat Sample.strftime
                   Sample.py_str Sample.parseaddr Sample.formataddr Sample.make_msgid
                   Sample.formatdate Sample.smtp_ok
                   (fun _ _ _ => Some (DBusException "org.freedesktop.DBus.Error.Failed"))
                   "smtp.example.org" 587 "user" "secret" "gateway@example.org"
                   (Sample.cfg true) (Sample.messaging_of Sample.two_msgs)
                   Sample.two_received
                   ("example.org", "Admin <admin@example.org>", "gateway@example.org") [] _ _)).
  - reflexivity.
  - repeat constructor.
Defined.

Lemma subject_uses_known_sender_witness :
  exists ev mail r,
    process_message Sample.fromisoformat Sample.strftime Sample.py_str
      Sample.parseaddr Sample.formataddr Sample.make_msgid Sample.formatdate
      Sample.smtp_ok Sample.delete_ok "smtp.example.org" 587 "user" "secret"
      "gateway@example.org"
      {| mail_to := [("Admin", "admin@example.org")];
         known_senders := {[ "+491701234567" := "Alice" ]};
         interval := 60;
         delete_after_sending := false;
         continuous_mode := false |}
      (Sample.messaging_of Sample.example_msgs)
      (Sample.sms_object 1
         (Sample.sms_props "+491701234567" "Hi" 3 (Some "2024-01-01T10:00:00"))) []
    = (ev, inr tt)
    /\ Smtp mail r ∈ ev
    /\ mail_subject mail = "New SMS from Alice".
Proof.
  edestruct (subject_uses_known_sender Sample.fromisoformat Sample.strftime
               Sample.py_str Sample.parseaddr Sample.formataddr Sample.make_msgid
               Sample.formatdate Sample.smtp_ok Sample.delete_ok
               "smtp.example.org" 587 "user" "secret" "gateway@example.org"
               {| mail_to := [("Admin", "admin@example.org")];
                  known_senders := {[ "+491701234567" := "Alice" ]};
                  interval := 60;
                  delete_after_sending := false;
                  continuous_mode := false |}
               (Sample.messaging_of Sample.example_msgs)
               (Sample.sms_object 1
                  (Sample.sms_props "+491701234567" "Hi" 3 (Some "2024-01-01T10:00:00")))
               "+491701234567"
               ("example.org", "Admin <admin@example.org>", "gateway@example.org") [])
    as (ev & mail & r & E & Hin & Hs & _).
  - vm_compute. reflexivity.
  - reflexivity.
  - reflexivity.
  - exists ev, mail, r. repeat split; assumption.
Defined.
